(** * Optimal lineup allocation and starter-slot inference

    A shallow embedding of [get_starter_counts], [best_flex] and
    [optimal_lineup_score] of [gamedaybot/espn/functionality.py], and the
    properties of the allocation that the specification states.

    Python dictionaries keep insertion order, and that order is observable
    here (it drives the iteration over the slot configuration and the ties of
    the stable sort), so a dictionary is an association list with unique keys.
    The statements of the source run in a small state-and-exception monad:
    the state is the frame of local variables, an exception keeps the state
    reached when it was raised, and [try ... except KeyError] is a handler.

    Points are integers and stand for the floats of the same value.  The
    code compares, sorts and looks up points, which it does on floats as on
    any ordered values, and it adds them: the additions are exact, hence
    those of the integers, when the points are whole numbers whose absolute
    values add up to at most [2 ^ 53] ([exact_sums]); a statement that needs
    sums taken in different orders to agree assumes this.  The percentage is
    the exact rational [score / best_score * 100].
    Slot counts are the tallies built by [get_starter_counts], natural
    numbers.

    The second part embeds the code around the allocation: the projected
    totals and close scores, the top-half wins and the standings, the report
    of optimal team scores, the trophies of the week and the waiver report.
    These functions have no handler; they return or fail with the first
    exception.  What the [%] operator and the f-strings print for numbers is
    left to format functions, which the statements quantify over. *)

From Stdlib Require Import List String Ascii ZArith QArith Bool Arith Lia.
From Stdlib Require Import Permutation.
Import ListNotations.

Local Open Scope string_scope.
Local Open Scope list_scope.
Local Open Scope Z_scope.

(** ** Insertion-ordered dictionaries *)

Definition dict (V : Type) : Type := list (string * V).

Section Dict.
Context {V : Type}.

(** [d.get(k)]: the value bound to [k], if any. *)
Fixpoint dict_get (d : dict V) (k : string) : option V :=
  match d with
  | [] => None
  | (k', v) :: d' => if String.eqb k' k then Some v else dict_get d' k
  end.

(** [k in d] *)
Definition dict_contains (d : dict V) (k : string) : bool :=
  match dict_get d k with Some _ => true | None => false end.

(** [d[k] = v]: an existing key keeps its place, a new key goes last. *)
Fixpoint dict_set (d : dict V) (k : string) (v : V) : dict V :=
  match d with
  | [] => [(k, v)]
  | (k', v') :: d' =>
      if String.eqb k' k then (k', v) :: d' else (k', v') :: dict_set d' k v
  end.

(** The dictionary left by [d.pop(k)] when [k] is a key of [d]. *)
Fixpoint dict_remove (d : dict V) (k : string) : dict V :=
  match d with
  | [] => []
  | (k', v) :: d' =>
      if String.eqb k' k then d' else (k', v) :: dict_remove d' k
  end.

Definition dict_keys (d : dict V) : list string := map fst d.
Definition dict_values (d : dict V) : list V := map snd d.
Definition dict_items (d : dict V) : list (string * V) := d.

(** [dict(items)] and the comprehension [{k: v for k, v in items}]. *)
Definition dict_of_items (items : list (string * V)) : dict V :=
  fold_left (fun d kv => dict_set d (fst kv) (snd kv)) items [].

(** [a | b] *)
Definition dict_union (a b : dict V) : dict V :=
  fold_left (fun d kv => dict_set d (fst kv) (snd kv)) b a.
End Dict.

(** ** Strings *)

(** [sub in s] on strings: [sub] occurs in [s]. *)
Fixpoint str_in (sub s : string) : bool :=
  String.prefix sub s ||
  match s with
  | EmptyString => false
  | String _ s' => str_in sub s'
  end.

(** [s.split(sep)] for a one-character separator. *)
Fixpoint split (sep : ascii) (s : string) : list string :=
  match s with
  | EmptyString => [EmptyString]
  | String c s' =>
      if Ascii.eqb c sep then EmptyString :: split sep s'
      else match split sep s' with
           | h :: t => String c h :: t
           | [] => [String c EmptyString]
           end
  end.

(** ** Sorting by score

    [sorted(items, key=lambda item: item[1], reverse=True)]: a stable sort,
    descending by value; items of equal value keep their order. *)

Fixpoint insert_desc (x : string * Z) (l : list (string * Z)) : list (string * Z) :=
  match l with
  | [] => [x]
  | y :: l' => if snd y <=? snd x then x :: y :: l' else y :: insert_desc x l'
  end.

Fixpoint sorted_desc (l : list (string * Z)) : list (string * Z) :=
  match l with
  | [] => []
  | x :: l' => insert_desc x (sorted_desc l')
  end.

(** [sum(values)] *)
Definition sum (l : list Z) : Z := fold_left Z.add l 0.

(** ** Statements: state and exceptions *)

Inductive exn : Type := KeyError | ZeroDivisionError.

Inductive outcome (A : Type) : Type :=
| Returned (a : A)
| Raised (e : exn).
Arguments Returned {A} a.
Arguments Raised {A} e.

Definition M (S A : Type) : Type := S -> outcome A * S.

Section Monad.
Context {S : Type}.

Definition ret {A} (a : A) : M S A := fun s => (Returned a, s).
Definition raise {A} (e : exn) : M S A := fun s => (Raised e, s).
Definition bind {A B} (m : M S A) (f : A -> M S B) : M S B :=
  fun s => match m s with
           | (Returned a, s') => f a s'
           | (Raised e, s') => (Raised e, s')
           end.
Definition get : M S S := fun s => (Returned s, s).
Definition modify (f : S -> S) : M S unit := fun s => (Returned tt, f s).

(** [try: body except KeyError: handler]; the handler starts from the
    state the body had reached. *)
Definition try_except_KeyError (body handler : M S unit) : M S unit :=
  fun s => match body s with
           | (Raised KeyError, s') => handler s'
           | r => r
           end.

(** [d[k]] *)
Definition getitem {V} (d : dict V) (k : string) : M S V :=
  match dict_get d k with
  | Some v => ret v
  | None => raise KeyError
  end.

(** [d.pop(k)]: the dictionary without [k]. *)
Definition pop {V} (d : dict V) (k : string) : M S (dict V) :=
  match dict_get d k with
  | Some _ => ret (dict_remove d k)
  | None => raise KeyError
  end.

(** [a / b], true division. *)
Definition truediv (a b : Z) : M S Q :=
  if b =? 0 then raise ZeroDivisionError
  else ret (inject_Z a / inject_Z b)%Q.
End Monad.

Notation "x <- m ;; k" := (bind m (fun x => k))
  (at level 61, m at next level, right associativity).
Notation "m ;; k" := (bind m (fun _ => k))
  (at level 61, right associativity).

(** [for x in l: body] *)
Fixpoint for_ {S A} (l : list A) (body : A -> M S unit) : M S unit :=
  match l with
  | [] => ret tt
  | x :: l' => body x ;; for_ l' body
  end.

(** [for x in l: body] where the body may [return]: [Some r] leaves the
    loop with [r]; [None] after the last item is the end of the loop. *)
Fixpoint for_return {S A R} (l : list A) (body : A -> M S (option R))
  : M S (option R) :=
  match l with
  | [] => ret None
  | x :: l' =>
      r <- body x ;;
      match r with
      | Some v => ret (Some v)
      | None => for_return l' body
      end
  end.

(** ** Data model *)

Record Player : Type := {
  name : string;
  position : string;
  slot_position : string;
  points : Z;
  projected_points : Z;
  game_played : Z
}.

Record BoxScore : Type := {
  home_lineup : list Player;
  away_lineup : list Player
}.

(** [slot not in ['BE', 'IR']], also written
    [slot != 'BE' and slot != 'IR'] in the source. *)
Definition is_starter (player : Player) : bool :=
  negb (String.eqb (slot_position player) "BE") &&
  negb (String.eqb (slot_position player) "IR").

(** ** [get_starter_counts] *)

Record counts_frame : Type := {
  h_starters : dict nat;
  h_starter_count : nat;
  a_starters : dict nat;
  a_starter_count : nat
}.

Definition tally_home (player : Player) : M counts_frame unit :=
  if is_starter player then
    modify (fun fr => {| h_starters := h_starters fr;
                         h_starter_count := h_starter_count fr + 1;
                         a_starters := a_starters fr;
                         a_starter_count := a_starter_count fr |}) ;;
    try_except_KeyError
      (fr <- get ;;
       n <- getitem (h_starters fr) (slot_position player) ;;
       modify (fun fr => {| h_starters := dict_set (h_starters fr) (slot_position player) (n + 1)%nat;
                            h_starter_count := h_starter_count fr;
                            a_starters := a_starters fr;
                            a_starter_count := a_starter_count fr |}))
      (modify (fun fr => {| h_starters := dict_set (h_starters fr) (slot_position player) 1%nat;
                            h_starter_count := h_starter_count fr;
                            a_starters := a_starters fr;
                            a_starter_count := a_starter_count fr |}))
  else ret tt.

Definition tally_away (player : Player) : M counts_frame unit :=
  if is_starter player then
    modify (fun fr => {| h_starters := h_starters fr;
                         h_starter_count := h_starter_count fr;
                         a_starters := a_starters fr;
                         a_starter_count := a_starter_count fr + 1 |}) ;;
    try_except_KeyError
      (fr <- get ;;
       n <- getitem (a_starters fr) (slot_position player) ;;
       modify (fun fr => {| h_starters := h_starters fr;
                            h_starter_count := h_starter_count fr;
                            a_starters := dict_set (a_starters fr) (slot_position player) (n + 1)%nat;
                            a_starter_count := a_starter_count fr |}))
      (modify (fun fr => {| h_starters := h_starters fr;
                            h_starter_count := h_starter_count fr;
                            a_starters := dict_set (a_starters fr) (slot_position player) 1%nat;
                            a_starter_count := a_starter_count fr |}))
  else ret tt.

(** The box scores of last week are the input ([league.box_scores(week)]).
    Both branches of the last [if] return inside the loop over the box
    scores, so the loop ends in its first round; with no box score at all the
    function reaches its end and yields [None]. *)
Definition get_starter_counts (box_scores : list BoxScore)
  : outcome (option (dict nat)) :=
  fst (for_return box_scores
         (fun i =>
            for_ (home_lineup i) tally_home ;;
            for_ (away_lineup i) tally_away ;;
            fr <- get ;;
            if (h_starter_count fr <? a_starter_count fr)%nat
            then ret (Some (a_starters fr))
            else ret (Some (h_starters fr)))
         {| h_starters := []; h_starter_count := 0;
            a_starters := []; a_starter_count := 0 |}).

(** ** [best_flex] *)

Record flex_frame : Type := {
  pool : dict Z;
  best : dict Z;
  player_pool : dict (dict Z)
}.

Definition set_pool (p : dict Z) : M flex_frame unit :=
  modify (fun fr => {| pool := p; best := best fr; player_pool := player_pool fr |}).
Definition set_best (b : dict Z) : M flex_frame unit :=
  modify (fun fr => {| pool := pool fr; best := b; player_pool := player_pool fr |}).
Definition set_player_pool (pp : dict (dict Z)) : M flex_frame unit :=
  modify (fun fr => {| pool := pool fr; best := best fr; player_pool := pp |}).

Definition best_flex (flexes : list string) (num : nat)
  : M flex_frame (dict Z * dict (dict Z)) :=
  set_pool [] ;;
  for_ flexes (fun flex_position =>
    try_except_KeyError
      (fr <- get ;;
       bucket <- getitem (player_pool fr) flex_position ;;
       set_pool (dict_union (pool fr) bucket))
      (ret tt)) ;;
  fr <- get ;;
  set_pool (dict_of_items (sorted_desc (dict_items (pool fr)))) ;;
  fr <- get ;;
  set_best (dict_of_items (firstn num (dict_items (pool fr)))) ;;
  fr <- get ;;
  for_ (dict_keys (player_pool fr)) (fun pos =>
    fr <- get ;;
    for_ (dict_keys (best fr)) (fun p =>
      fr <- get ;;
      bucket <- getitem (player_pool fr) pos ;;
      if dict_contains bucket p then
        bucket <- getitem (player_pool fr) pos ;;
        bucket' <- pop bucket p ;;
        set_player_pool (dict_set (player_pool fr) pos bucket')
      else ret tt)) ;;
  fr <- get ;;
  ret (best fr, player_pool fr).

(** ** [optimal_lineup_score] *)

Record locals : Type := {
  best_lineup : dict (dict Z);
  position_players : dict (dict Z);
  score : Z;
  best_score : Z
}.

Definition set_best_lineup (bl : dict (dict Z)) : M locals unit :=
  modify (fun fr => {| best_lineup := bl; position_players := position_players fr;
                       score := score fr; best_score := best_score fr |}).
Definition set_position_players (pp : dict (dict Z)) : M locals unit :=
  modify (fun fr => {| best_lineup := best_lineup fr; position_players := pp;
                       score := score fr; best_score := best_score fr |}).
Definition set_score (s : Z) : M locals unit :=
  modify (fun fr => {| best_lineup := best_lineup fr; position_players := position_players fr;
                       score := s; best_score := best_score fr |}).
Definition set_best_score (s : Z) : M locals unit :=
  modify (fun fr => {| best_lineup := best_lineup fr; position_players := position_players fr;
                       score := score fr; best_score := s |}).

(** [position_players[pos][nm] = pts] *)
Definition set_player_points (pos nm : string) (pts : Z) : M locals unit :=
  fr <- get ;;
  bucket <- getitem (position_players fr) pos ;;
  set_position_players (dict_set (position_players fr) pos (dict_set bucket nm pts)).

(** [result = best_flex(flex, position_players, num)]: the callee works on
    the caller's [position_players] object itself. *)
Definition call_best_flex (flex : list string) (num : nat)
  : M locals (dict Z * dict (dict Z)) :=
  fun fr =>
    let r := best_flex flex num
               {| pool := []; best := []; player_pool := position_players fr |} in
    (fst r, {| best_lineup := best_lineup fr;
               position_players := player_pool (snd r);
               score := score fr; best_score := best_score fr |}).

(** [result = best_flex(flex, position_players, num)
     best_lineup[slot] = result[0]
     position_players = result[1]] *)
Definition fill_flex (slot : string) (flex : list string) (num : nat) : M locals unit :=
  result <- call_best_flex flex num ;;
  fr <- get ;;
  set_best_lineup (dict_set (best_lineup fr) slot (fst result)) ;;
  set_position_players (snd result).

(** Lines 549-561: bucket the players by position, add up the starters. *)
Definition collect_players (lineup : list Player) : M locals unit :=
  for_ lineup (fun player =>
    try_except_KeyError
      (set_player_points (position player) (name player) (points player))
      (fr <- get ;;
       set_position_players (dict_set (position_players fr) (position player) []) ;;
       set_player_points (position player) (name player) (points player)) ;;
    if is_starter player then
      fr <- get ;; set_score (score fr + points player)
    else ret tt).

(** Lines 563-571: the best players of each configured position. *)
Definition fill_positions (starter_counts : dict nat) : M locals unit :=
  for_ (dict_keys starter_counts) (fun position =>
    try_except_KeyError
      (fr <- get ;;
       bucket <- getitem (position_players fr) position ;;
       set_position_players
         (dict_set (position_players fr) position
            (dict_of_items (sorted_desc (dict_items bucket)))) ;;
       fr <- get ;;
       bucket <- getitem (position_players fr) position ;;
       n <- getitem starter_counts position ;;
       set_best_lineup
         (dict_set (best_lineup fr) position
            (dict_of_items (firstn n (dict_items bucket)))) ;;
       fr <- get ;;
       bucket <- getitem (position_players fr) position ;;
       n <- getitem starter_counts position ;;
       set_position_players
         (dict_set (position_players fr) position
            (dict_of_items (skipn n (dict_items bucket)))))
      (fr <- get ;;
       set_best_lineup (dict_set (best_lineup fr) position []))).

(** [ 'D/ST' not in position and '/' in position ] *)
Definition is_flex (position : string) : bool :=
  negb (str_in "D/ST" position) && str_in "/" position.

(** Lines 573-580: the flex slots, in the order of the configuration. *)
Definition fill_flexes (starter_counts : dict nat) : M locals unit :=
  for_ (dict_keys starter_counts) (fun position =>
    if is_flex position then
      n <- getitem starter_counts position ;;
      fill_flex position (split "/" position) n
    else ret tt).

(** Lines 582-594: the offensive and the defensive player. *)
Definition fill_named (slot : string) (flex : list string) (starter_counts : dict nat)
  : M locals unit :=
  if dict_contains starter_counts slot then
    n <- getitem starter_counts slot ;;
    fill_flex slot flex n
  else ret tt.

Definition OP_flex : list string := ["RB"; "WR"; "TE"; "QB"].
Definition DP_flex : list string := ["DT"; "DE"; "LB"; "CB"; "S"].

(** Lines 549-594: everything up to the optimal lineup. *)
Definition allocate (lineup : list Player) (starter_counts : dict nat) : M locals unit :=
  collect_players lineup ;;
  fill_positions starter_counts ;;
  fill_flexes starter_counts ;;
  fill_named "OP" OP_flex starter_counts ;;
  fill_named "DP" DP_flex starter_counts.

(** Lines 596-601: the scores and the percentage. *)
Definition report : M locals (Z * Z * Z * Q) :=
  set_best_score 0 ;;
  fr <- get ;;
  for_ (dict_keys (best_lineup fr)) (fun position =>
    fr <- get ;;
    slot <- getitem (best_lineup fr) position ;;
    set_best_score (best_score fr + sum (dict_values slot))) ;;
  fr <- get ;;
  q <- truediv (score fr) (best_score fr) ;;
  ret (best_score fr, score fr, best_score fr - score fr, (q * inject_Z 100)%Q).

Definition initial_locals : locals :=
  {| best_lineup := []; position_players := []; score := 0; best_score := 0 |}.

Definition optimal_lineup_score (lineup : list Player) (starter_counts : dict nat)
  : outcome (Z * Z * Z * Q) :=
  fst ((allocate lineup starter_counts ;; report) initial_locals).

(** The optimal lineup the score is computed from: [best_lineup] when the
    allocation is done. *)
Definition optimal_lineup (lineup : list Player) (starter_counts : dict nat)
  : dict (dict Z) :=
  best_lineup (snd (allocate lineup starter_counts initial_locals)).

(** ** The statements as functions on the frame

    What each loop body does to the local variables, as a function; the
    lemmas below show that the statements above compute exactly these. *)

(** One round of the loop over the lineup (lines 554-561). *)
Definition add_player (pp : dict (dict Z)) (player : Player) : dict (dict Z) :=
  match dict_get pp (position player) with
  | Some bucket =>
      dict_set pp (position player) (dict_set bucket (name player) (points player))
  | None =>
      dict_set pp (position player) [(name player, points player)]
  end.

Definition collect_step (player : Player) (fr : locals) : locals :=
  {| best_lineup := best_lineup fr;
     position_players := add_player (position_players fr) player;
     score := if is_starter player then score fr + points player else score fr;
     best_score := best_score fr |}.

(** [starter_counts[position]] for a key of the configuration. *)
Definition count_of (starter_counts : dict nat) (position : string) : nat :=
  match dict_get starter_counts position with Some n => n | None => 0%nat end.

(** One round of the loop of lines 564-571. *)
Definition position_step (starter_counts : dict nat) (position : string) (fr : locals)
  : locals :=
  match dict_get (position_players fr) position with
  | Some bucket =>
      let ranked := dict_of_items (sorted_desc bucket) in
      let n := count_of starter_counts position in
      {| best_lineup := dict_set (best_lineup fr) position (dict_of_items (firstn n ranked));
         position_players :=
           dict_set (position_players fr) position (dict_of_items (skipn n ranked));
         score := score fr; best_score := best_score fr |}
  | None =>
      {| best_lineup := dict_set (best_lineup fr) position [];
         position_players := position_players fr;
         score := score fr; best_score := best_score fr |}
  end.

(** The pool of [best_flex] after its first loop (lines 511-518). *)
Definition flex_pool (flexes : list string) (pp : dict (dict Z)) : dict Z :=
  fold_left (fun pl flex_position =>
               match dict_get pp flex_position with
               | Some bucket => dict_union pl bucket
               | None => pl
               end) flexes [].

(** The best players of the pool (lines 520-522). *)
Definition flex_best (flexes : list string) (num : nat) (pp : dict (dict Z)) : dict Z :=
  dict_of_items (firstn num (dict_of_items (sorted_desc (flex_pool flexes pp)))).

(** [if p in player_pool[pos]: player_pool[pos].pop(p)] *)
Definition remove_player (pos p : string) (pp : dict (dict Z)) : dict (dict Z) :=
  match dict_get pp pos with
  | Some bucket =>
      if dict_contains bucket p then dict_set pp pos (dict_remove bucket p) else pp
  | None => pp
  end.

(** The player pool after the loops of lines 524-527. *)
Definition remove_best (chosen : dict Z) (pp : dict (dict Z)) : dict (dict Z) :=
  fold_left (fun pp pos =>
               fold_left (fun pp p => remove_player pos p pp) (dict_keys chosen) pp)
            (dict_keys pp) pp.

(** Filling one flex slot (lines 578-580, 585-587, 592-594). *)
Definition flex_step (slot : string) (flex : list string) (num : nat) (fr : locals)
  : locals :=
  let chosen := flex_best flex num (position_players fr) in
  {| best_lineup := dict_set (best_lineup fr) slot chosen;
     position_players := remove_best chosen (position_players fr);
     score := score fr; best_score := best_score fr |}.

Definition flexes_step (starter_counts : dict nat) (position : string) (fr : locals)
  : locals :=
  if is_flex position
  then flex_step position (split "/" position) (count_of starter_counts position) fr
  else fr.

Definition named_step (slot : string) (flex : list string) (starter_counts : dict nat)
  (fr : locals) : locals :=
  if dict_contains starter_counts slot
  then flex_step slot flex (count_of starter_counts slot) fr
  else fr.

(** The frame when the allocation is done (line 594). *)
Definition allocated (lineup : list Player) (starter_counts : dict nat) (fr : locals)
  : locals :=
  let fr1 := fold_left (fun fr player => collect_step player fr) lineup fr in
  let fr2 := fold_left (fun fr position => position_step starter_counts position fr)
               (dict_keys starter_counts) fr1 in
  let fr3 := fold_left (fun fr position => flexes_step starter_counts position fr)
               (dict_keys starter_counts) fr2 in
  let fr4 := named_step "OP" OP_flex starter_counts fr3 in
  named_step "DP" DP_flex starter_counts fr4.

(** The sum of lines 596-598. *)
Definition lineup_total (bl : dict (dict Z)) : Z :=
  fold_left (fun acc position =>
               match dict_get bl position with
               | Some slot => acc + sum (dict_values slot)
               | None => acc
               end) (dict_keys bl) 0.

(** Line 561 over the whole lineup: the points of the starters. *)
Definition actual_score (lineup : list Player) : Z :=
  fold_left (fun acc player => if is_starter player then acc + points player else acc)
            lineup 0.

(** Lines 600-601. *)
Definition score_report (optimal actual : Z) : outcome (Z * Z * Z * Q) :=
  if optimal =? 0 then Raised ZeroDivisionError
  else Returned (optimal, actual, optimal - actual,
                 (inject_Z actual / inject_Z optimal * inject_Z 100)%Q).

(** One round of either loop of lines 463-481 on the tally of its side. *)
Definition tally_step (d : dict nat) (player : Player) : dict nat :=
  if is_starter player then
    match dict_get d (slot_position player) with
    | Some n => dict_set d (slot_position player) (n + 1)%nat
    | None => dict_set d (slot_position player) 1%nat
    end
  else d.

(** The dictionary a side's loop builds. *)
Definition tally (lineup : list Player) : dict nat := fold_left tally_step lineup [].

(** The specification's words: the starters of a lineup, and the number of
    them that occupy a given slot. *)
Definition starters (lineup : list Player) : list Player := filter is_starter lineup.

Definition starters_at (slot : string) (lineup : list Player) : nat :=
  List.length (filter (fun player => String.eqb (slot_position player) slot)
                 (starters lineup)).

(** Two players that differ at most in their projection and game clock. *)
Definition same_realized (p q : Player) : Prop :=
  name p = name q /\ position p = position q /\
  slot_position p = slot_position q /\ points p = points q.

(** The value of [best_score] when the division of line 600 is reached. *)
Definition computed_best_score (lineup : list Player) (starter_counts : dict nat) : Z :=
  best_score (snd ((allocate lineup starter_counts ;; report) initial_locals)).

(** The bucket of a key, empty when the key is absent. *)
Definition bucket_of {V} (d : dict (dict V)) (k : string) : dict V :=
  match dict_get d k with Some b => b | None => [] end.

(** All player names held in the slots (or buckets) of a dictionary. *)
Definition all_names {V} (d : dict (dict V)) : list string :=
  List.concat (map (fun kb => dict_keys (snd kb)) d).

(** [x in names] *)
Definition mem (x : string) (names : list string) : bool :=
  existsb (String.eqb x) names.

(** The bucket left when the given names are popped from it. *)
Definition remove_names {V} (names : list string) (b : dict V) : dict V :=
  filter (fun kv => negb (mem (fst kv) names)) b.

(** No name is held twice, neither in the lineup built so far nor in the
    buckets of the remaining players. *)
Definition names_once (fr : locals) : Prop :=
  forall x,
    (count_occ string_dec (all_names (best_lineup fr)) x +
     count_occ string_dec (all_names (position_players fr)) x <= 1)%nat.

(** The invariant of the allocation: both dictionaries have unique keys and
    no name is held twice. *)
Definition frame_ok (fr : locals) : Prop :=
  NoDup (dict_keys (best_lineup fr)) /\
  NoDup (dict_keys (position_players fr)) /\
  names_once fr.

(** A player as the buckets hold it, and the players of one position in
    roster order. *)
Definition player_item (player : Player) : string * Z := (name player, points player).

Definition position_items (q : string) (lineup : list Player) : dict Z :=
  map player_item (filter (fun player => String.eqb (position player) q) lineup).

(** Every player assigned to a slot, with the points counted for it. *)
Definition assigned (bl : dict (dict Z)) : list (string * Z) :=
  List.concat (map snd bl).

(** Every item of the lineup and of the buckets is one of [src]. *)
Definition items_from (src : list (string * Z)) (fr : locals) : Prop :=
  forall q kv,
    In kv (bucket_of (best_lineup fr) q) \/ In kv (bucket_of (position_players fr) q) ->
    In kv src.

(** ** Scores without names

    The points of a bucket in the order of [sorted_desc], and two ways in
    which the points [u] of one roster lie below the points [p] of another:
    player by player ([dominated]), or as a part of a roster whose points are
    not negative ([covered]). *)

Fixpoint insert_points (x : Z) (l : list Z) : list Z :=
  match l with
  | [] => [x]
  | y :: l' => if y <=? x then x :: y :: l' else y :: insert_points x l'
  end.

Fixpoint sorted_points (l : list Z) : list Z :=
  match l with
  | [] => []
  | x :: l' => insert_points x (sorted_points l')
  end.

Fixpoint descending (l : list Z) : Prop :=
  match l with
  | [] => True
  | x :: l' => Forall (fun y => y <= x) l' /\ descending l'
  end.

(** [u] is, item by item, below a prefix of [p]. *)
Inductive prefix_le : list Z -> list Z -> Prop :=
| prefix_le_nil : forall p, prefix_le [] p
| prefix_le_cons : forall x y u p, x <= y -> prefix_le u p -> prefix_le (x :: u) (y :: p).

Definition dominated (u p : list Z) : Prop :=
  exists p', Permutation p p' /\ Forall2 Z.le u p'.

Definition covered (u p : list Z) : Prop :=
  Forall (fun y => 0 <= y) p /\
  exists p1 p2, Permutation p (p1 ++ p2) /\ Forall2 Z.le u p1.

(** ** Flex slots of a configuration

    The calls of [best_flex] that lines 574-594 make, in their order: the
    slot and the positions it draws from. *)
Definition flex_jobs (starter_counts : dict nat) : list (string * list string) :=
  map (fun position => (position, split "/" position))
      (filter is_flex (dict_keys starter_counts)) ++
  (if dict_contains starter_counts "OP" then [("OP", OP_flex)] else []) ++
  (if dict_contains starter_counts "DP" then [("DP", DP_flex)] else []).

(** The positions the flex slots draw from, each as often as it is listed. *)
Definition eligible_positions (starter_counts : dict nat) : list string :=
  List.concat (map snd (flex_jobs starter_counts)).

(** Two runs of the allocation seen side by side: the same slots, each slot
    of the first worth at most the same slot of the second, and, for every
    position no flex slot has drawn from yet, the remaining points of the
    first related to those of the second. *)
Definition simulates (Rel : list Z -> list Z -> Prop) (used : list string)
  (fr1 fr2 : locals) : Prop :=
  frame_ok fr1 /\ frame_ok fr2 /\
  dict_keys (best_lineup fr1) = dict_keys (best_lineup fr2) /\
  (forall k, sum (dict_values (bucket_of (best_lineup fr1) k)) <=
             sum (dict_values (bucket_of (best_lineup fr2) k))) /\
  (forall q, ~ In q used ->
             Rel (dict_values (bucket_of (position_players fr1) q))
                 (dict_values (bucket_of (position_players fr2) q))).

(** The same player with other points. *)
Definition with_points (player : Player) (v : Z) : Player :=
  {| name := name player; position := position player;
     slot_position := slot_position player; points := v;
     projected_points := projected_points player;
     game_played := game_played player |}.

(** ** Legal lineups

    The specification's eligibility: a flex slot takes the positions its
    name lists, OP and DP take their fixed positions, any other slot takes
    the position of its own name. *)
Definition eligible (slot pos : string) : bool :=
  if is_flex slot then mem pos (split "/" slot)
  else if String.eqb slot "OP" then mem pos OP_flex
  else if String.eqb slot "DP" then mem pos DP_flex
  else String.eqb pos slot.

Definition legal_starter (starter_counts : dict nat) (player : Player) : bool :=
  dict_contains starter_counts (slot_position player) &&
  eligible (slot_position player) (position player).

(** The starters sit in slots of the configuration they are eligible for,
    and no slot holds more starters than its count. *)
Definition legal_lineup (lineup : list Player) (starter_counts : dict nat) : bool :=
  forallb (legal_starter starter_counts) (starters lineup) &&
  forallb (fun slot => (starters_at slot lineup <=? count_of starter_counts slot)%nat)
          (dict_keys starter_counts).

(** The names of the flex slots and the positions they draw from are all
    different: no position serves two flex slots, none is listed twice, and
    no flex slot is named like a position that a flex slot draws from. *)
Definition flex_separate (starter_counts : dict nat) : Prop :=
  NoDup (map fst (flex_jobs starter_counts) ++ eligible_positions starter_counts).

(** The players of a position that the position's own slot leaves. *)
Definition remaining_items (starter_counts : dict nat) (lineup : list Player)
  (q : string) : dict Z :=
  if mem q (dict_keys starter_counts)
  then skipn (count_of starter_counts q) (sorted_desc (position_items q lineup))
  else position_items q lineup.

(** [names] has no repetition. *)
Fixpoint distinct (names : list string) : bool :=
  match names with
  | [] => true
  | x :: rest => negb (mem x rest) && distinct rest
  end.

(** ** Exact sums

    The points of the code are floats.  Whole numbers up to [2 ^ 53] are
    floats, and adding two of them is exact as long as the result stays in
    that range: when the absolute values of whole-number points add up to at
    most [2 ^ 53], every sum the code forms of them, in whatever order and
    grouping, is the sum of the integers. *)
Definition exact_sums (values : list Z) : Prop :=
  sum (map Z.abs values) <= 2 ^ 53.

(** ** Example rosters and configurations *)

(** Scenario D: the home side with nine starters and a quarterback reported
    on the bench, the away side with all ten. *)
Definition scenario_D : BoxScore :=
  let player n p s pts :=
    {| name := n; position := p; slot_position := s; points := pts;
       projected_points := pts; game_played := 100 |} in
  {| home_lineup :=
       [player "h1" "QB" "BE" 21; player "h2" "RB" "RB" 14; player "h3" "RB" "RB" 9;
        player "h4" "WR" "WR" 17; player "h5" "WR" "WR" 6; player "h6" "TE" "TE" 8;
        player "h7" "WR" "RB/WR/TE" 11; player "h8" "D/ST" "D/ST" 5;
        player "h9" "K" "K" 7; player "h10" "RB" "RB/WR/TE" 3];
     away_lineup :=
       [player "a1" "QB" "QB" 18; player "a2" "RB" "RB" 12; player "a3" "RB" "RB" 10;
        player "a4" "WR" "WR" 15; player "a5" "WR" "WR" 4; player "a6" "TE" "TE" 2;
        player "a7" "WR" "RB/WR/TE" 13; player "a8" "D/ST" "D/ST" 9;
        player "a9" "K" "K" 8; player "a10" "TE" "RB/WR/TE" 1; player "a11" "QB" "BE" 30] |}.

(** A matchup of a bye week: nobody on either side. *)
Definition empty_matchup : BoxScore := {| home_lineup := []; away_lineup := [] |}.

(** Scenario A: one quarterback, one running back and one flex slot. *)
Definition scenario_A_counts : dict nat :=
  [("QB", 1%nat); ("RB", 1%nat); ("RB/WR/TE", 1%nat)].

(** Scenario B, with a running back who scored nothing: the configuration
    asks for two running backs and the roster has one. *)
Definition scenario_B_counts : dict nat := [("RB", 2%nat)].

Definition scenario_B_scoreless : list Player :=
  [ {| name := "rb"; position := "RB"; slot_position := "RB"; points := 0;
       projected_points := 9; game_played := 100 |} ].

Definition scenario_B : list Player :=
  [ {| name := "rb"; position := "RB"; slot_position := "RB"; points := 7;
       projected_points := 9; game_played := 100 |};
    {| name := "qb"; position := "QB"; slot_position := "BE"; points := 15;
       projected_points := 14; game_played := 100 |} ].

(** Two flex slots that share the wide receivers. *)
Definition overlap_counts : dict nat := [("RB/WR", 1%nat); ("WR/TE", 1%nat)].

Definition overlap_rb : Player :=
  {| name := "rb"; position := "RB"; slot_position := "RB/WR"; points := 6;
     projected_points := 8; game_played := 100 |}.

Definition overlap_wr : Player :=
  {| name := "wr"; position := "WR"; slot_position := "WR/TE"; points := 5;
     projected_points := 8; game_played := 100 |}.

(** A legal lineup under the overlapping flex slots, and a lineup with an
    empty kicker slot and a kicker below zero on the bench. *)
Definition overlap_lineup : list Player :=
  [ {| name := "rb"; position := "RB"; slot_position := "RB/WR"; points := 6;
       projected_points := 8; game_played := 100 |};
    {| name := "wr"; position := "WR"; slot_position := "WR/TE"; points := 7;
       projected_points := 8; game_played := 100 |} ].

Definition kicker_counts : dict nat := [("QB", 1%nat); ("K", 1%nat)].

Definition kicker_lineup : list Player :=
  [ {| name := "qb"; position := "QB"; slot_position := "QB"; points := 10;
       projected_points := 12; game_played := 100 |};
    {| name := "k"; position := "K"; slot_position := "BE"; points := -1;
       projected_points := 6; game_played := 100 |} ].

(** A roster with a flex slot and a better player on the bench. *)
Definition bench_lineup : list Player :=
  [ {| name := "qb"; position := "QB"; slot_position := "QB"; points := 12;
       projected_points := 15; game_played := 100 |};
    {| name := "rb1"; position := "RB"; slot_position := "RB"; points := 8;
       projected_points := 9; game_played := 100 |};
    {| name := "rb2"; position := "RB"; slot_position := "RB/WR/TE"; points := 10;
       projected_points := 7; game_played := 100 |};
    {| name := "wr"; position := "WR"; slot_position := "BE"; points := 11;
       projected_points := 6; game_played := 100 |} ].

(** ** The code around the allocation

    The box scores carry more than the two lineups: the teams (a team object,
    or the integer 0 on a bye), their scores and their projections.  The
    functions below have no handler of their own; they return a value or fail
    with the first exception, and exceptions outside [exn] can occur. *)

Record Team : Type := {
  team_id : Z;
  team_name : string;
  team_abbrev : string;
  wins : Z;
  losses : Z;
  playoff_pct : Q
}.

Inductive team_ref : Type :=
| no_team
| a_team (t : Team).

Record Matchup : Type := {
  box : BoxScore;
  home_team : team_ref;
  away_team : team_ref;
  home_score : Z;
  away_score : Z;
  home_projected : Z;
  away_projected : Z
}.

Inductive error : Type :=
| Builtin (e : exn)
| AttributeError
| TypeError
| StopIteration
| UnboundLocalError.

Inductive result (A : Type) : Type :=
| Ok (a : A)
| Fail (e : error).
Arguments Ok {A} a.
Arguments Fail {A} e.

Definition and_then {A B} (r : result A) (k : A -> result B) : result B :=
  match r with
  | Ok a => k a
  | Fail e => Fail e
  end.

Notation "x <~ m ;; k" := (and_then m (fun x => k))
  (at level 61, m at next level, right associativity).

(** [for x in l: s = body(s, x)], stopped by the first exception. *)
Fixpoint for_result {A S} (l : list A) (body : S -> A -> result S) (s : S) : result S :=
  match l with
  | [] => Ok s
  | x :: l' => s' <~ body s x ;; for_result l' body s'
  end.

(** [[f(x) for x in l]], stopped by the first exception. *)
Fixpoint map_result {A B} (f : A -> result B) (l : list A) : result (list B) :=
  match l with
  | [] => Ok []
  | x :: l' => y <~ f x ;; ys <~ map_result f l' ;; Ok (y :: ys)
  end.

(** [r.attr]: the integer 0 has no attributes. *)
Definition attribute {A} (attr : Team -> A) (r : team_ref) : result A :=
  match r with
  | a_team t => Ok (attr t)
  | no_team => Fail AttributeError
  end.

(** [if r] and [r != 0]: true of a team object. *)
Definition is_team (r : team_ref) : bool :=
  match r with
  | a_team _ => true
  | no_team => false
  end.

(** [sorted(l, key=..., reverse=True)] where [leb y x] compares the keys of
    [y] and [x]: stable, descending. *)
Fixpoint insert_by {A} (leb : A -> A -> bool) (x : A) (l : list A) : list A :=
  match l with
  | [] => [x]
  | y :: l' => if leb y x then x :: y :: l' else y :: insert_by leb x l'
  end.

Fixpoint sorted_by {A} (leb : A -> A -> bool) (l : list A) : list A :=
  match l with
  | [] => []
  | x :: l' => insert_by leb x (sorted_by leb l')
  end.

(** [sep.join(l)] *)
Fixpoint join (sep : string) (l : list string) : string :=
  match l with
  | [] => EmptyString
  | x :: l' =>
      match l' with
      | [] => x
      | _ :: _ => String.append x (String.append sep (join sep l'))
      end
  end.

Definition newline : string := String (ascii_of_nat 10) EmptyString.

(** *** [get_projected_total] and [all_played] *)

Definition get_projected_total (lineup : list Player) : Z :=
  fold_left (fun total_projected i =>
               if negb (String.eqb (slot_position i) "BE") &&
                  negb (String.eqb (slot_position i) "IR")
               then if negb (points i =? 0) || (0 <? game_played i)
                    then total_projected + points i
                    else total_projected + projected_points i
               else total_projected)
            lineup 0.

Fixpoint all_played (lineup : list Player) : bool :=
  match lineup with
  | [] => true
  | i :: rest =>
      if negb (String.eqb (slot_position i) "BE") &&
         negb (String.eqb (slot_position i) "IR") &&
         (game_played i <? 100)
      then false
      else all_played rest
  end.

(** *** [top_half_wins] *)

Definition top_half_wins (box_scores : list Matchup) (top_half_totals : dict Z)
  : result (dict Z) :=
  homes <~ map_result (fun i =>
             n <~ attribute team_name (home_team i) ;; Ok (home_score i, n))
           box_scores ;;
  aways <~ map_result (fun i =>
             n <~ attribute team_name (away_team i) ;; Ok (away_score i, n))
           (filter (fun i => is_team (away_team i)) box_scores) ;;
  let scores := sorted_by (fun y x => fst y <=? fst x) (homes ++ aways) in
  for_result (firstn (List.length scores / 2) scores)
    (fun totals entry =>
       match dict_get totals (snd entry) with
       | Some wins => Ok (dict_set totals (snd entry) (wins + 1))
       | None => Fail (Builtin KeyError)
       end)
    top_half_totals.

(** *** [optimal_team_scores] *)

(** The tuple [optimal_lineup_score] returns, and its items 0, 1 and 3. *)
Definition optimal_of (r : Z * Z * Z * Q) : Z := let '(o, _, _, _) := r in o.
Definition actual_of (r : Z * Z * Z * Q) : Z := let '(_, a, _, _) := r in a.
Definition percent_of (r : Z * Z * Z * Q) : Q := let '(_, _, _, p) := r in p.

(** A dictionary with team objects as keys; a team object is told from
    another by its [team_id]. *)
Definition team_dict (V : Type) : Type := list (Team * V).

Fixpoint team_set {V} (d : team_dict V) (t : Team) (v : V) : team_dict V :=
  match d with
  | [] => [(t, v)]
  | (t', v') :: d' =>
      if team_id t' =? team_id t then (t', v) :: d' else (t', v') :: team_set d' t v
  end.

Definition team_dict_of_items {V} (items : list (Team * V)) : team_dict V :=
  fold_left (fun d kv => team_set d (fst kv) (snd kv)) items [].

(** [optimal_lineup_score(lineup, starter_counts)] as the caller sees it:
    [get_starter_counts] may have returned [None], on which the loop of line
    564 fails. *)
Definition call_optimal_lineup_score (lineup : list Player)
  (starter_counts : option (dict nat)) : result (Z * Z * Z * Q) :=
  match starter_counts with
  | None => Fail TypeError
  | Some counts =>
      match optimal_lineup_score lineup counts with
      | Returned r => Ok r
      | Raised e => Fail (Builtin e)
      end
  end.

(** [if side != 0: best_scores[side] = optimal_lineup_score(lineup, ...)] *)
Definition score_side (starter_counts : option (dict nat))
  (best_scores : team_dict (Z * Z * Z * Q)) (side : team_ref) (lineup : list Player)
  : result (team_dict (Z * Z * Z * Q)) :=
  match side with
  | no_team => Ok best_scores
  | a_team t =>
      r <~ call_optimal_lineup_score lineup starter_counts ;;
      Ok (team_set best_scores t r)
  end.

(** Lines 633-636 for one box score. *)
Definition score_matchup (starter_counts : option (dict nat))
  (best_scores : team_dict (Z * Z * Z * Q)) (i : Matchup)
  : result (team_dict (Z * Z * Z * Q)) :=
  best_scores <~ score_side starter_counts best_scores (home_team i)
                   (home_lineup (box i)) ;;
  score_side starter_counts best_scores (away_team i) (away_lineup (box i)).

(** Lines 629-636, the call of line 630 apart. *)
Definition collect_best_scores (starter_counts : option (dict nat))
  (box_scores : list Matchup) : result (team_dict (Z * Z * Z * Q)) :=
  for_result box_scores (score_matchup starter_counts) [].

(** The order of line 638: [by_percent y x] when the percentage of [y] is at
    most that of [x]. *)
Definition by_percent (y x : Team * (Z * Z * Z * Q)) : bool :=
  Qle_bool (percent_of (snd y)) (percent_of (snd x)).

(** Line 638: by percentage, the highest first. *)
Definition ranked (best_scores : team_dict (Z * Z * Z * Q)) : team_dict (Z * Z * Z * Q) :=
  team_dict_of_items (sorted_by by_percent best_scores).

(** [best_scores[score][3] > 99.8] *)
Definition above_threshold (entry : Team * (Z * Z * Z * Q)) : bool :=
  negb (Qle_bool (percent_of (snd entry)) (998 # 10)).

(** Lines 654-659: the teams above 99.8 percent at the head of the ranking. *)
Fixpoint leading (best_scores : team_dict (Z * Z * Z * Q)) (num_teams : Z)
  (team_names : string) : Z * string :=
  match best_scores with
  | [] => (num_teams, team_names)
  | (t, r) :: rest =>
      if above_threshold (t, r)
      then leading rest (num_teams + 1)
             (String.append team_names (String.append (team_name t) ", "))
      else (num_teams, team_names)
  end.

(** The string of line 666: the braces are part of the text, which is no
    f-string. *)
Definition best_managers_line : string :=
  "🤖 Best Managers: f{team_names} scored their optimal score!".

(** What the function returns: a text, or a list of lines. *)
Inductive report_value : Type :=
| Text (s : string)
| Lines (l : list string).

Section Formats.
(** The results of the [%] operator on the format strings of the source. *)
Variable format_score : string -> Z -> Z -> string -> string.
Variable format_full : Z -> string -> Z -> Z -> Q -> string.
Variable format_best : string -> Q -> string.
Variable format_worst : string -> Z -> Q -> string.

(** Lines 642-647; the values looked up by key are those of the items. *)
Fixpoint full_lines (i : Z) (best_scores : team_dict (Z * Z * Z * Q)) : list string :=
  match best_scores with
  | [] => []
  | (t, r) :: rest =>
      format_full i (team_abbrev t) (optimal_of r) (actual_of r) (percent_of r)
      :: full_lines (i + 1) rest
  end.

(** Lines 641-650. *)
Definition full_report_text (best_scores : team_dict (Z * Z * Z * Q)) : string :=
  join newline ("Optimal Scores:  (Actual - % of optimal)" :: full_lines 1 best_scores).

(** Lines 652-671; [next(iter(...))] fails on an empty dictionary with
    [StopIteration], [popitem] with [KeyError]. *)
Definition short_report (best_scores : team_dict (Z * Z * Z * Q)) : result (list string) :=
  let '(num_teams, team_names) := leading best_scores 0 EmptyString in
  best_mgr_str <~
    (if num_teams <=? 1 then
       match best_scores with
       | [] => Fail StopIteration
       | (t, r) :: _ => Ok [format_best (team_name t) (percent_of r)]
       end
     else
       let team_names :=
         String.substring 0 (String.length team_names - 2) team_names in
       Ok [best_managers_line]) ;;
  match rev best_scores with
  | [] => Fail (Builtin KeyError)
  | (t, r) :: _ =>
      Ok (best_mgr_str ++
          [format_worst (team_name t) (optimal_of r - actual_of r) (percent_of r)])
  end.

(** The league's box scores of the week before the current one go to
    [get_starter_counts], those of the reported week are [box_scores]. *)
Definition optimal_team_scores (counts_week : list BoxScore)
  (box_scores : list Matchup) (full_report : bool) : result report_value :=
  starter_counts <~ match get_starter_counts counts_week with
                    | Returned counts => Ok counts
                    | Raised e => Fail (Builtin e)
                    end ;;
  best_scores <~ collect_best_scores starter_counts box_scores ;;
  let best_scores := ranked best_scores in
  if full_report then Ok (Text (full_report_text best_scores))
  else lines <~ short_report best_scores ;; Ok (Lines lines).

(** *** [get_close_scores] *)

(** The test of line 309 on one matchup. *)
Definition close_game (i : Matchup) : bool :=
  let away_projected := get_projected_total (away_lineup (box i)) in
  let home_projected := get_projected_total (home_lineup (box i)) in
  let diffScore := away_projected - home_projected in
  ((-11 <? diffScore) && (diffScore <=? 0) && negb (all_played (away_lineup (box i)))) ||
  ((0 <=? diffScore) && (diffScore <? 11) && negb (all_played (home_lineup (box i)))).

Definition get_close_scores (box_scores : list Matchup) : result string :=
  score <~ for_result box_scores
             (fun score i =>
                if is_team (away_team i) then
                  if close_game i then
                    h <~ attribute team_abbrev (home_team i) ;;
                    a <~ attribute team_abbrev (away_team i) ;;
                    Ok (score ++ [format_score h (home_projected i) (away_projected i) a])
                  else Ok score
                else Ok score)
             [] ;;
  match score with
  | [] => Ok EmptyString
  | _ :: _ => Ok (join newline ("Projected Close Scores" :: score))
  end.
End Formats.

(** *** Words for the statements about the callers *)

(** What one player adds to the projected total. *)
Definition projected_of (i : Player) : Z :=
  if is_starter i then
    if negb (points i =? 0) || (0 <? game_played i) then points i
    else projected_points i
  else 0.

(** A starter whose game is not over. *)
Definition still_playing (i : Player) : bool :=
  is_starter i && (game_played i <? 100).

(** The matchups [get_close_scores] lists. *)
Definition reported (i : Matchup) : bool := is_team (away_team i) && close_game i.

(** The name and the abbreviation of a side that is a team. *)
Definition name_of (r : team_ref) : string :=
  match r with a_team t => team_name t | no_team => EmptyString end.

Definition abbrev_of (r : team_ref) : string :=
  match r with a_team t => team_abbrev t | no_team => EmptyString end.

(** The pairs of score and team name of a week: the home sides, then the away
    sides that are teams. *)
Definition week_scores (box_scores : list Matchup) : list (Z * string) :=
  map (fun i => (home_score i, name_of (home_team i))) box_scores ++
  map (fun i => (away_score i, name_of (away_team i)))
      (filter (fun i => is_team (away_team i)) box_scores).

(** The better half of the week's scores. *)
Definition top_half (box_scores : list Matchup) : list (Z * string) :=
  let scores := sorted_by (fun y x => fst y <=? fst x) (week_scores box_scores) in
  firstn (List.length scores / 2) scores.

(** The line of one listed matchup. *)
Definition close_line (format_score : string -> Z -> Z -> string -> string)
  (i : Matchup) : string :=
  format_score (abbrev_of (home_team i)) (home_projected i) (away_projected i)
    (abbrev_of (away_team i)).

(** *** Example teams and weeks *)

Definition team_A : Team :=
  {| team_id := 1; team_name := "Alpha"; team_abbrev := "ALP";
     wins := 3; losses := 1; playoff_pct := 50 # 1 |}.
Definition team_B : Team :=
  {| team_id := 2; team_name := "Bravo"; team_abbrev := "BRV";
     wins := 2; losses := 2; playoff_pct := 50 # 1 |}.
Definition team_C : Team :=
  {| team_id := 3; team_name := "Charlie"; team_abbrev := "CHA";
     wins := 2; losses := 2; playoff_pct := 50 # 1 |}.

(** A finished matchup, a bye, and a matchup that is still being played. *)
Definition finished_matchup : Matchup :=
  {| box := scenario_D; home_team := a_team team_A; away_team := a_team team_B;
     home_score := 80; away_score := 90; home_projected := 80; away_projected := 90 |}.

Definition bye_matchup : Matchup :=
  {| box := {| home_lineup := bench_lineup; away_lineup := [] |};
     home_team := a_team team_C; away_team := no_team;
     home_score := 30; away_score := 0; home_projected := 30; away_projected := 0 |}.

Definition running_matchup : Matchup :=
  {| box := {| home_lineup := bench_lineup;
               away_lineup :=
                 [ {| name := "q"; position := "QB"; slot_position := "QB"; points := 0;
                      projected_points := 25; game_played := 0 |} ] |};
     home_team := a_team team_A; away_team := a_team team_B;
     home_score := 30; away_score := 0; home_projected := 30; away_projected := 25 |}.

Definition example_format_score (h : string) (hp ap : Z) (a : string) : string :=
  String.append h (String.append " - " a).

(** A list in the order [sorted_by] gives: no item is above an earlier one. *)
Fixpoint descending_by {A} (leb : A -> A -> bool) (l : list A) : Prop :=
  match l with
  | [] => True
  | x :: l' => Forall (fun y => leb y x = true) l' /\ descending_by leb l'
  end.

Definition example_week : list Matchup := [finished_matchup; bye_matchup].

Definition example_totals : dict Z := [("Alpha", 3); ("Bravo", 0); ("Charlie", 5)].

Definition team_D : Team :=
  {| team_id := 4; team_name := "Delta"; team_abbrev := "DLT";
     wins := 1; losses := 3; playoff_pct := 50 # 1 |}.

Definition other_matchup : Matchup :=
  {| box := {| home_lineup := bench_lineup; away_lineup := kicker_lineup |};
     home_team := a_team team_C; away_team := a_team team_D;
     home_score := 70; away_score := 60; home_projected := 70; away_projected := 60 |}.

(** A matchup with a team on either side, and a side that is a team whose
    optimal score is zero under a configuration. *)
Definition has_team (i : Matchup) : bool :=
  is_team (home_team i) || is_team (away_team i).

Definition side_scores_zero (starter_counts : dict nat) (side : team_ref)
  (lineup : list Player) : Prop :=
  is_team side = true /\ computed_best_score lineup starter_counts = 0.

Definition scores_zero (starter_counts : dict nat) (i : Matchup) : Prop :=
  side_scores_zero starter_counts (home_team i) (home_lineup (box i)) \/
  side_scores_zero starter_counts (away_team i) (away_lineup (box i)).

(** The team identifiers of the keys of a dictionary of teams. *)
Definition team_ids {V} (d : team_dict V) : list Z := map (fun kv => team_id (fst kv)) d.

Definition example_format_full (i : Z) (abbrev : string) (optimal actual : Z) (pct : Q)
  : string := abbrev.

Definition example_format_best (team : string) (pct : Q) : string :=
  String.append "best: " team.

Definition example_format_worst (team : string) (left : Z) (pct : Q) : string :=
  String.append "worst: " team.

Definition example_scores : team_dict (Z * Z * Z * Q) :=
  [(team_A, (101, 80, 21, 8000 # 101)); (team_B, (104, 92, 12, 9200 # 104));
   (team_C, (41, 30, 11, 3000 # 41)); (team_D, (9, 10, -1, 1000 # 9))].

(** No slot of a lineup holds more players than the configuration counts. *)
Definition within_counts (starter_counts : dict nat) (bl : dict (dict Z)) : Prop :=
  forall slot,
    (List.length (bucket_of bl slot) <= count_of starter_counts slot)%nat.

(** *** [get_achievers_trophy] *)

Record achievers : Type := {
  over_achiever : string;
  under_achiever : string;
  best_performance : Z;
  worst_performance : Z
}.

(** Lines 701-707 for the home side and 708-714 for the away side. *)
Definition note_performance (performance : Z) (side : team_ref) (fr : achievers)
  : achievers :=
  match side with
  | no_team => fr
  | a_team t =>
      let fr :=
        if best_performance fr <? performance
        then {| over_achiever := team_name t; under_achiever := under_achiever fr;
                best_performance := performance;
                worst_performance := worst_performance fr |}
        else fr in
      if performance <? worst_performance fr
      then {| over_achiever := over_achiever fr; under_achiever := team_name t;
              best_performance := best_performance fr;
              worst_performance := performance |}
      else fr
  end.

Definition no_over_achiever : string :=
  "📈 Overachiever: No team out performed their projection".

Definition no_under_achiever : string :=
  "📉 Underachiever: No team was worse than their projection".

Definition get_achievers_trophy (format_over format_under : string -> Z -> string)
  (box_scores : list Matchup) : list string :=
  let fr :=
    fold_left (fun fr i =>
                 let home_performance := home_score i - home_projected i in
                 let away_performance := away_score i - away_projected i in
                 note_performance away_performance (away_team i)
                   (note_performance home_performance (home_team i) fr))
              box_scores
              {| over_achiever := EmptyString; under_achiever := EmptyString;
                 best_performance := -9999; worst_performance := 9999 |} in
  let high_achiever_str :=
    [if 0 <? best_performance fr
     then format_over (over_achiever fr) (best_performance fr)
     else no_over_achiever] in
  let low_achiever_str :=
    [if worst_performance fr <? 0
     then format_under (under_achiever fr) (Z.abs (worst_performance fr))
     else no_under_achiever] in
  high_achiever_str ++ low_achiever_str.

(** The performances of the teams of a week, with the names of the teams. *)
Definition side_performance (performance : Z) (side : team_ref) : list (Z * string) :=
  match side with
  | no_team => []
  | a_team t => [(performance, team_name t)]
  end.

Definition performances (box_scores : list Matchup) : list (Z * string) :=
  flat_map (fun i =>
              side_performance (home_score i - home_projected i) (home_team i) ++
              side_performance (away_score i - away_projected i) (away_team i))
           box_scores.

(** What the loop of lines 697-714 keeps about the performances seen. *)
Definition achievers_of (seen : list (Z * string)) (fr : achievers) : Prop :=
  (forall e, In e seen -> worst_performance fr <= fst e <= best_performance fr) /\
  (best_performance fr = -9999 \/ In (best_performance fr, over_achiever fr) seen) /\
  (worst_performance fr = 9999 \/ In (worst_performance fr, under_achiever fr) seen).

Definition example_format_achiever (team : string) (by_points : Z) : string := team.

(** *** [get_mvp_lvp] *)

(** One of the four trophies: the ratio and the difference to beat, the two
    texts, and the team, [None] for the integer -1 of lines 809-827. *)
Record trophy : Type := {
  trophy_score_diff : Q;
  trophy_proj : Z;
  trophy_score : string;
  trophy_player : string;
  trophy_team : option team_ref
}.

Definition most_valuable_start : trophy :=
  {| trophy_score_diff := inject_Z (-100); trophy_proj := -100;
     trophy_score := EmptyString; trophy_player := EmptyString; trophy_team := None |}.

Definition least_valuable_start : trophy :=
  {| trophy_score_diff := inject_Z 999; trophy_proj := 999;
     trophy_score := EmptyString; trophy_player := EmptyString; trophy_team := None |}.

(** The guards of lines 831 and 847, and of lines 864 and 880. *)
Definition eligible_player (p : Player) : bool :=
  negb (String.eqb (slot_position p) "BE") &&
  negb (String.eqb (slot_position p) "D/ST") &&
  negb (String.eqb (slot_position p) "IR") &&
  (0 <? projected_points p).

Definition eligible_defence (p : Player) : bool :=
  String.eqb (slot_position p) "D/ST" && (0 <? projected_points p).

(** [(p.points - p.projected_points)/p.projected_points] *)
Definition ratio_of (p : Player) : Q :=
  (inject_Z (points p - projected_points p) / inject_Z (projected_points p))%Q.

(** [x > y] on the ratios. *)
Definition Qgt_bool (x y : Q) : bool := negb (Qle_bool x y).

(** Lines 832-845 (and 848-861, 865-878, 881-894) for one player that has
    passed the guard: [pair] holds the most and the least valuable so far. *)
Definition judge (score_text : Player -> string) (label : Player -> string)
  (team : team_ref) (pair : trophy * trophy) (p : Player) : trophy * trophy :=
  let '(most, least) := pair in
  let score_diff := ratio_of p in
  let proj_diff := points p - projected_points p in
  if Qgt_bool score_diff (trophy_score_diff most) ||
     (Qeq_bool score_diff (trophy_score_diff most) && (trophy_proj most <? proj_diff))
  then ({| trophy_score_diff := score_diff; trophy_proj := proj_diff;
           trophy_score := score_text p; trophy_player := label p;
           trophy_team := Some team |}, least)
  else if Qgt_bool (trophy_score_diff least) score_diff ||
          (Qeq_bool score_diff (trophy_score_diff least) && (proj_diff <? trophy_proj least))
  then (most, {| trophy_score_diff := score_diff; trophy_proj := proj_diff;
                 trophy_score := score_text p; trophy_player := label p;
                 trophy_team := Some team |})
  else (most, least).

(** One of the four loops over a lineup. *)
Definition judge_lineup (guard : Player -> bool) (score_text : Player -> string)
  (label : Player -> string) (lineup : list Player) (team : team_ref)
  (pair : trophy * trophy) : trophy * trophy :=
  fold_left (fun pair p => if guard p then judge score_text label team pair p else pair)
            lineup pair.

(** [team.team_abbrev] for the team of a trophy: neither -1 nor 0 has the
    attribute. *)
Definition trophy_abbrev (tr : trophy) : result string :=
  match trophy_team tr with
  | Some side => attribute team_abbrev side
  | None => Fail AttributeError
  end.

(** ['<kind>: %s, %s with %s' % (player, abbrev, score)], all three strings. *)
Definition trophy_text (kind player abbrev score : string) : string :=
  String.append kind
    (String.append ": "
       (String.append player
          (String.append ", " (String.append abbrev (String.append " with " score))))).

Definition trophy_line (kind : string) (tr : trophy) : result (list string) :=
  abbrev <~ trophy_abbrev tr ;;
  Ok [trophy_text kind (trophy_player tr) abbrev (trophy_score tr)].

Section Trophies.
(** ['%.2f points (%.2f proj)'] and ['%.0f points (%.2f proj)'] applied to
    the points and the projection of a player. *)
Variable format_points : Z -> Z -> string.
Variable format_defence_points : Z -> Z -> string.

Definition player_score (p : Player) : string :=
  format_points (points p) (projected_points p).

Definition defence_score (p : Player) : string :=
  format_defence_points (points p) (projected_points p).

(** [p.position + ' ' + p.name] *)
Definition player_label (p : Player) : string :=
  String.append (position p) (String.append " " (name p)).

(** Lines 829-894: the two pairs of trophies after all matchups. *)
Definition judge_matchups (matchups : list Matchup)
  : (trophy * trophy) * (trophy * trophy) :=
  fold_left (fun pairs i =>
               let '(players, defences) := pairs in
               let players :=
                 judge_lineup eligible_player player_score player_label
                   (home_lineup (box i)) (home_team i) players in
               let players :=
                 judge_lineup eligible_player player_score player_label
                   (away_lineup (box i)) (away_team i) players in
               let defences :=
                 judge_lineup eligible_defence defence_score name
                   (home_lineup (box i)) (home_team i) defences in
               let defences :=
                 judge_lineup eligible_defence defence_score name
                   (away_lineup (box i)) (away_team i) defences in
               (players, defences))
            matchups
            ((most_valuable_start, least_valuable_start),
             (most_valuable_start, least_valuable_start)).

Definition get_mvp_lvp (matchups : list Matchup) : result (list string) :=
  let '((mvp, lvp), (mvd, lvd)) := judge_matchups matchups in
  mvp_str <~ trophy_line "💯 MVP" mvp ;;
  mvd_str <~ trophy_line "✅ MVD" mvd ;;
  lvp_str <~ trophy_line "💀 LVP" lvp ;;
  lvd_str <~ trophy_line "🔴 LVD" lvd ;;
  Ok (mvp_str ++ lvp_str ++ mvd_str ++ lvd_str).
End Trophies.

(** The players of a week that pass a guard, in the order of the loops, each
    with the side it plays for. *)
Definition candidates (guard : Player -> bool) (matchups : list Matchup)
  : list (Player * team_ref) :=
  flat_map (fun i =>
              map (fun p => (p, home_team i)) (filter guard (home_lineup (box i))) ++
              map (fun p => (p, away_team i)) (filter guard (away_lineup (box i))))
           matchups.

(** The number of trophies of a pair that have a team. *)
Definition awarded (pair : trophy * trophy) : nat :=
  (match trophy_team (fst pair) with Some _ => 1 | None => 0 end +
   match trophy_team (snd pair) with Some _ => 1 | None => 0 end)%nat.

(** The trophy a player takes. *)
Definition trophy_of (score_text label : Player -> string) (c : Player * team_ref)
  : trophy :=
  {| trophy_score_diff := ratio_of (fst c);
     trophy_proj := points (fst c) - projected_points (fst c);
     trophy_score := score_text (fst c); trophy_player := label (fst c);
     trophy_team := Some (snd c) |}.

Definition example_format_points (pts proj : Z) : string := "points".

(** *** [get_lucky_trophy] *)

(** The marks ['W'] and ['L']; as strings, ['L'] is below ['W']. *)
Inductive verdict : Type :=
| Win
| Loss.

Definition verdict_eqb (a b : verdict) : bool :=
  match a, b with
  | Win, Win | Loss, Loss => true
  | _, _ => false
  end.

Definition verdict_leb (a b : verdict) : bool :=
  match a, b with
  | Win, Loss => false
  | _, _ => true
  end.

(** The order of the lists [[score, mark]]: by score, then by mark. *)
Definition weekly_leb {K} (y x : K * (Z * verdict)) : bool :=
  (fst (snd y) <? fst (snd x)) ||
  ((fst (snd y) =? fst (snd x)) && verdict_leb (snd (snd y)) (snd (snd x))).

(** Lines 741-749. *)
Definition weekly_scores_of (box_scores : list Matchup) : team_dict (Z * verdict) :=
  fold_left (fun weekly_scores i =>
               match home_team i, away_team i with
               | a_team h, a_team a =>
                   if away_score i <? home_score i
                   then team_set (team_set weekly_scores h (home_score i, Win))
                          a (away_score i, Loss)
                   else team_set (team_set weekly_scores h (home_score i, Loss))
                          a (away_score i, Win)
               | _, _ => weekly_scores
               end)
            box_scores [].

(** The loops of lines 764-769 and 773-778: the first team with the mark, and
    the number of teams before it. *)
Fixpoint first_with (mark : verdict) (weekly_scores : team_dict (Z * verdict))
  (count : Z) : option (Team * Z) :=
  match weekly_scores with
  | [] => None
  | (t, (_, mark')) :: rest =>
      if verdict_eqb mark' mark then Some (t, count)
      else first_with mark rest (count + 1)
  end.

Definition lucky_text (team record : string) : string :=
  String.append "🍀 Lucky: "
    (String.append team
       (String.append " was "
          (String.append record " against the league, and snuck in a win"))).

Definition unlucky_text (team record : string) : string :=
  String.append "😡 Unlucky: "
    (String.append team
       (String.append " was "
          (String.append record " against the league, but still took an L"))).

Section Lucky.
(** [str] on an integer. *)
Variable str : Z -> string.

(** [str(a) + '-' + str(b)] *)
Definition record_text (a b : Z) : string :=
  String.append (str a) (String.append "-" (str b)).

Definition get_lucky_trophy (box_scores : list Matchup) : list string :=
  let weekly_scores := weekly_scores_of box_scores in
  let weekly_scores := team_dict_of_items (sorted_by weekly_leb weekly_scores) in
  let num_teams := Z.of_nat (List.length weekly_scores) - 1 in
  let '(unlucky_team_name, unlucky_record) :=
    match first_with Loss weekly_scores 0 with
    | Some (t, losses) => (team_name t, record_text (num_teams - losses) losses)
    | None => (EmptyString, EmptyString)
    end in
  let weekly_scores :=
    team_dict_of_items (sorted_by (fun y x => weekly_leb x y) weekly_scores) in
  let '(lucky_team_name, lucky_record) :=
    match first_with Win weekly_scores 0 with
    | Some (t, wins) => (team_name t, record_text wins (num_teams - wins))
    | None => (EmptyString, EmptyString)
    end in
  [lucky_text lucky_team_name lucky_record] ++
  [unlucky_text unlucky_team_name unlucky_record].
End Lucky.

(** The entries of a week in which no team plays twice: for each matchup
    between two teams, the home side and the away side. *)
Definition matchup_entries (i : Matchup) : list (Team * (Z * verdict)) :=
  match home_team i, away_team i with
  | a_team h, a_team a =>
      if away_score i <? home_score i
      then [(h, (home_score i, Win)); (a, (away_score i, Loss))]
      else [(h, (home_score i, Loss)); (a, (away_score i, Win))]
  | _, _ => []
  end.

Definition week_entries (box_scores : list Matchup) : list (Team * (Z * verdict)) :=
  flat_map matchup_entries box_scores.

(** The winners that scored at least [s], and the losers that scored at most
    [s]. *)
Definition winner_from (s : Z) (e : Team * (Z * verdict)) : bool :=
  verdict_eqb (snd (snd e)) Win && (s <=? fst (snd e)).

Definition loser_up_to (s : Z) (e : Team * (Z * verdict)) : bool :=
  verdict_eqb (snd (snd e)) Loss && (fst (snd e) <=? s).

Definition example_str (n : Z) : string :=
  match n with
  | 0 => "0" | 1 => "1" | 2 => "2" | 3 => "3" | 4 => "4" | _ => "n"
  end.

(** *** [get_trophies] *)

(** The league as the functions use it: the current week, and the box scores
    of a week, [None] standing for the default of [league.box_scores]. *)
Record League : Type := {
  current_week : Z;
  box_scores_of : option Z -> list Matchup;
  teams : list Team;
  standings_of : list Team
}.

(** [week] when it is given and not zero, the week before the current one
    otherwise (lines 625-626). *)
Definition week_or_previous (league : League) (week : option Z) : option Z :=
  match week with
  | None => Some (current_week league - 1)
  | Some w => if w =? 0 then Some (current_week league - 1) else Some w
  end.

(** The locals of lines 923-932. *)
Record week_trophies : Type := {
  low_score : Z;
  low_team_name : string;
  high_score : Z;
  high_team_name : string;
  closest_score : Z;
  close_winner : string;
  close_loser : string;
  biggest_blowout : Z;
  blown_out_team_name : string;
  ownerer_team_name : string
}.

Definition week_trophies_start : week_trophies :=
  {| low_score := 9999; low_team_name := EmptyString;
     high_score := -1; high_team_name := EmptyString;
     closest_score := 9999; close_winner := EmptyString; close_loser := EmptyString;
     biggest_blowout := -1; blown_out_team_name := EmptyString;
     ownerer_team_name := EmptyString |}.

(** Lines 935-941 and 942-948: one side that is a team. *)
Definition note_score (score : Z) (side : team_ref) (tr : week_trophies)
  : week_trophies :=
  match side with
  | no_team => tr
  | a_team t =>
      let tr :=
        if high_score tr <? score
        then {| low_score := low_score tr; low_team_name := low_team_name tr;
                high_score := score; high_team_name := team_name t;
                closest_score := closest_score tr; close_winner := close_winner tr;
                close_loser := close_loser tr; biggest_blowout := biggest_blowout tr;
                blown_out_team_name := blown_out_team_name tr;
                ownerer_team_name := ownerer_team_name tr |}
        else tr in
      if score <? low_score tr
      then {| low_score := score; low_team_name := team_name t;
              high_score := high_score tr; high_team_name := high_team_name tr;
              closest_score := closest_score tr; close_winner := close_winner tr;
              close_loser := close_loser tr; biggest_blowout := biggest_blowout tr;
              blown_out_team_name := blown_out_team_name tr;
              ownerer_team_name := ownerer_team_name tr |}
      else tr
  end.

(** Lines 950-967: a matchup between two teams. *)
Definition note_margin (i : Matchup) (tr : week_trophies) : week_trophies :=
  match away_team i, home_team i with
  | a_team a, a_team h =>
      let diff := away_score i - home_score i in
      let tr :=
        if negb (diff =? 0) && (Z.abs diff <? closest_score tr)
        then {| low_score := low_score tr; low_team_name := low_team_name tr;
                high_score := high_score tr; high_team_name := high_team_name tr;
                closest_score := Z.abs diff;
                close_winner := if diff <? 0 then team_name h else team_name a;
                close_loser := if diff <? 0 then team_name a else team_name h;
                biggest_blowout := biggest_blowout tr;
                blown_out_team_name := blown_out_team_name tr;
                ownerer_team_name := ownerer_team_name tr |}
        else tr in
      if biggest_blowout tr <? Z.abs diff
      then {| low_score := low_score tr; low_team_name := low_team_name tr;
              high_score := high_score tr; high_team_name := high_team_name tr;
              closest_score := closest_score tr; close_winner := close_winner tr;
              close_loser := close_loser tr;
              biggest_blowout := Z.abs diff;
              blown_out_team_name := if diff <? 0 then team_name a else team_name h;
              ownerer_team_name := if diff <? 0 then team_name h else team_name a |}
      else tr
  | _, _ => tr
  end.

(** Lines 934-967. *)
Definition note_matchups (matchups : list Matchup) : week_trophies :=
  fold_left (fun tr i =>
               note_margin i
                 (note_score (away_score i) (away_team i)
                    (note_score (home_score i) (home_team i) tr)))
            matchups week_trophies_start.

Section WeekTrophies.
Variable format_high : string -> Z -> string.
Variable format_low : string -> Z -> string.
Variable format_close : string -> string -> Z -> string.
Variable format_blowout : string -> string -> Z -> string.
Variable str : Z -> string.
Variable format_over : string -> Z -> string.
Variable format_under : string -> Z -> string.
Variable format_points : Z -> Z -> string.
Variable format_defence_points : Z -> Z -> string.
Variable format_full : Z -> string -> Z -> Z -> Q -> string.
Variable format_best : string -> Q -> string.
Variable format_worst : string -> Z -> Q -> string.

(** [optimal_team_scores(league, week)] as lines 625-630 read the league. *)
Definition league_optimal_team_scores (league : League) (week : option Z)
  (full_report : bool) : result report_value :=
  optimal_team_scores format_full format_best format_worst
    (map box (box_scores_of league (Some (current_week league - 1))))
    (box_scores_of league (week_or_previous league week))
    full_report.

(** The four lines of lines 969-972. *)
Definition week_trophy_lines (tr : week_trophies) : list string :=
  let high_score_str := [format_high (high_team_name tr) (high_score tr)] in
  let low_score_str := [format_low (low_team_name tr) (low_score tr)] in
  let close_score_str :=
    [format_close (close_winner tr) (close_loser tr) (closest_score tr)] in
  let blowout_str :=
    [format_blowout (ownerer_team_name tr) (blown_out_team_name tr)
       (biggest_blowout tr)] in
  high_score_str ++ low_score_str ++ blowout_str ++ close_score_str.

(** A list and a string cannot be added: [TypeError]. *)
Definition get_trophies (league : League) (week : option Z) : result string :=
  let matchups := box_scores_of league week in
  let own := week_trophy_lines (note_matchups matchups) in
  let lucky := get_lucky_trophy str (box_scores_of league week) in
  let achievers := get_achievers_trophy format_over format_under
                     (box_scores_of league week) in
  valuable <~ get_mvp_lvp format_points format_defence_points
                (box_scores_of league week) ;;
  optimal <~ league_optimal_team_scores league week false ;;
  match optimal with
  | Lines optimal =>
      Ok (join newline
            (["🏆 Trophies of the week: 🏆"] ++ own ++ lucky ++ achievers ++
             valuable ++ optimal))
  | Text _ => Fail TypeError
  end.
End WeekTrophies.

(** The scores of the teams of a week with the names of the teams, and the
    margins of the matchups between two teams with the winner and the loser
    as lines 954-959 name them. *)
Definition side_score (score : Z) (side : team_ref) : list (Z * string) :=
  match side with
  | no_team => []
  | a_team t => [(score, team_name t)]
  end.

Definition team_scores (matchups : list Matchup) : list (Z * string) :=
  flat_map (fun i => side_score (home_score i) (home_team i) ++
                     side_score (away_score i) (away_team i)) matchups.

Definition margin_of (i : Matchup) : list (Z * (string * string)) :=
  match away_team i, home_team i with
  | a_team a, a_team h =>
      [(Z.abs (away_score i - home_score i),
        if away_score i - home_score i <? 0
        then (team_name h, team_name a) else (team_name a, team_name h))]
  | _, _ => []
  end.

Definition margins (matchups : list Matchup) : list (Z * (string * string)) :=
  flat_map margin_of matchups.

(** What the loop of lines 934-967 keeps. *)
Definition trophies_of (scores : list (Z * string))
  (decided : list (Z * (string * string))) (tr : week_trophies) : Prop :=
  (forall e, In e scores -> low_score tr <= fst e <= high_score tr) /\
  (high_score tr = -1 \/ In (high_score tr, high_team_name tr) scores) /\
  (low_score tr = 9999 \/ In (low_score tr, low_team_name tr) scores) /\
  (forall m, In m decided -> fst m <= biggest_blowout tr) /\
  (forall m, In m decided -> fst m <> 0 -> closest_score tr <= fst m) /\
  (biggest_blowout tr = -1 \/
   In (biggest_blowout tr, (ownerer_team_name tr, blown_out_team_name tr)) decided) /\
  ((closest_score tr = 9999 /\ close_winner tr = EmptyString /\
    close_loser tr = EmptyString) \/
   (0 < closest_score tr < 9999 /\
    In (closest_score tr, (close_winner tr, close_loser tr)) decided)).

Definition example_league : League :=
  {| current_week := 5;
     box_scores_of := fun week =>
       match week with
       | Some 4 => [finished_matchup]
       | _ => [other_matchup; running_matchup]
       end;
     teams := [team_A; team_B; team_C; team_D];
     standings_of := [team_A; team_B; team_C; team_D] |}.

(** *** [get_waiver_report] *)

(** An action of an activity: the tuple of team, kind, player and bid. *)
Record Action : Type := {
  action_team : Team;
  action_kind : string;
  action_player : Player;
  action_bid : Z
}.

(** An activity with the day its timestamp falls on, as line 350 prints it. *)
Record Activity : Type := {
  activity_day : string;
  actions : list Action
}.

Section Waivers.
Variable lstrip : string -> string.
Variable str : Z -> string.

(** The texts of lines 363-365, 371-377 and 380-386: the team, the player
    added, the bid when [faab] is set, and the player dropped if there is
    one. *)
Definition added_text (faab : bool) (team : Team) (added : Action)
  (dropped : option Action) : string :=
  String.append (team_name team)
    (String.append " "
       (String.append newline
          (String.append "ADDED "
             (String.append (position (action_player added))
                (String.append " "
                   (String.append (name (action_player added))
                      (String.append
                         (if faab
                          then String.append " ($"
                                 (String.append (str (action_bid added)) ")")
                          else EmptyString)
                         (String.append newline
                            match dropped with
                            | Some d =>
                                String.append "DROPPED "
                                  (String.append (position (action_player d))
                                     (String.append " "
                                        (String.append (name (action_player d))
                                           newline)))
                            | None => EmptyString
                            end)))))))).

(** Lines 348-387 for one activity: what it adds to the report. *)
Definition activity_report (today : string) (faab : bool) (activity : Activity)
  : list string :=
  if String.eqb (activity_day activity) today then
    match actions activity with
    | [] => []
    | [a0] =>
        if String.eqb (action_kind a0) "WAIVER ADDED"
        then [lstrip (added_text faab (action_team a0) a0 None)]
        else []
    | a0 :: a1 :: _ =>
        if String.eqb (action_kind a0) "WAIVER ADDED" ||
           String.eqb (action_kind a1) "WAIVER ADDED"
        then
          if String.eqb (action_kind a0) "WAIVER ADDED"
          then [lstrip (added_text faab (action_team a0) a0 (Some a1))]
          else [lstrip (added_text faab (action_team a0) a1 (Some a0))]
        else []
    end
  else [].

(** With an empty report the message goes into [report], and what is joined
    is [text], still the empty string. *)
Definition get_waiver_report (today : string) (faab : bool)
  (activities : list Activity) : string :=
  let report :=
    fold_left (fun report activity => report ++ activity_report today faab activity)
              activities [] in
  let report := rev report in
  match report with
  | [] =>
      let report := report ++ ["No waiver transactions"] in
      EmptyString
  | _ :: _ =>
      join newline
        (String.append "Waiver Report " (String.append today ": ") :: report)
  end.
End Waivers.

(** The activities of the day that the report lists. *)
Definition waiver_listed (today : string) (activity : Activity) : bool :=
  String.eqb (activity_day activity) today &&
  match actions activity with
  | [] => false
  | [a0] => String.eqb (action_kind a0) "WAIVER ADDED"
  | a0 :: a1 :: _ =>
      String.eqb (action_kind a0) "WAIVER ADDED" ||
      String.eqb (action_kind a1) "WAIVER ADDED"
  end.

(** *** [get_standings] *)

(** [enumerate(l)], counting from [pos]. *)
Fixpoint enumerate_from {A} (pos : Z) (l : list A) : list (Z * A) :=
  match l with
  | [] => []
  | x :: l' => (pos, x) :: enumerate_from (pos + 1) l'
  end.

(** [range(1, week)] *)
Definition weeks_before (week : Z) : list Z :=
  map Z.of_nat (seq 1 (Z.to_nat week - 1)).

(** Lines 95-99: the top-half wins of the weeks before [week]. *)
Definition top_half_totals_before (league : League) (week : Z) : result (dict Z) :=
  for_result (weeks_before week)
    (fun top_half_totals w =>
       top_half_wins (box_scores_of league (Some w)) top_half_totals)
    (dict_of_items (map (fun t => (team_name t, 0)) (teams league))).

(** [week] when it is given and not zero, the current week otherwise (lines
    96-97). *)
Definition week_or_current (league : League) (week : option Z) : Z :=
  match week with
  | None => current_week league
  | Some w => if w =? 0 then current_week league else w
  end.

Section Standings.
(** The f-strings of lines 87, 90 and 106, applied to the position shown and
    to what else they print. *)
Variable format_record : Z -> Team -> string.
Variable format_name : Z -> Team -> string.
Variable format_top_half : Z -> string -> Z -> Z -> Z -> string.

(** Lines 108-114; [text] is bound by one of the tests for every integer. *)
Definition standings_text (week : Z) (standings_txt : list string) : result string :=
  let text :=
    if week <=? 13
    then Some ("💯 Current Standings (Playoff %) 💯" :: standings_txt)
    else None in
  let text :=
    if (14 <=? week) && (week <=? 15)
    then Some ("💯 Current Standings 💯" :: standings_txt)
    else if 16 <=? week
         then Some ("💯 Final Standings 💯" :: standings_txt)
         else text in
  match text with
  | Some text => Ok (join newline text)
  | None => Fail UnboundLocalError
  end.

(** Comparing [None] with 13 is a [TypeError]; so is adding the empty string
    [standings_txt] starts as to a list. *)
Definition get_standings (league : League) (top_half_scoring : bool)
  (week : option Z) : result string :=
  if negb top_half_scoring then
    match week with
    | None => Fail TypeError
    | Some week =>
        standings_txt <~
          (if week <=? 13
           then Ok (map (fun pt => format_record (fst pt + 1) (snd pt))
                      (enumerate_from 0 (standings_of league)))
           else if 14 <=? week
                then Ok (map (fun pt => format_name (fst pt + 1) (snd pt))
                           (enumerate_from 0 (standings_of league)))
                else Fail TypeError) ;;
        standings_text week standings_txt
    end
  else
    let week := week_or_current league week in
    top_half_totals <~ top_half_totals_before league week ;;
    standings <~
      map_result (fun t =>
                    match dict_get top_half_totals (team_name t) with
                    | Some credited => Ok (credited + wins t, losses t, team_name t)
                    | None => Fail (Builtin KeyError)
                    end)
                 (teams league) ;;
    let standings :=
      sorted_by (fun y x : Z * Z * string => fst (fst y) <=? fst (fst x)) standings in
    standings_txt <~
      map_result (fun pt =>
                    let '(pos, (wins, losses, team_name)) := pt in
                    match dict_get top_half_totals team_name with
                    | Some credited =>
                        Ok (format_top_half (pos + 1) team_name wins losses credited)
                    | None => Fail (Builtin KeyError)
                    end)
                 (enumerate_from 0 standings) ;;
    standings_text week standings_txt.
End Standings.

(** The number of top-half wins handed out in the weeks listed. *)
Definition wins_handed_out (league : League) (weeks : list Z) : Z :=
  sum (map (fun w => Z.of_nat (List.length (week_scores (box_scores_of league (Some w))) / 2))
           weeks).

Definition example_format_top_half (pos : Z) (team : string) (wins losses credited : Z)
  : string := team.

Definition example_format_standing (pos : Z) (team : Team) : string := team_name team.

(** * Properties *)

(** ** Dictionaries *)

Lemma dict_get_set_same {V} (d : dict V) k v : dict_get (dict_set d k v) k = Some v.
Proof.
  induction d as [|[k' v'] d IH]; simpl.
  - now rewrite String.eqb_refl.
  - destruct (String.eqb k' k) eqn:E; simpl; rewrite E; auto.
Qed.

Lemma dict_get_set_other {V} (d : dict V) k k' v :
  k <> k' -> dict_get (dict_set d k v) k' = dict_get d k'.
Proof.
  intros Hne. induction d as [|[k0 v0] d IH]; simpl.
  - destruct (String.eqb_spec k k'); congruence.
  - destruct (String.eqb_spec k0 k); simpl.
    + subst. destruct (String.eqb_spec k k'); congruence.
    + destruct (String.eqb_spec k0 k'); auto.
Qed.

Lemma dict_set_set {V} (d : dict V) k v v' :
  dict_set (dict_set d k v) k v' = dict_set d k v'.
Proof.
  induction d as [|[k0 v0] d IH]; simpl.
  - now rewrite String.eqb_refl.
  - destruct (String.eqb k0 k) eqn:E; simpl; rewrite E; congruence.
Qed.

Lemma dict_get_keys {V} (d : dict V) k :
  In k (dict_keys d) <-> exists v, dict_get d k = Some v.
Proof.
  induction d as [|[k0 v0] d IH]; simpl.
  - split; [tauto | intros [v H]; discriminate].
  - destruct (String.eqb_spec k0 k).
    + split; eauto.
    + rewrite IH. split; [intros [H|H]; [congruence | exact H] | auto].
Qed.

Lemma dict_get_none_keys {V} (d : dict V) k :
  dict_get d k = None <-> ~ In k (dict_keys d).
Proof.
  rewrite dict_get_keys. destruct (dict_get d k).
  - split; [discriminate | intros H; exfalso; eauto].
  - split; [intros _ [v H]; discriminate | auto].
Qed.

Lemma dict_keys_set_present {V} (d : dict V) k v :
  In k (dict_keys d) -> dict_keys (dict_set d k v) = dict_keys d.
Proof.
  induction d as [|[k0 v0] d IH]; simpl; [tauto|].
  destruct (String.eqb_spec k0 k); simpl; auto.
  intros [H|H]; [congruence | now rewrite IH].
Qed.

Lemma dict_set_absent {V} (d : dict V) k v :
  ~ In k (dict_keys d) -> dict_set d k v = d ++ [(k, v)].
Proof.
  induction d as [|[k0 v0] d IH]; simpl; auto.
  intros H. destruct (String.eqb_spec k0 k); [tauto|].
  rewrite IH; tauto.
Qed.

Lemma dict_set_split {V} (d : dict V) k v :
  dict_get d k = Some v ->
  exists l1 l2, d = l1 ++ (k, v) :: l2 /\ ~ In k (dict_keys l1) /\
                forall v', dict_set d k v' = l1 ++ (k, v') :: l2.
Proof.
  induction d as [|[k0 v0] d IH]; simpl; [discriminate|].
  destruct (String.eqb_spec k0 k) as [->|Hne].
  - intros [= ->]. exists [], d. simpl. repeat split; auto.
  - intros H. destruct (IH H) as (l1 & l2 & -> & Hnin & Hset).
    exists ((k0, v0) :: l1), l2. simpl. repeat split.
    + intros [?|?]; auto.
    + intros v'. now rewrite Hset.
Qed.

Lemma dict_get_app_absent {V} (l1 l2 : dict V) k :
  ~ In k (dict_keys l1) -> dict_get (l1 ++ l2) k = dict_get l2 k.
Proof.
  induction l1 as [|[k0 v0] l1 IH]; simpl; auto.
  intros H. destruct (String.eqb_spec k0 k); [tauto|]. apply IH. tauto.
Qed.

Lemma dict_get_In {V} (d : dict V) k v : dict_get d k = Some v -> In (k, v) d.
Proof.
  induction d as [|[k0 v0] d IH]; simpl; [discriminate|].
  destruct (String.eqb_spec k0 k) as [->|Hne].
  - intros [= ->]. now left.
  - intros H. right. auto.
Qed.

Lemma dict_In_get {V} (d : dict V) k v :
  NoDup (dict_keys d) -> In (k, v) d -> dict_get d k = Some v.
Proof.
  induction d as [|[k0 v0] d IH]; simpl; [tauto|].
  intros Hnd [H|H]; inversion Hnd; subst.
  - inversion H; subst. now rewrite String.eqb_refl.
  - destruct (String.eqb_spec k0 k) as [->|Hne]; [|auto].
    exfalso. apply H2. change k with (fst (k, v)). now apply in_map.
Qed.

Lemma dict_keys_set {V} (d : dict V) k v :
  dict_keys (dict_set d k v) =
  if dict_contains d k then dict_keys d else dict_keys d ++ [k].
Proof.
  unfold dict_contains. induction d as [|[k0 v0] d IH]; simpl; [reflexivity|].
  destruct (String.eqb_spec k0 k); simpl; [reflexivity|].
  rewrite IH. destruct (dict_get d k); reflexivity.
Qed.

Lemma dict_set_NoDup {V} (d : dict V) k v :
  NoDup (dict_keys d) -> NoDup (dict_keys (dict_set d k v)).
Proof.
  intros H. rewrite dict_keys_set. unfold dict_contains.
  destruct (dict_get d k) eqn:E; [exact H|].
  apply dict_get_none_keys in E.
  apply Permutation_NoDup with (l := k :: dict_keys d).
  - apply Permutation_cons_append.
  - now constructor.
Qed.

Lemma fold_set_NoDup {V} (items : list (string * V)) :
  forall acc : dict V,
    NoDup (dict_keys acc) ->
    NoDup (dict_keys (fold_left (fun d kv => dict_set d (fst kv) (snd kv)) items acc)).
Proof.
  induction items as [|[k v] items IH]; intros acc H; simpl; [exact H|].
  apply IH. now apply dict_set_NoDup.
Qed.

Lemma dict_of_items_NoDup {V} (items : list (string * V)) :
  NoDup (dict_keys (dict_of_items items)).
Proof. apply fold_set_NoDup. constructor. Qed.

Lemma dict_union_NoDup {V} (a b : dict V) :
  NoDup (dict_keys a) -> NoDup (dict_keys (dict_union a b)).
Proof. apply fold_set_NoDup. Qed.

Lemma fold_set_fresh {V} (items : list (string * V)) :
  forall acc : dict V,
    NoDup (dict_keys acc ++ dict_keys items) ->
    fold_left (fun d kv => dict_set d (fst kv) (snd kv)) items acc = acc ++ items.
Proof.
  induction items as [|[k v] items IH]; intros acc H; simpl.
  - now rewrite app_nil_r.
  - simpl in H. rewrite dict_set_absent.
    + rewrite IH; [now rewrite <- app_assoc|].
      unfold dict_keys in *. rewrite map_app, <- app_assoc. exact H.
    + apply NoDup_remove_2 in H. intros Hin. apply H. apply in_or_app. now left.
Qed.

Lemma dict_of_items_id {V} (items : list (string * V)) :
  NoDup (dict_keys items) -> dict_of_items items = items.
Proof. intros H. unfold dict_of_items. now rewrite fold_set_fresh. Qed.

Lemma dict_union_fresh {V} (a b : dict V) :
  NoDup (dict_keys a ++ dict_keys b) -> dict_union a b = a ++ b.
Proof. apply fold_set_fresh. Qed.

Lemma fold_set_keys_in {V} (items : list (string * V)) :
  forall (acc : dict V) x,
    In x (dict_keys (fold_left (fun d kv => dict_set d (fst kv) (snd kv)) items acc)) <->
    In x (dict_keys acc) \/ In x (dict_keys items).
Proof.
  induction items as [|[k v] items IH]; intros acc x; simpl; [tauto|].
  rewrite IH, dict_keys_set. destruct (dict_contains acc k) eqn:E.
  - unfold dict_contains in E. destruct (dict_get acc k) eqn:G; [|discriminate].
    assert (In k (dict_keys acc)) by (apply dict_get_keys; eauto).
    split; [tauto|]. intros [?|[?|?]]; subst; auto.
  - rewrite in_app_iff. simpl. tauto.
Qed.

Lemma dict_of_items_keys_in {V} (items : list (string * V)) x :
  In x (dict_keys (dict_of_items items)) <-> In x (dict_keys items).
Proof. unfold dict_of_items. rewrite fold_set_keys_in. simpl. tauto. Qed.

Lemma dict_union_keys_in {V} (a b : dict V) x :
  In x (dict_keys (dict_union a b)) <-> In x (dict_keys a) \/ In x (dict_keys b).
Proof. apply fold_set_keys_in. Qed.

Lemma dict_keys_firstn {V} (d : dict V) n : dict_keys (firstn n d) = firstn n (dict_keys d).
Proof. unfold dict_keys. now rewrite firstn_map. Qed.

Lemma dict_keys_skipn {V} (d : dict V) n : dict_keys (skipn n d) = skipn n (dict_keys d).
Proof. unfold dict_keys. now rewrite skipn_map. Qed.

Lemma NoDup_app_iff {A} (l1 l2 : list A) :
  NoDup (l1 ++ l2) <-> NoDup l1 /\ NoDup l2 /\ forall x, In x l1 -> ~ In x l2.
Proof.
  induction l1 as [|a l1 IH]; simpl.
  - split; [intros H; repeat split; [constructor | exact H | tauto] | tauto].
  - split.
    + intros H. inversion H as [|? ? Hnin Hnd]; subst.
      apply IH in Hnd. destruct Hnd as (H1 & H2 & H3).
      repeat split; auto.
      * constructor; [|exact H1]. intros Hin. apply Hnin, in_or_app. now left.
      * intros x [<-|Hx]; [|now apply H3].
        intros Hin. apply Hnin, in_or_app. now right.
    + intros (H1 & H2 & H3). inversion H1; subst. constructor.
      * rewrite in_app_iff. intros [?|?]; [tauto|]. apply (H3 a); auto.
      * apply IH. repeat split; auto.
Qed.

Lemma NoDup_firstn {A} (l : list A) n : NoDup l -> NoDup (firstn n l).
Proof.
  intros H. rewrite <- (firstn_skipn n l) in H. now apply NoDup_app_iff in H.
Qed.

Lemma NoDup_skipn {A} (l : list A) n : NoDup l -> NoDup (skipn n l).
Proof.
  intros H. rewrite <- (firstn_skipn n l) in H. now apply NoDup_app_iff in H.
Qed.

Lemma insert_desc_perm x l : Permutation (insert_desc x l) (x :: l).
Proof.
  induction l as [|y l IH]; simpl; [reflexivity|].
  destruct (snd y <=? snd x); [reflexivity|].
  rewrite IH. apply perm_swap.
Qed.

Lemma sorted_desc_perm l : Permutation (sorted_desc l) l.
Proof.
  induction l as [|x l IH]; simpl; [reflexivity|].
  rewrite insert_desc_perm. now constructor.
Qed.

Lemma sorted_desc_keys_perm l : Permutation (dict_keys (sorted_desc l)) (dict_keys l).
Proof. apply Permutation_map, sorted_desc_perm. Qed.

Lemma sorted_desc_NoDup l : NoDup (dict_keys l) -> NoDup (dict_keys (sorted_desc l)).
Proof.
  apply Permutation_NoDup, Permutation_sym, sorted_desc_keys_perm.
Qed.

(** ** Running the statements *)

Ltac unfold_monad :=
  unfold try_except_KeyError, bind, get, modify, ret, raise, getitem, pop in *.

Lemma for_run {S A} (P : S -> Prop) (step : A -> S -> S) (body : A -> M S unit) :
  forall (l : list A) (s : S),
    P s ->
    (forall x s, In x l -> P s -> body x s = (Returned tt, step x s) /\ P (step x s)) ->
    for_ l body s = (Returned tt, fold_left (fun s x => step x s) l s) /\
    P (fold_left (fun s x => step x s) l s).
Proof.
  induction l as [|x l IH]; intros s Hs Hbody; simpl.
  - split; [reflexivity | exact Hs].
  - destruct (Hbody x s (or_introl eq_refl) Hs) as [Hx HP].
    unfold bind at 1. rewrite Hx.
    apply IH; [exact HP|].
    intros y s' Hy. apply Hbody. now right.
Qed.

Lemma for_run_total {S A} (step : A -> S -> S) (body : A -> M S unit) :
  forall (l : list A) (s : S),
    (forall x s, In x l -> body x s = (Returned tt, step x s)) ->
    for_ l body s = (Returned tt, fold_left (fun s x => step x s) l s).
Proof.
  intros l s H.
  apply (for_run (fun _ => True) step body l s I).
  intros x s' Hx _. split; [now apply H | exact I].
Qed.

Lemma collect_players_run lineup fr :
  collect_players lineup fr =
  (Returned tt, fold_left (fun fr player => collect_step player fr) lineup fr).
Proof.
  unfold collect_players. apply for_run_total.
  intros player s _.
  unfold collect_step, add_player, set_player_points, set_position_players, set_score.
  unfold_monad. simpl.
  destruct (dict_get (position_players s) (position player)) eqn:E; simpl.
  - destruct (is_starter player); reflexivity.
  - rewrite dict_get_set_same. simpl. rewrite dict_set_set. simpl.
    destruct (is_starter player); reflexivity.
Qed.

Lemma count_of_key starter_counts position :
  In position (dict_keys starter_counts) ->
  dict_get starter_counts position = Some (count_of starter_counts position).
Proof.
  intros H. apply dict_get_keys in H. destruct H as [n H].
  unfold count_of. now rewrite H.
Qed.

Lemma fill_positions_run starter_counts fr :
  fill_positions starter_counts fr =
  (Returned tt,
   fold_left (fun fr position => position_step starter_counts position fr)
     (dict_keys starter_counts) fr).
Proof.
  unfold fill_positions. apply for_run_total.
  intros position s Hin.
  unfold position_step, set_position_players, set_best_lineup.
  unfold_monad. simpl.
  destruct (dict_get (position_players s) position) eqn:E; simpl; [|reflexivity].
  rewrite dict_get_set_same. simpl.
  rewrite (count_of_key _ _ Hin). simpl.
  rewrite dict_get_set_same. simpl.
  rewrite dict_set_set. reflexivity.
Qed.

Lemma remove_player_keys pos p pp :
  dict_keys (remove_player pos p pp) = dict_keys pp.
Proof.
  unfold remove_player.
  destruct (dict_get pp pos) as [bucket|] eqn:E; [|reflexivity].
  destruct (dict_contains bucket p); [|reflexivity].
  apply dict_keys_set_present. apply dict_get_keys. eauto.
Qed.

Lemma remove_players_keys pos names pp :
  dict_keys (fold_left (fun pp p => remove_player pos p pp) names pp) = dict_keys pp.
Proof.
  revert pp. induction names as [|p names IH]; intros pp; simpl; [reflexivity|].
  rewrite IH. apply remove_player_keys.
Qed.

Lemma pool_loop_run flexes fr :
  for_ flexes (fun flex_position =>
    try_except_KeyError
      (fr <- get ;;
       bucket <- getitem (player_pool fr) flex_position ;;
       set_pool (dict_union (pool fr) bucket))
      (ret tt)) fr =
  (Returned tt,
   {| pool := fold_left (fun pl flex_position =>
                           match dict_get (player_pool fr) flex_position with
                           | Some bucket => dict_union pl bucket
                           | None => pl
                           end) flexes (pool fr);
      best := best fr; player_pool := player_pool fr |}).
Proof.
  revert fr. induction flexes as [|f flexes IH]; intros fr; simpl.
  - destruct fr; reflexivity.
  - unfold bind at 1. unfold set_pool. unfold_monad.
    destruct (dict_get (player_pool fr) f) eqn:E; simpl.
    + unfold_monad. rewrite IH. reflexivity.
    + unfold_monad. rewrite IH. destruct fr; reflexivity.
Qed.

Lemma remove_inner_run pos names fr :
  In pos (dict_keys (player_pool fr)) ->
  for_ names (fun p =>
      fr <- get ;;
      bucket <- getitem (player_pool fr) pos ;;
      if dict_contains bucket p then
        bucket <- getitem (player_pool fr) pos ;;
        bucket' <- pop bucket p ;;
        set_player_pool (dict_set (player_pool fr) pos bucket')
      else ret tt) fr =
  (Returned tt,
   {| pool := pool fr; best := best fr;
      player_pool := fold_left (fun pp p => remove_player pos p pp) names (player_pool fr) |}).
Proof.
  revert fr. induction names as [|p names IH]; intros fr Hpos; simpl.
  - destruct fr; reflexivity.
  - unfold bind at 1. unfold set_player_pool. unfold_monad.
    destruct (proj1 (dict_get_keys _ _) Hpos) as [bucket Hb].
    unfold remove_player at 2. rewrite Hb. simpl.
    unfold dict_contains.
    destruct (dict_get bucket p) eqn:Ep; simpl.
    + unfold_monad. rewrite IH; [reflexivity|].
      simpl. rewrite dict_keys_set_present; assumption.
    + unfold_monad. rewrite IH; [|assumption]. destruct fr; reflexivity.
Qed.

Lemma remove_outer_run positions fr :
  incl positions (dict_keys (player_pool fr)) ->
  for_ positions (fun pos =>
    fr <- get ;;
    for_ (dict_keys (best fr)) (fun p =>
      fr <- get ;;
      bucket <- getitem (player_pool fr) pos ;;
      if dict_contains bucket p then
        bucket <- getitem (player_pool fr) pos ;;
        bucket' <- pop bucket p ;;
        set_player_pool (dict_set (player_pool fr) pos bucket')
      else ret tt)) fr =
  (Returned tt,
   {| pool := pool fr; best := best fr;
      player_pool :=
        fold_left (fun pp pos =>
                     fold_left (fun pp p => remove_player pos p pp) (dict_keys (best fr)) pp)
                  positions (player_pool fr) |}).
Proof.
  revert fr. induction positions as [|pos positions IH]; intros fr Hincl; simpl.
  - destruct fr; reflexivity.
  - unfold bind at 1. unfold bind at 1. unfold get at 1. cbv beta iota.
    rewrite remove_inner_run by (apply Hincl; now left).
    rewrite IH; [reflexivity|].
    simpl. rewrite remove_players_keys.
    intros x Hx. apply Hincl. now right.
Qed.

Lemma best_flex_run flexes num fr :
  best_flex flexes num fr =
  let chosen := flex_best flexes num (player_pool fr) in
  let pp := remove_best chosen (player_pool fr) in
  (Returned (chosen, pp),
   {| pool := dict_of_items (sorted_desc (flex_pool flexes (player_pool fr)));
      best := chosen; player_pool := pp |}).
Proof.
  unfold best_flex.
  unfold bind at 1. unfold set_pool at 1. unfold modify at 1.
  unfold bind at 1. rewrite pool_loop_run. simpl.
  unfold bind at 1. unfold get at 1.
  unfold bind at 1. unfold set_pool at 1. unfold modify at 1. simpl.
  unfold bind at 1. unfold get at 1.
  unfold bind at 1. unfold set_best at 1. unfold modify at 1. simpl.
  unfold bind at 1. unfold get at 1.
  unfold bind at 1. simpl player_pool.
  rewrite remove_outer_run by (simpl; apply incl_refl).
  simpl. reflexivity.
Qed.

Lemma fill_flex_run slot flex num fr :
  fill_flex slot flex num fr = (Returned tt, flex_step slot flex num fr).
Proof.
  unfold fill_flex, call_best_flex, flex_step, set_best_lineup, set_position_players.
  unfold bind at 1. rewrite best_flex_run. simpl.
  unfold_monad. simpl. reflexivity.
Qed.

Lemma fill_flexes_run starter_counts fr :
  fill_flexes starter_counts fr =
  (Returned tt,
   fold_left (fun fr position => flexes_step starter_counts position fr)
     (dict_keys starter_counts) fr).
Proof.
  unfold fill_flexes. apply for_run_total.
  intros position s Hin. unfold flexes_step.
  destruct (is_flex position); [|reflexivity].
  unfold bind, getitem. rewrite (count_of_key _ _ Hin). unfold ret.
  apply fill_flex_run.
Qed.

Lemma fill_named_run slot flex starter_counts fr :
  fill_named slot flex starter_counts fr =
  (Returned tt, named_step slot flex starter_counts fr).
Proof.
  unfold fill_named, named_step, dict_contains, count_of.
  destruct (dict_get starter_counts slot) eqn:E; [|reflexivity].
  unfold bind, getitem. rewrite E. unfold ret. apply fill_flex_run.
Qed.

Lemma allocate_run lineup starter_counts fr :
  allocate lineup starter_counts fr =
  (Returned tt, allocated lineup starter_counts fr).
Proof.
  unfold allocate, allocated.
  unfold bind at 1. rewrite collect_players_run.
  unfold bind at 1. rewrite fill_positions_run.
  unfold bind at 1. rewrite fill_flexes_run.
  unfold bind at 1. rewrite fill_named_run.
  apply fill_named_run.
Qed.

Lemma total_loop_run positions fr :
  incl positions (dict_keys (best_lineup fr)) ->
  for_ positions (fun position =>
    fr <- get ;;
    slot <- getitem (best_lineup fr) position ;;
    set_best_score (best_score fr + sum (dict_values slot))) fr =
  (Returned tt,
   {| best_lineup := best_lineup fr; position_players := position_players fr;
      score := score fr;
      best_score :=
        fold_left (fun acc position =>
                     match dict_get (best_lineup fr) position with
                     | Some slot => acc + sum (dict_values slot)
                     | None => acc
                     end) positions (best_score fr) |}).
Proof.
  revert fr. induction positions as [|position positions IH]; intros fr Hincl; simpl.
  - destruct fr; reflexivity.
  - unfold bind at 1. unfold bind at 1. unfold get at 1. cbv beta iota.
    destruct (proj1 (dict_get_keys _ _) (Hincl position (or_introl eq_refl)))
      as [slot Hslot].
    unfold bind at 1. unfold getitem at 1. rewrite Hslot.
    unfold ret at 1, set_best_score, modify. cbv beta iota.
    rewrite IH; [reflexivity|].
    simpl. intros x Hx. apply Hincl. now right.
Qed.

Lemma report_run_full fr :
  report fr =
  (score_report (lineup_total (best_lineup fr)) (score fr),
   {| best_lineup := best_lineup fr; position_players := position_players fr;
      score := score fr; best_score := lineup_total (best_lineup fr) |}).
Proof.
  unfold report.
  unfold bind at 1. unfold set_best_score at 1, modify at 1.
  unfold bind at 1. unfold get at 1.
  unfold bind at 1. cbv beta iota. simpl best_lineup.
  rewrite total_loop_run by (simpl; apply incl_refl).
  unfold bind at 1. unfold get at 1. simpl.
  unfold score_report, lineup_total, truediv, bind.
  destruct (_ =? 0); reflexivity.
Qed.

Lemma report_run fr :
  fst (report fr) = score_report (lineup_total (best_lineup fr)) (score fr) /\
  best_score (snd (report fr)) = lineup_total (best_lineup fr).
Proof. rewrite report_run_full. split; reflexivity. Qed.

Lemma score_position_steps starter_counts positions fr :
  score (fold_left (fun fr position => position_step starter_counts position fr)
           positions fr) = score fr.
Proof.
  revert fr. induction positions as [|p positions IH]; intros fr; simpl; [reflexivity|].
  rewrite IH. unfold position_step.
  destruct (dict_get (position_players fr) p); reflexivity.
Qed.

Lemma score_flexes_steps starter_counts positions fr :
  score (fold_left (fun fr position => flexes_step starter_counts position fr)
           positions fr) = score fr.
Proof.
  revert fr. induction positions as [|p positions IH]; intros fr; simpl; [reflexivity|].
  rewrite IH. unfold flexes_step. destruct (is_flex p); reflexivity.
Qed.

Lemma score_named_step slot flex starter_counts fr :
  score (named_step slot flex starter_counts fr) = score fr.
Proof.
  unfold named_step. destruct (dict_contains starter_counts slot); reflexivity.
Qed.

Lemma score_collect lineup fr :
  score (fold_left (fun fr player => collect_step player fr) lineup fr) =
  fold_left (fun acc player => if is_starter player then acc + points player else acc)
    lineup (score fr).
Proof.
  revert fr. induction lineup as [|p lineup IH]; intros fr; simpl; [reflexivity|].
  rewrite IH. reflexivity.
Qed.

Lemma score_allocated lineup starter_counts :
  score (allocated lineup starter_counts initial_locals) = actual_score lineup.
Proof.
  unfold allocated.
  rewrite !score_named_step, score_flexes_steps, score_position_steps, score_collect.
  reflexivity.
Qed.

Lemma optimal_lineup_allocated lineup starter_counts :
  optimal_lineup lineup starter_counts =
  best_lineup (allocated lineup starter_counts initial_locals).
Proof. unfold optimal_lineup. now rewrite allocate_run. Qed.

Lemma optimal_lineup_score_report lineup starter_counts :
  optimal_lineup_score lineup starter_counts =
  score_report (lineup_total (optimal_lineup lineup starter_counts))
               (actual_score lineup).
Proof.
  unfold optimal_lineup_score. unfold bind. rewrite allocate_run.
  rewrite (proj1 (report_run _)), score_allocated, optimal_lineup_allocated.
  reflexivity.
Qed.

Lemma computed_best_score_total lineup starter_counts :
  computed_best_score lineup starter_counts =
  lineup_total (optimal_lineup lineup starter_counts).
Proof.
  unfold computed_best_score. unfold bind. rewrite allocate_run.
  rewrite (proj2 (report_run _)), optimal_lineup_allocated. reflexivity.
Qed.

(** ** Names held by a dictionary of buckets *)

Lemma all_names_app {V} (l1 l2 : dict (dict V)) :
  all_names (l1 ++ l2) = all_names l1 ++ all_names l2.
Proof. unfold all_names. now rewrite map_app, concat_app. Qed.

Lemma count_all_names_set {V} (d : dict (dict V)) k b' x :
  (count_occ string_dec (all_names (dict_set d k b')) x +
   count_occ string_dec (dict_keys (bucket_of d k)) x =
   count_occ string_dec (all_names d) x +
   count_occ string_dec (dict_keys b') x)%nat.
Proof.
  unfold bucket_of. destruct (dict_get d k) as [b|] eqn:E.
  - destruct (dict_set_split d k b E) as (l1 & l2 & -> & _ & Hset).
    rewrite Hset, !all_names_app. unfold all_names. simpl.
    rewrite !count_occ_app. lia.
  - apply dict_get_none_keys in E. rewrite dict_set_absent by exact E.
    rewrite all_names_app. unfold all_names at 2. simpl.
    rewrite app_nil_r, count_occ_app. lia.
Qed.

Lemma count_bucket_le {V} (d : dict (dict V)) k x :
  (count_occ string_dec (dict_keys (bucket_of d k)) x <=
   count_occ string_dec (all_names d) x)%nat.
Proof.
  unfold bucket_of. destruct (dict_get d k) as [b|] eqn:E; [|simpl; lia].
  destruct (dict_set_split d k b E) as (l1 & l2 & -> & _ & _).
  rewrite all_names_app. unfold all_names at 2. simpl.
  rewrite !count_occ_app. lia.
Qed.

Lemma count_le_1_NoDup (l : list string) :
  (forall x, (count_occ string_dec l x <= 1)%nat) <-> NoDup l.
Proof. symmetry. apply NoDup_count_occ. Qed.

Lemma bucket_NoDup {V} (d : dict (dict V)) k :
  (forall x, (count_occ string_dec (all_names d) x <= 1)%nat) ->
  NoDup (dict_keys (bucket_of d k)).
Proof.
  intros H. apply count_le_1_NoDup. intros x.
  pose proof (count_bucket_le d k x). pose proof (H x). lia.
Qed.

Lemma names_once_pool_NoDup fr k :
  names_once fr -> NoDup (dict_keys (bucket_of (position_players fr) k)).
Proof.
  intros H. apply bucket_NoDup. intros x. pose proof (H x). lia.
Qed.

Lemma count_firstn_skipn (l : list string) n x :
  (count_occ string_dec (firstn n l) x + count_occ string_dec (skipn n l) x =
   count_occ string_dec l x)%nat.
Proof. now rewrite <- count_occ_app, firstn_skipn. Qed.

Lemma bucket_of_set {V} (d : dict (dict V)) k b q :
  bucket_of (dict_set d k b) q = if String.eqb k q then b else bucket_of d q.
Proof.
  unfold bucket_of. destruct (String.eqb_spec k q) as [->|Hne].
  - now rewrite dict_get_set_same.
  - now rewrite dict_get_set_other.
Qed.

(** ** One position, as the invariant sees it *)

Lemma position_step_buckets starter_counts k fr :
  names_once fr ->
  let ranked := sorted_desc (bucket_of (position_players fr) k) in
  let n := count_of starter_counts k in
  best_lineup (position_step starter_counts k fr) =
    dict_set (best_lineup fr) k (firstn n ranked) /\
  (forall q, bucket_of (position_players (position_step starter_counts k fr)) q =
             if String.eqb k q then skipn n ranked
             else bucket_of (position_players fr) q) /\
  dict_keys (position_players (position_step starter_counts k fr)) =
    dict_keys (position_players fr) /\
  score (position_step starter_counts k fr) = score fr.
Proof.
  intros Hnames. pose proof (names_once_pool_NoDup fr k Hnames) as Hb.
  unfold position_step, bucket_of in *.
  destruct (dict_get (position_players fr) k) as [b|] eqn:E; simpl.
  - assert (Hs : NoDup (dict_keys (sorted_desc b))) by now apply sorted_desc_NoDup.
    rewrite (dict_of_items_id (sorted_desc b)) by exact Hs.
    rewrite !dict_of_items_id
      by (rewrite ?dict_keys_firstn, ?dict_keys_skipn;
          auto using NoDup_firstn, NoDup_skipn).
    repeat split.
    + intros q. destruct (String.eqb_spec k q) as [->|Hne].
      * now rewrite dict_get_set_same.
      * now rewrite dict_get_set_other.
    + apply dict_keys_set_present. apply dict_get_keys. eauto.
  - rewrite firstn_nil. repeat split.
    intros q. destruct (String.eqb_spec k q) as [->|Hne].
    + rewrite E. now rewrite skipn_nil.
    + reflexivity.
Qed.

Lemma position_step_ok starter_counts k fr :
  frame_ok fr -> frame_ok (position_step starter_counts k fr).
Proof.
  intros (Hbl & Hpp & Hnames).
  destruct (position_step_buckets starter_counts k fr Hnames) as (Ebl & Epp & Ekeys & _).
  unfold frame_ok. rewrite Ebl, Ekeys.
  split; [now apply dict_set_NoDup|]. split; [exact Hpp|].
  intros x. unfold names_once in Hnames. rewrite Ebl.
  pose proof (count_all_names_set (best_lineup fr) k
                (firstn (count_of starter_counts k)
                   (sorted_desc (bucket_of (position_players fr) k))) x) as C1.
  assert (C2 : (count_occ string_dec
                  (all_names (position_players (position_step starter_counts k fr))) x +
                count_occ string_dec (dict_keys (bucket_of (position_players fr) k)) x =
                count_occ string_dec (all_names (position_players fr)) x +
                count_occ string_dec
                  (dict_keys (skipn (count_of starter_counts k)
                                (sorted_desc (bucket_of (position_players fr) k)))) x)%nat).
  { unfold position_step, bucket_of.
    destruct (dict_get (position_players fr) k) as [b|] eqn:E; simpl.
    - pose proof (names_once_pool_NoDup fr k Hnames) as Hb.
      unfold bucket_of in Hb. rewrite E in Hb.
      rewrite (dict_of_items_id (sorted_desc b)) by now apply sorted_desc_NoDup.
      rewrite dict_of_items_id
        by (rewrite dict_keys_skipn; apply NoDup_skipn; now apply sorted_desc_NoDup).
      pose proof (count_all_names_set (position_players fr) k
                    (skipn (count_of starter_counts k) (sorted_desc b)) x) as C.
      unfold bucket_of in C. rewrite E in C. exact C.
    - rewrite skipn_nil. simpl. lia. }
  pose proof (count_firstn_skipn
                (dict_keys (sorted_desc (bucket_of (position_players fr) k)))
                (count_of starter_counts k) x) as C3.
  rewrite <- dict_keys_firstn, <- dict_keys_skipn in C3.
  pose proof (proj1 (Permutation_count_occ string_dec _ _)
                (sorted_desc_keys_perm (bucket_of (position_players fr) k)) x) as C4.
  pose proof (Hnames x). lia.
Qed.

(** ** One flex slot, as the invariant sees it *)

Lemma mem_In x names : mem x names = true <-> In x names.
Proof.
  unfold mem. rewrite existsb_exists. split.
  - intros (y & Hy & E). apply String.eqb_eq in E. now subst.
  - intros H. exists x. split; [exact H | apply String.eqb_refl].
Qed.

Lemma mem_false x names : mem x names = false <-> ~ In x names.
Proof.
  rewrite <- mem_In. destruct (mem x names); split; congruence.
Qed.

Lemma dict_set_same {V} (d : dict V) k v : dict_get d k = Some v -> dict_set d k v = d.
Proof.
  induction d as [|[k0 v0] d IH]; simpl; [discriminate|].
  destruct (String.eqb_spec k0 k) as [->|Hne].
  - now intros [= ->].
  - intros H. now rewrite IH.
Qed.

Lemma flex_pool_fold_keys (pp : dict (dict Z)) flexes :
  forall acc x,
    In x (dict_keys (fold_left (fun pl flex_position =>
                                  match dict_get pp flex_position with
                                  | Some bucket => dict_union pl bucket
                                  | None => pl
                                  end) flexes acc)) <->
    In x (dict_keys acc) \/ exists q, In q flexes /\ In x (dict_keys (bucket_of pp q)).
Proof.
  induction flexes as [|f flexes IH]; intros acc x; simpl.
  - split; [tauto | intros [H|(q & [] & _)]; exact H].
  - rewrite IH. unfold bucket_of.
    destruct (dict_get pp f) as [b|] eqn:E.
    + rewrite dict_union_keys_in. split.
      * intros [[H|H]|(q & Hq & H)]; [tauto| |right; exists q; tauto].
        right. exists f. rewrite E. tauto.
      * intros [H|(q & [<-|Hq] & H)]; [tauto| |right; exists q; tauto].
        rewrite E in H. tauto.
    + split.
      * intros [H|(q & Hq & H)]; [tauto | right; exists q; tauto].
      * intros [H|(q & [<-|Hq] & H)]; [tauto| |right; exists q; tauto].
        rewrite E in H. destruct H.
Qed.

Lemma flex_pool_keys_in flexes pp x :
  In x (dict_keys (flex_pool flexes pp)) <->
  exists q, In q flexes /\ In x (dict_keys (bucket_of pp q)).
Proof.
  unfold flex_pool. rewrite flex_pool_fold_keys. simpl. tauto.
Qed.

Lemma flex_pool_NoDup flexes pp : NoDup (dict_keys (flex_pool flexes pp)).
Proof.
  unfold flex_pool.
  assert (H : forall acc : dict Z, NoDup (dict_keys acc) ->
            NoDup (dict_keys (fold_left (fun pl flex_position =>
                                           match dict_get pp flex_position with
                                           | Some bucket => dict_union pl bucket
                                           | None => pl
                                           end) flexes acc))).
  { induction flexes as [|f flexes IH]; intros acc Hacc; simpl; [exact Hacc|].
    apply IH. destruct (dict_get pp f); [now apply dict_union_NoDup | exact Hacc]. }
  apply H. constructor.
Qed.

Lemma flex_best_ranked flexes num pp :
  flex_best flexes num pp = firstn num (sorted_desc (flex_pool flexes pp)).
Proof.
  unfold flex_best.
  assert (Hs : NoDup (dict_keys (sorted_desc (flex_pool flexes pp))))
    by apply sorted_desc_NoDup, flex_pool_NoDup.
  rewrite (dict_of_items_id (sorted_desc _)) by exact Hs.
  apply dict_of_items_id. rewrite dict_keys_firstn. now apply NoDup_firstn.
Qed.

Lemma in_firstn_in {A} (l : list A) n x : In x (firstn n l) -> In x l.
Proof.
  intros H. rewrite <- (firstn_skipn n l). apply in_or_app. now left.
Qed.

Lemma flex_best_keys_in flexes num pp x :
  In x (dict_keys (flex_best flexes num pp)) ->
  exists q, In q flexes /\ In x (dict_keys (bucket_of pp q)).
Proof.
  rewrite flex_best_ranked, dict_keys_firstn. intros H.
  apply in_firstn_in in H.
  apply (Permutation_in _ (sorted_desc_keys_perm _)) in H.
  now apply flex_pool_keys_in.
Qed.

Lemma flex_best_NoDup flexes num pp : NoDup (dict_keys (flex_best flexes num pp)).
Proof.
  rewrite flex_best_ranked, dict_keys_firstn.
  apply NoDup_firstn, sorted_desc_NoDup, flex_pool_NoDup.
Qed.

Lemma dict_remove_filter {V} (b : dict V) p :
  NoDup (dict_keys b) ->
  (if dict_contains b p then dict_remove b p else b) = remove_names [p] b.
Proof.
  unfold dict_contains, remove_names, mem.
  induction b as [|[k v] b IH]; intros Hnd; simpl; [reflexivity|].
  inversion Hnd as [|? ? Hnin Hnd']; subst.
  rewrite (String.eqb_sym k p). destruct (String.eqb_spec p k) as [->|Hne]; simpl.
  - symmetry. apply forallb_filter_id.
    apply forallb_forall. intros [k' v'] Hin. simpl.
    destruct (String.eqb_spec k' k) as [->|]; [|reflexivity].
    exfalso. apply Hnin. change k with (fst (k, v')). now apply in_map.
  - specialize (IH Hnd'). simpl in IH. destruct (dict_get b p); rewrite <- IH.
    all: reflexivity.
Qed.

Lemma remove_names_NoDup {V} names (b : dict V) :
  NoDup (dict_keys b) -> NoDup (dict_keys (remove_names names b)).
Proof.
  unfold remove_names. induction b as [|[k v] b IH]; simpl; intros Hnd; [constructor|].
  inversion Hnd; subst. destruct (mem k names); simpl; auto.
  constructor; auto. intros Hin. apply H1.
  unfold dict_keys in *. apply in_map_iff in Hin. destruct Hin as (kv & E & Hin).
  apply filter_In in Hin. apply in_map_iff. exists kv. tauto.
Qed.

Lemma remove_names_cons {V} p names (b : dict V) :
  remove_names (p :: names) b = remove_names names (remove_names [p] b).
Proof.
  unfold remove_names, mem. induction b as [|[k v] b IH]; simpl in *; [reflexivity|].
  rewrite orb_false_r. destruct (String.eqb k p); simpl; [exact IH|].
  destruct (existsb (String.eqb k) names); simpl; now rewrite IH.
Qed.

Lemma remove_names_nil {V} (b : dict V) : remove_names [] b = b.
Proof.
  unfold remove_names, mem. induction b as [|kv b IH]; simpl in *; congruence.
Qed.

Lemma remove_bucket_fold names :
  forall b : dict Z,
    NoDup (dict_keys b) ->
    fold_left (fun b p => if dict_contains b p then dict_remove b p else b) names b =
    remove_names names b.
Proof.
  induction names as [|p names IH]; intros b Hb; simpl.
  - now rewrite remove_names_nil.
  - rewrite dict_remove_filter by exact Hb.
    rewrite IH by now apply remove_names_NoDup.
    now rewrite <- remove_names_cons.
Qed.

Lemma remove_players_fold pos names :
  forall pp b,
    dict_get pp pos = Some b ->
    fold_left (fun pp p => remove_player pos p pp) names pp =
    dict_set pp pos
      (fold_left (fun b p => if dict_contains b p then dict_remove b p else b) names b).
Proof.
  induction names as [|p names IH]; intros pp b Hb; simpl.
  - symmetry. now apply dict_set_same.
  - unfold remove_player at 2. rewrite Hb.
    destruct (dict_contains b p) eqn:Ec.
    + rewrite (IH _ (dict_remove b p)) by apply dict_get_set_same.
      now rewrite dict_set_set.
    + now apply IH.
Qed.

Lemma remove_best_fold (chosen : dict Z) l2 :
  forall l1 : dict (dict Z),
    NoDup (dict_keys (l1 ++ l2)) ->
    (forall k b, In (k, b) l2 -> NoDup (dict_keys b)) ->
    fold_left (fun pp pos =>
                 fold_left (fun pp p => remove_player pos p pp) (dict_keys chosen) pp)
              (dict_keys l2) (l1 ++ l2) =
    l1 ++ map (fun kb => (fst kb, remove_names (dict_keys chosen) (snd kb))) l2.
Proof.
  induction l2 as [|[k b] l2 IH]; intros l1 Hnd Hb; simpl; [reflexivity|].
  assert (Hk : ~ In k (dict_keys l1)).
  { unfold dict_keys in *. rewrite map_app in Hnd. simpl in Hnd.
    apply NoDup_remove_2 in Hnd. intros Hin. apply Hnd, in_or_app. now left. }
  assert (Hget : dict_get (l1 ++ (k, b) :: l2) k = Some b).
  { rewrite dict_get_app_absent by exact Hk. simpl. now rewrite String.eqb_refl. }
  rewrite (remove_players_fold k _ _ b Hget).
  rewrite remove_bucket_fold by (apply (Hb k b); now left).
  destruct (dict_set_split _ _ _ Hget) as (l1' & l2' & Esplit & Hk' & Hset).
  assert (El : l1' = l1 /\ l2' = l2).
  { clear - Esplit Hk Hk'. revert l1' Esplit Hk'.
    induction l1 as [|[k1 v1] l1 IHl]; intros [|[k1' v1'] l1']; simpl; intros E Hk'.
    - inversion E. auto.
    - inversion E; subst. exfalso. apply Hk'. now left.
    - inversion E; subst. exfalso. apply Hk. now left.
    - inversion E; subst. destruct (IHl (fun H => Hk (or_intror H)) l1' H2) as [-> ->].
      + intros H. apply Hk'. now right.
      + auto. }
  destruct El as [-> ->]. rewrite Hset.
  change (l1 ++ (k, remove_names (dict_keys chosen) b) :: l2)
    with (l1 ++ [(k, remove_names (dict_keys chosen) b)] ++ l2).
  rewrite app_assoc. rewrite IH.
  - now rewrite <- app_assoc.
  - rewrite <- app_assoc. simpl. unfold dict_keys in *.
    rewrite map_app in *. simpl in *. exact Hnd.
  - intros k' b' Hin. apply (Hb k' b'). now right.
Qed.

Lemma remove_best_map (chosen : dict Z) (pp : dict (dict Z)) :
  NoDup (dict_keys pp) ->
  (forall k b, In (k, b) pp -> NoDup (dict_keys b)) ->
  remove_best chosen pp =
  map (fun kb => (fst kb, remove_names (dict_keys chosen) (snd kb))) pp.
Proof.
  intros Hnd Hb. unfold remove_best.
  apply (remove_best_fold chosen pp [] Hnd Hb).
Qed.

Lemma dict_get_map_values {V W} (F : V -> W) (d : dict V) k :
  dict_get (map (fun kb => (fst kb, F (snd kb))) d) k = option_map F (dict_get d k).
Proof.
  induction d as [|[k0 v0] d IH]; simpl; [reflexivity|].
  destruct (String.eqb k0 k); [reflexivity | exact IH].
Qed.

Lemma dict_keys_map_values {V W} (F : V -> W) (d : dict V) :
  dict_keys (map (fun kb => (fst kb, F (snd kb))) d) = dict_keys d.
Proof.
  unfold dict_keys. rewrite map_map. reflexivity.
Qed.

Lemma remove_names_keys {V} names (b : dict V) :
  dict_keys (remove_names names b) = filter (fun x => negb (mem x names)) (dict_keys b).
Proof.
  unfold remove_names. induction b as [|[k v] b IH]; simpl; [reflexivity|].
  destruct (mem k names); simpl; now rewrite IH.
Qed.

Lemma all_names_remove names (d : dict (dict Z)) :
  all_names (map (fun kb => (fst kb, remove_names names (snd kb))) d) =
  filter (fun x => negb (mem x names)) (all_names d).
Proof.
  unfold all_names. induction d as [|[k b] d IH]; simpl; [reflexivity|].
  now rewrite filter_app, IH, remove_names_keys.
Qed.

Lemma count_occ_filter (f : string -> bool) l x :
  count_occ string_dec (filter f l) x =
  if f x then count_occ string_dec l x else 0%nat.
Proof.
  induction l as [|y l IH]; simpl; [now destruct (f x)|].
  destruct (string_dec y x) as [->|Hne].
  - destruct (f x) eqn:E; simpl; [|exact IH].
    destruct (string_dec x x); [|congruence]. now rewrite IH.
  - destruct (f y); simpl; [|exact IH].
    destruct (string_dec y x); [congruence | exact IH].
Qed.

Lemma frame_ok_buckets fr k b :
  frame_ok fr -> In (k, b) (position_players fr) -> NoDup (dict_keys b).
Proof.
  intros (_ & Hpp & Hnames) Hin.
  pose proof (names_once_pool_NoDup fr k Hnames) as H.
  unfold bucket_of in H. now rewrite (dict_In_get _ _ _ Hpp Hin) in H.
Qed.

Lemma flex_step_buckets slot flex num fr :
  frame_ok fr ->
  let chosen := firstn num (sorted_desc (flex_pool flex (position_players fr))) in
  best_lineup (flex_step slot flex num fr) = dict_set (best_lineup fr) slot chosen /\
  position_players (flex_step slot flex num fr) =
    map (fun kb => (fst kb, remove_names (dict_keys chosen) (snd kb)))
        (position_players fr) /\
  (forall q, bucket_of (position_players (flex_step slot flex num fr)) q =
             remove_names (dict_keys chosen) (bucket_of (position_players fr) q)) /\
  score (flex_step slot flex num fr) = score fr.
Proof.
  intros Hok. unfold flex_step. simpl. rewrite flex_best_ranked.
  rewrite remove_best_map.
  - repeat split. intros q. unfold bucket_of. rewrite dict_get_map_values.
    destruct (dict_get (position_players fr) q); reflexivity.
  - apply Hok.
  - intros k b. now apply frame_ok_buckets.
Qed.

Lemma flex_step_ok slot flex num fr :
  frame_ok fr -> frame_ok (flex_step slot flex num fr).
Proof.
  intros Hok.
  destruct (flex_step_buckets slot flex num fr Hok) as (Ebl & Epp & _ & _).
  destruct Hok as (Hbl & Hpp & Hnames).
  unfold frame_ok. rewrite Ebl, Epp.
  split; [now apply dict_set_NoDup|].
  split; [now rewrite dict_keys_map_values|].
  intros x. unfold names_once in *. rewrite Ebl, Epp.
  set (chosen := firstn num (sorted_desc (flex_pool flex (position_players fr)))).
  rewrite all_names_remove, count_occ_filter.
  pose proof (count_all_names_set (best_lineup fr) slot chosen x) as C1.
  pose proof (Hnames x) as C2.
  assert (Hnd : NoDup (dict_keys chosen)).
  { subst chosen. rewrite <- flex_best_ranked. apply flex_best_NoDup. }
  pose proof (proj2 (count_le_1_NoDup _) Hnd x) as C3.
  destruct (mem x (dict_keys chosen)) eqn:Em; simpl.
  - apply mem_In in Em.
    assert (Hin : In x (all_names (position_players fr))).
    { subst chosen. rewrite <- flex_best_ranked in Em.
      apply flex_best_keys_in in Em. destruct Em as (q & _ & Hq).
      apply (count_occ_In string_dec).
      pose proof (count_bucket_le (position_players fr) q x).
      apply (count_occ_In string_dec) in Hq. lia. }
    apply (count_occ_In string_dec) in Hin. lia.
  - apply mem_false in Em. apply (count_occ_not_In string_dec) in Em. lia.
Qed.

(** ** Collecting the players *)

Lemma sum_acc l : forall a, fold_left Z.add l a = a + sum l.
Proof.
  unfold sum. induction l as [|x l IH]; intros a; simpl; [lia|].
  rewrite IH, (IH x). lia.
Qed.

Lemma sum_cons x l : sum (x :: l) = x + sum l.
Proof. unfold sum. simpl. now rewrite sum_acc. Qed.

Lemma sum_app l1 l2 : sum (l1 ++ l2) = sum l1 + sum l2.
Proof.
  induction l1 as [|x l1 IH]; simpl; [reflexivity|].
  rewrite !sum_cons, IH. lia.
Qed.

Lemma sum_perm l1 l2 : Permutation l1 l2 -> sum l1 = sum l2.
Proof.
  induction 1; rewrite ?sum_cons in *; lia.
Qed.

Lemma add_player_buckets pp player :
  ~ In (name player) (all_names pp) ->
  (forall q, bucket_of (add_player pp player) q =
             if String.eqb (position player) q
             then bucket_of pp q ++ [player_item player]
             else bucket_of pp q) /\
  (forall x, count_occ string_dec (all_names (add_player pp player)) x =
             (count_occ string_dec (all_names pp) x +
              count_occ string_dec [name player] x)%nat).
Proof.
  intros Hfresh.
  assert (Hb : ~ In (name player) (dict_keys (bucket_of pp (position player)))).
  { intros Hin. apply Hfresh. apply (count_occ_In string_dec).
    apply (count_occ_In string_dec) in Hin.
    pose proof (count_bucket_le pp (position player) (name player)). lia. }
  assert (E : add_player pp player =
              dict_set pp (position player)
                (bucket_of pp (position player) ++ [player_item player])).
  { unfold add_player, bucket_of in *.
    destruct (dict_get pp (position player)); [|reflexivity].
    rewrite (dict_set_absent d) by exact Hb. reflexivity. }
  rewrite E. split.
  - intros q. rewrite bucket_of_set.
    destruct (String.eqb_spec (position player) q) as [->|]; reflexivity.
  - intros x.
    pose proof (count_all_names_set pp (position player)
                  (bucket_of pp (position player) ++ [player_item player]) x) as C.
    unfold dict_keys in C at 2. rewrite map_app, count_occ_app in C.
    simpl in *. unfold dict_keys in *. lia.
Qed.

Lemma add_player_keys_NoDup pp player :
  NoDup (dict_keys pp) -> NoDup (dict_keys (add_player pp player)).
Proof.
  intros H. unfold add_player.
  destruct (dict_get pp (position player)); now apply dict_set_NoDup.
Qed.

Lemma collect_buckets lineup :
  forall pp,
    (forall x, (count_occ string_dec (all_names pp) x +
                count_occ string_dec (map name lineup) x <= 1)%nat) ->
    (forall q, bucket_of (fold_left add_player lineup pp) q =
               bucket_of pp q ++ position_items q lineup) /\
    (forall x, count_occ string_dec (all_names (fold_left add_player lineup pp)) x =
               (count_occ string_dec (all_names pp) x +
                count_occ string_dec (map name lineup) x)%nat).
Proof.
  unfold position_items.
  induction lineup as [|player lineup IH]; intros pp H; simpl.
  - split; intros; [now rewrite app_nil_r | lia].
  - assert (Hfresh : ~ In (name player) (all_names pp)).
    { intros Hin. apply (count_occ_In string_dec) in Hin.
      specialize (H (name player)). simpl in H.
      destruct (string_dec (name player) (name player)); [lia | congruence]. }
    destruct (add_player_buckets pp player Hfresh) as [Hb Hc].
    destruct (IH (add_player pp player)) as [IHb IHc].
    { intros x. rewrite Hc. specialize (H x). simpl in *.
      destruct (string_dec (name player) x); lia. }
    split.
    + intros q. rewrite IHb, Hb.
      destruct (String.eqb (position player) q); simpl; [|reflexivity].
      now rewrite <- app_assoc.
    + intros x. rewrite IHc, Hc. simpl.
      destruct (string_dec (name player) x); lia.
Qed.

Lemma collect_frame lineup :
  forall fr,
    best_lineup (fold_left (fun fr player => collect_step player fr) lineup fr) =
      best_lineup fr /\
    position_players (fold_left (fun fr player => collect_step player fr) lineup fr) =
      fold_left add_player lineup (position_players fr).
Proof.
  induction lineup as [|player lineup IH]; intros fr; simpl; [auto|].
  destruct (IH (collect_step player fr)) as [-> ->]. auto.
Qed.

Lemma fold_add_player_keys_NoDup lineup :
  forall pp, NoDup (dict_keys pp) -> NoDup (dict_keys (fold_left add_player lineup pp)).
Proof.
  induction lineup as [|player lineup IH]; intros pp H; simpl; [exact H|].
  apply IH. now apply add_player_keys_NoDup.
Qed.

Lemma collected_ok lineup :
  NoDup (map name lineup) ->
  let fr := fold_left (fun fr player => collect_step player fr) lineup initial_locals in
  frame_ok fr /\
  best_lineup fr = [] /\
  forall q, bucket_of (position_players fr) q = position_items q lineup.
Proof.
  intros Hnd. simpl.
  destruct (collect_frame lineup initial_locals) as [Ebl Epp].
  destruct (collect_buckets lineup []) as [Hb Hc].
  { intros x. simpl. now apply count_le_1_NoDup. }
  unfold frame_ok, names_once. rewrite Ebl, Epp. simpl. repeat split.
  - constructor.
  - apply fold_add_player_keys_NoDup. constructor.
  - intros x. rewrite Hc. simpl. now apply count_le_1_NoDup.
  - intros q. now rewrite Hb.
Qed.

Lemma position_steps_ok starter_counts positions :
  forall fr, frame_ok fr ->
    frame_ok (fold_left (fun fr position => position_step starter_counts position fr)
                positions fr).
Proof.
  induction positions as [|k positions IH]; intros fr H; simpl; [exact H|].
  apply IH. now apply position_step_ok.
Qed.

Lemma flexes_steps_ok starter_counts positions :
  forall fr, frame_ok fr ->
    frame_ok (fold_left (fun fr position => flexes_step starter_counts position fr)
                positions fr).
Proof.
  induction positions as [|k positions IH]; intros fr H; simpl; [exact H|].
  apply IH. unfold flexes_step. destruct (is_flex k); [|exact H].
  now apply flex_step_ok.
Qed.

Lemma named_step_ok slot flex starter_counts fr :
  frame_ok fr -> frame_ok (named_step slot flex starter_counts fr).
Proof.
  intros H. unfold named_step.
  destruct (dict_contains starter_counts slot); [|exact H].
  now apply flex_step_ok.
Qed.

Lemma allocated_ok lineup starter_counts :
  NoDup (map name lineup) ->
  frame_ok (allocated lineup starter_counts initial_locals).
Proof.
  intros Hnd. unfold allocated.
  apply named_step_ok, named_step_ok, flexes_steps_ok, position_steps_ok.
  now apply collected_ok.
Qed.

(** ** The total of a lineup *)

Lemma assigned_app (l1 l2 : dict (dict Z)) : assigned (l1 ++ l2) = assigned l1 ++ assigned l2.
Proof. unfold assigned. now rewrite map_app, concat_app. Qed.

Lemma all_names_assigned (d : dict (dict Z)) : all_names d = map fst (assigned d).
Proof.
  unfold all_names, assigned. rewrite concat_map, map_map. reflexivity.
Qed.

Lemma lineup_total_fold (l2 : dict (dict Z)) :
  forall l1 a,
    NoDup (dict_keys (l1 ++ l2)) ->
    fold_left (fun acc position =>
                 match dict_get (l1 ++ l2) position with
                 | Some slot => acc + sum (dict_values slot)
                 | None => acc
                 end) (dict_keys l2) a =
    a + sum (map snd (assigned l2)).
Proof.
  induction l2 as [|[k b] l2 IH]; intros l1 a Hnd; simpl.
  - unfold sum. simpl. lia.
  - assert (Hk : ~ In k (dict_keys l1)).
    { unfold dict_keys in *. rewrite map_app in Hnd. simpl in Hnd.
      apply NoDup_remove_2 in Hnd. intros Hin. apply Hnd, in_or_app. now left. }
    rewrite (dict_get_app_absent l1 _ k Hk). simpl. rewrite String.eqb_refl.
    change (l1 ++ (k, b) :: l2) with (l1 ++ [(k, b)] ++ l2) in *.
    rewrite app_assoc in *. rewrite IH by exact Hnd.
    unfold assigned. simpl. rewrite map_app, sum_app. unfold dict_values. lia.
Qed.

Lemma lineup_total_assigned (bl : dict (dict Z)) :
  NoDup (dict_keys bl) -> lineup_total bl = sum (map snd (assigned bl)).
Proof.
  intros H. unfold lineup_total.
  pose proof (lineup_total_fold bl [] 0 H) as E. simpl in E. rewrite E. lia.
Qed.

Lemma lineup_total_buckets (bl : dict (dict Z)) :
  lineup_total bl =
  sum (map (fun k => sum (dict_values (bucket_of bl k))) (dict_keys bl)).
Proof.
  unfold lineup_total. generalize (dict_keys bl) as ks. intros ks.
  assert (H : forall a,
             fold_left (fun acc position =>
                          match dict_get bl position with
                          | Some slot => acc + sum (dict_values slot)
                          | None => acc
                          end) ks a =
             a + sum (map (fun k => sum (dict_values (bucket_of bl k))) ks)).
  { induction ks as [|k ks IH]; intros a; simpl.
    - unfold sum. simpl. lia.
    - rewrite IH, sum_cons. unfold bucket_of.
      destruct (dict_get bl k); [lia|]. change (sum (dict_values [])) with 0. lia. }
  rewrite H. lia.
Qed.

(** ** Where the assigned players come from *)

Lemma dict_set_items_in {V} (d : dict V) k v kv :
  In kv (dict_set d k v) -> kv = (k, v) \/ In kv d.
Proof.
  induction d as [|[k0 v0] d IH]; simpl.
  - intros [<-|[]]. now left.
  - destruct (String.eqb_spec k0 k) as [->|Hne]; simpl.
    + intros [<-|H]; auto.
    + intros [<-|H]; auto. destruct (IH H); auto.
Qed.

Lemma fold_set_items_in {V} (items : list (string * V)) :
  forall (acc : dict V) kv,
    In kv (fold_left (fun d kv => dict_set d (fst kv) (snd kv)) items acc) ->
    In kv acc \/ In kv items.
Proof.
  induction items as [|[k v] items IH]; intros acc kv H; simpl in *; [auto|].
  destruct (IH _ _ H) as [H1|H1]; [|auto].
  destruct (dict_set_items_in _ _ _ _ H1) as [->|H2]; auto.
Qed.

Lemma flex_pool_items_in flexes (pp : dict (dict Z)) kv :
  In kv (flex_pool flexes pp) ->
  exists q, In q flexes /\ In kv (bucket_of pp q).
Proof.
  unfold flex_pool.
  assert (H : forall acc,
             In kv (fold_left (fun pl flex_position =>
                                 match dict_get pp flex_position with
                                 | Some bucket => dict_union pl bucket
                                 | None => pl
                                 end) flexes acc) ->
             In kv acc \/ exists q, In q flexes /\ In kv (bucket_of pp q)).
  { induction flexes as [|f flexes IH]; intros acc Hin; simpl in *; [auto|].
    destruct (IH _ Hin) as [H1|(q & Hq & H1)]; [|right; exists q; auto].
    destruct (dict_get pp f) as [b|] eqn:E; [|auto].
    destruct (fold_set_items_in _ _ _ H1) as [H2|H2]; [auto|].
    right. exists f. split; [now left|]. unfold bucket_of. now rewrite E. }
  intros Hin. destruct (H [] Hin) as [[]|H1]. exact H1.
Qed.

Lemma position_step_items src starter_counts k fr :
  frame_ok fr -> items_from src fr -> items_from src (position_step starter_counts k fr).
Proof.
  intros (_ & _ & Hnames) Hsrc q kv.
  destruct (position_step_buckets starter_counts k fr Hnames) as (Ebl & Epp & _).
  rewrite Ebl, Epp, bucket_of_set.
  assert (Hranked : forall x, In x (sorted_desc (bucket_of (position_players fr) k)) ->
                              In x src).
  { intros x Hx. apply (Hsrc k). right.
    exact (Permutation_in _ (sorted_desc_perm _) Hx). }
  destruct (String.eqb k q).
  - intros [H|H]; apply Hranked.
    + now apply in_firstn_in in H.
    + rewrite <- (firstn_skipn (count_of starter_counts k)). apply in_or_app. now right.
  - apply Hsrc.
Qed.

Lemma flex_step_items src slot flex num fr :
  frame_ok fr -> items_from src fr -> items_from src (flex_step slot flex num fr).
Proof.
  intros Hok Hsrc q kv.
  destruct (flex_step_buckets slot flex num fr Hok) as (Ebl & _ & Epp & _).
  rewrite Ebl, Epp, bucket_of_set.
  intros [H|H].
  - destruct (String.eqb slot q); [|apply (Hsrc q); now left].
    apply in_firstn_in in H.
    apply (Permutation_in _ (sorted_desc_perm _)) in H.
    apply flex_pool_items_in in H. destruct H as (q' & _ & H).
    apply (Hsrc q'). now right.
  - unfold remove_names in H. apply filter_In in H. apply (Hsrc q). tauto.
Qed.

Lemma allocated_items lineup starter_counts :
  NoDup (map name lineup) ->
  items_from (map player_item lineup) (allocated lineup starter_counts initial_locals).
Proof.
  intros Hnd. unfold allocated.
  destruct (collected_ok lineup Hnd) as (H0 & Ebl & Epp).
  set (fr1 := fold_left (fun fr player => collect_step player fr) lineup initial_locals) in *.
  assert (I0 : items_from (map player_item lineup) fr1).
  { intros q kv. rewrite Ebl, Epp. unfold bucket_of at 1. simpl.
    intros [[]|H]. unfold position_items in H.
    apply in_map_iff in H. destruct H as (pl & <- & H).
    apply filter_In in H. apply in_map. tauto. }
  assert (I1 : forall positions fr,
             frame_ok fr -> items_from (map player_item lineup) fr ->
             let fr' := fold_left (fun fr position =>
                                     position_step starter_counts position fr)
                          positions fr in
             frame_ok fr' /\ items_from (map player_item lineup) fr').
  { induction positions as [|k positions IH]; intros fr Hok Hit; simpl; [auto|].
    apply IH; [now apply position_step_ok | now apply position_step_items]. }
  assert (I2 : forall positions fr,
             frame_ok fr -> items_from (map player_item lineup) fr ->
             let fr' := fold_left (fun fr position =>
                                     flexes_step starter_counts position fr)
                          positions fr in
             frame_ok fr' /\ items_from (map player_item lineup) fr').
  { induction positions as [|k positions IH]; intros fr Hok Hit; simpl; [auto|].
    apply IH; unfold flexes_step; destruct (is_flex k); auto.
    - now apply flex_step_ok.
    - now apply flex_step_items. }
  assert (I3 : forall slot flex fr,
             frame_ok fr -> items_from (map player_item lineup) fr ->
             frame_ok (named_step slot flex starter_counts fr) /\
             items_from (map player_item lineup) (named_step slot flex starter_counts fr)).
  { intros slot flex fr Hok Hit. unfold named_step.
    destruct (dict_contains starter_counts slot); [|auto].
    split; [now apply flex_step_ok | now apply flex_step_items]. }
  destruct (I1 (dict_keys starter_counts) fr1 H0 I0) as [H1 J1].
  destruct (I2 (dict_keys starter_counts) _ H1 J1) as [H2 J2].
  destruct (I3 "OP" OP_flex _ H2 J2) as [H3 J3].
  apply (I3 "DP" DP_flex _ H3 J3).
Qed.

(** ** The positions of the configuration, all at once *)

Lemma mem_cons x k ks : mem x (k :: ks) = String.eqb x k || mem x ks.
Proof. reflexivity. Qed.

Lemma position_steps_buckets starter_counts ks :
  NoDup ks ->
  forall fr, frame_ok fr ->
    let fr' := fold_left (fun fr position => position_step starter_counts position fr)
                 ks fr in
    (forall q, bucket_of (position_players fr') q =
               if mem q ks
               then skipn (count_of starter_counts q)
                      (sorted_desc (bucket_of (position_players fr) q))
               else bucket_of (position_players fr) q) /\
    (forall q, dict_get (best_lineup fr') q =
               if mem q ks
               then Some (firstn (count_of starter_counts q)
                            (sorted_desc (bucket_of (position_players fr) q)))
               else dict_get (best_lineup fr) q).
Proof.
  induction ks as [|k ks IH]; intros Hnd fr Hok; [simpl; auto|].
  cbn [fold_left]. cbv zeta.
  inversion Hnd as [|? ? Hk Hnd']; subst.
  destruct (position_step_buckets starter_counts k fr (proj2 (proj2 Hok)))
    as (Ebl & Epp & _).
  destruct (IH Hnd' _ (position_step_ok starter_counts k fr Hok)) as [IHpp IHbl].
  apply mem_false in Hk.
  split; intros q; rewrite ?IHpp, ?IHbl, ?Epp, ?Ebl, mem_cons, (String.eqb_sym q k);
    destruct (String.eqb_spec k q) as [<-|Hne]; simpl.
  - now rewrite Hk.
  - reflexivity.
  - rewrite Hk. apply dict_get_set_same.
  - destruct (mem q ks); [reflexivity|]. now apply dict_get_set_other.
Qed.

Lemma flexes_steps_lineup_other starter_counts slot ks :
  is_flex slot = false ->
  forall fr,
    dict_get (best_lineup (fold_left (fun fr position =>
                                        flexes_step starter_counts position fr) ks fr))
             slot = dict_get (best_lineup fr) slot.
Proof.
  intros Hslot. induction ks as [|k ks IH]; intros fr; simpl; [reflexivity|].
  rewrite IH. unfold flexes_step. destruct (is_flex k) eqn:E; [|reflexivity].
  simpl. apply dict_get_set_other. congruence.
Qed.

Lemma named_step_lineup_other starter_counts name flex slot fr :
  slot <> name ->
  dict_get (best_lineup (named_step name flex starter_counts fr)) slot =
  dict_get (best_lineup fr) slot.
Proof.
  intros Hne. unfold named_step.
  destruct (dict_contains starter_counts name); [|reflexivity].
  simpl. apply dict_get_set_other. congruence.
Qed.

Lemma optimal_lineup_position lineup starter_counts slot :
  NoDup (map name lineup) ->
  NoDup (dict_keys starter_counts) ->
  In slot (dict_keys starter_counts) ->
  is_flex slot = false -> slot <> "OP" -> slot <> "DP" ->
  dict_get (best_lineup (allocated lineup starter_counts initial_locals)) slot =
  Some (firstn (count_of starter_counts slot)
          (sorted_desc (position_items slot lineup))).
Proof.
  intros Hnd Hsc Hin Hflex HOP HDP. unfold allocated.
  rewrite !named_step_lineup_other by assumption.
  rewrite flexes_steps_lineup_other by assumption.
  destruct (collected_ok lineup Hnd) as (H0 & _ & Epp).
  destruct (position_steps_buckets starter_counts _ Hsc _ H0) as [_ Hbl].
  rewrite Hbl, Epp. apply mem_In in Hin. now rewrite Hin.
Qed.

(** ** Sorted points *)

Lemma values_insert_desc x l :
  dict_values (insert_desc x l) = insert_points (snd x) (dict_values l).
Proof.
  unfold dict_values. induction l as [|y l IH]; simpl; [reflexivity|].
  destruct (snd y <=? snd x); simpl; [reflexivity | now rewrite IH].
Qed.

Lemma values_sorted_desc l :
  dict_values (sorted_desc l) = sorted_points (dict_values l).
Proof.
  induction l as [|x l IH]; simpl; [reflexivity|].
  now rewrite values_insert_desc, IH.
Qed.

Lemma dict_values_firstn (d : dict Z) n : dict_values (firstn n d) = firstn n (dict_values d).
Proof. unfold dict_values. now rewrite firstn_map. Qed.

Lemma dict_values_skipn (d : dict Z) n : dict_values (skipn n d) = skipn n (dict_values d).
Proof. unfold dict_values. now rewrite skipn_map. Qed.

Lemma insert_points_perm x l : Permutation (insert_points x l) (x :: l).
Proof.
  induction l as [|y l IH]; simpl; [reflexivity|].
  destruct (y <=? x); [reflexivity|]. rewrite IH. apply perm_swap.
Qed.

Lemma sorted_points_perm l : Permutation (sorted_points l) l.
Proof.
  induction l as [|x l IH]; simpl; [reflexivity|].
  rewrite insert_points_perm. now constructor.
Qed.

Lemma insert_points_descending x l :
  descending l -> descending (insert_points x l).
Proof.
  induction l as [|y l IH]; simpl.
  - intros _. split; [constructor | exact I].
  - intros [Hy Hl]. destruct (Z.leb_spec y x); simpl.
    + repeat split; auto. constructor; [exact H|].
      eapply Forall_impl; [|exact Hy]. simpl. intros. lia.
    + split; [|auto].
      apply (Permutation_Forall (Permutation_sym (insert_points_perm x l))).
      constructor; [lia | exact Hy].
Qed.

Lemma sorted_points_descending l : descending (sorted_points l).
Proof.
  induction l as [|x l IH]; simpl; [exact I|].
  now apply insert_points_descending.
Qed.

Lemma descending_unique a :
  forall b, descending a -> descending b -> Permutation a b -> a = b.
Proof.
  induction a as [|x a IH]; intros b Ha Hb Hperm.
  - apply Permutation_nil in Hperm. now subst.
  - destruct b as [|y b].
    + apply Permutation_sym, Permutation_nil in Hperm. discriminate.
    + destruct Ha as [Hx Ha], Hb as [Hy Hb].
      assert (x = y).
      { assert (Hin1 : In x (y :: b)) by (apply (Permutation_in _ Hperm); now left).
        assert (Hin2 : In y (x :: a))
          by (apply (Permutation_in _ (Permutation_sym Hperm)); now left).
        rewrite Forall_forall in Hx, Hy.
        destruct Hin1 as [->|Hin1]; [reflexivity|].
        destruct Hin2 as [->|Hin2]; [reflexivity|].
        specialize (Hx _ Hin2). specialize (Hy _ Hin1). lia. }
      subst y. f_equal. apply IH; auto.
      now apply Permutation_cons_inv in Hperm.
Qed.

Lemma sorted_points_of_perm l l' :
  Permutation l l' -> sorted_points l = sorted_points l'.
Proof.
  intros H. apply descending_unique; auto using sorted_points_descending.
  rewrite !sorted_points_perm. exact H.
Qed.

(** ** Items below a prefix *)

Lemma insert_points_head b p :
  exists h t, insert_points b p = h :: t /\ b <= h.
Proof.
  destruct p as [|y p]; simpl.
  - exists b, []. split; [reflexivity | lia].
  - destruct (Z.leb_spec y b).
    + exists b, (y :: p). split; [reflexivity | lia].
    + exists y, (insert_points b p). split; [reflexivity | lia].
Qed.

Lemma prefix_le_insert_right u p :
  prefix_le u p ->
  forall x b, x <= b -> descending (x :: u) ->
    prefix_le (x :: u) (insert_points b p).
Proof.
  induction 1 as [p|x2 y2 u p Hxy Hple IH]; intros x b Hxb Hu.
  - destruct (insert_points_head b p) as (h & t & -> & Hh).
    constructor; [lia | constructor].
  - destruct Hu as [Hx Hu]. inversion Hx; subst.
    simpl. destruct (Z.leb_spec y2 b).
    + constructor; [exact Hxb|]. now constructor.
    + constructor; [lia|]. apply IH; [lia | exact Hu].
Qed.

Lemma prefix_le_insert_left u p :
  prefix_le u p ->
  forall a y, a <= y -> descending (y :: p) ->
    prefix_le (insert_points a u) (y :: p).
Proof.
  induction 1 as [p|x2 y2 u p Hxy Hple IH]; intros a y Hay Hp; simpl.
  - constructor; [exact Hay | constructor].
  - destruct Hp as [Hy Hp]. inversion Hy; subst.
    destruct (Z.leb_spec x2 a).
    + constructor; [exact Hay|]. now constructor.
    + constructor; [lia|]. apply IH; [lia | exact Hp].
Qed.

Lemma prefix_le_insert u p :
  prefix_le u p ->
  forall a b, a <= b -> descending u -> descending p ->
    prefix_le (insert_points a u) (insert_points b p).
Proof.
  induction 1 as [p|x y u p Hxy Hple IH]; intros a b Hab Hu Hp.
  - simpl. destruct (insert_points_head b p) as (h & t & -> & Hh).
    constructor; [lia | constructor].
  - simpl. destruct (Z.leb_spec x a), (Z.leb_spec y b).
    + constructor; [exact Hab|]. now constructor.
    + constructor; [lia|].
      apply prefix_le_insert_right; [exact Hple | lia | exact Hu].
    + constructor; [lia|].
      apply prefix_le_insert_left; [exact Hple | lia | exact Hp].
    + constructor; [exact Hxy|]. apply IH; [exact Hab | apply Hu | apply Hp].
Qed.

Lemma prefix_le_sorted u p1 :
  Forall2 Z.le u p1 ->
  forall p2, prefix_le (sorted_points u) (sorted_points (p1 ++ p2)).
Proof.
  induction 1 as [|x y u p1 Hxy H IH]; intros p2; simpl.
  - constructor.
  - apply prefix_le_insert; auto using sorted_points_descending.
Qed.

Lemma prefix_le_length u p : prefix_le u p -> (List.length u <= List.length p)%nat.
Proof. induction 1; simpl; lia. Qed.

Lemma prefix_le_Forall2 u p :
  prefix_le u p -> List.length u = List.length p -> Forall2 Z.le u p.
Proof.
  induction 1 as [p|x y u p Hxy H IH]; simpl; intros Hlen.
  - destruct p; [constructor | discriminate].
  - constructor; [exact Hxy | apply IH; lia].
Qed.

Lemma Forall2_prefix_le u p : Forall2 Z.le u p -> prefix_le u p.
Proof. induction 1; constructor; auto. Qed.

Lemma prefix_le_skipn u p n : prefix_le u p -> prefix_le (skipn n u) (skipn n p).
Proof.
  intros H. revert n. induction H as [p|x y u p Hxy H IH]; intros n.
  - rewrite skipn_nil. constructor.
  - destruct n; simpl; [now constructor | apply IH].
Qed.

Lemma prefix_le_split u p :
  prefix_le u p -> exists p1 p2, p = p1 ++ p2 /\ Forall2 Z.le u p1.
Proof.
  induction 1 as [p|x y u p Hxy H (p1 & p2 & -> & IH)].
  - exists [], p. split; [reflexivity | constructor].
  - exists (y :: p1), p2. split; [reflexivity | now constructor].
Qed.

Lemma sum_nonneg l : Forall (fun y => 0 <= y) l -> 0 <= sum l.
Proof.
  induction 1 as [|x l Hx H IH]; [unfold sum; simpl; lia|].
  rewrite sum_cons. lia.
Qed.

Lemma Forall_firstn {A} (P : A -> Prop) l n : Forall P l -> Forall P (firstn n l).
Proof.
  intros H. rewrite <- (firstn_skipn n l) in H. now apply Forall_app in H.
Qed.

Lemma Forall_skipn {A} (P : A -> Prop) l n : Forall P l -> Forall P (skipn n l).
Proof.
  intros H. rewrite <- (firstn_skipn n l) in H. now apply Forall_app in H.
Qed.

Lemma prefix_le_sum_firstn u p n :
  prefix_le u p -> Forall (fun y => 0 <= y) p ->
  sum (firstn n u) <= sum (firstn n p).
Proof.
  intros H. revert n. induction H as [p|x y u p Hxy H IH]; intros n Hp.
  - rewrite firstn_nil. apply sum_nonneg. now apply Forall_firstn.
  - inversion Hp; subst. destruct n; simpl; [lia|].
    rewrite !sum_cons. specialize (IH n H3). lia.
Qed.

Lemma Forall2_sum_firstn u p n :
  Forall2 Z.le u p -> sum (firstn n u) <= sum (firstn n p).
Proof.
  intros H. revert n. induction H as [|x y u p Hxy H IH]; intros n.
  - rewrite firstn_nil. lia.
  - destruct n; simpl; [lia|]. rewrite !sum_cons. specialize (IH n). lia.
Qed.

Lemma Forall2_skipn {A B} (R : A -> B -> Prop) u p n :
  Forall2 R u p -> Forall2 R (skipn n u) (skipn n p).
Proof.
  intros H. revert n. induction H; intros n; destruct n; simpl; auto.
Qed.

(** ** The two orders on rosters *)

Lemma dominated_sorted u p :
  dominated u p -> Forall2 Z.le (sorted_points u) (sorted_points p).
Proof.
  intros (p' & Hperm & H).
  rewrite (sorted_points_of_perm p p' Hperm).
  apply prefix_le_Forall2.
  - pose proof (prefix_le_sorted u p' H []) as Hp. now rewrite app_nil_r in Hp.
  - rewrite !(Permutation_length (sorted_points_perm _)).
    eapply Forall2_length; eassumption.
Qed.

Lemma dominated_nil : dominated [] [].
Proof. exists []. split; constructor. Qed.

Lemma dominated_app u p u' p' :
  dominated u p -> dominated u' p' -> dominated (u ++ u') (p ++ p').
Proof.
  intros (q & Hq & H) (q' & Hq' & H'). exists (q ++ q').
  split; [now apply Permutation_app | now apply Forall2_app].
Qed.

Lemma dominated_top u p n :
  dominated u p ->
  sum (firstn n (sorted_points u)) <= sum (firstn n (sorted_points p)).
Proof. intros H. now apply Forall2_sum_firstn, dominated_sorted. Qed.

Lemma dominated_rest u p n :
  dominated u p ->
  dominated (skipn n (sorted_points u)) (skipn n (sorted_points p)).
Proof.
  intros H. exists (skipn n (sorted_points p)).
  split; [reflexivity | now apply Forall2_skipn, dominated_sorted].
Qed.

Lemma covered_sorted u p :
  covered u p -> prefix_le (sorted_points u) (sorted_points p).
Proof.
  intros (_ & p1 & p2 & Hperm & H).
  rewrite (sorted_points_of_perm p _ Hperm). now apply prefix_le_sorted.
Qed.

Lemma covered_nonneg_sorted p :
  Forall (fun y => 0 <= y) p -> Forall (fun y => 0 <= y) (sorted_points p).
Proof.
  apply Permutation_Forall, Permutation_sym, sorted_points_perm.
Qed.

Lemma covered_nil : covered [] [].
Proof.
  split; [constructor|]. exists [], []. split; constructor.
Qed.

Lemma covered_app u p u' p' :
  covered u p -> covered u' p' -> covered (u ++ u') (p ++ p').
Proof.
  intros (Hp & p1 & p2 & Hperm & H) (Hp' & p1' & p2' & Hperm' & H').
  split; [apply Forall_app; auto|].
  exists (p1 ++ p1'), (p2 ++ p2'). split; [|now apply Forall2_app].
  rewrite Hperm, Hperm'. rewrite <- !app_assoc. apply Permutation_app_head.
  rewrite !app_assoc. apply Permutation_app_tail, Permutation_app_comm.
Qed.

Lemma covered_top u p n :
  covered u p ->
  sum (firstn n (sorted_points u)) <= sum (firstn n (sorted_points p)).
Proof.
  intros H. apply prefix_le_sum_firstn; [now apply covered_sorted|].
  apply covered_nonneg_sorted, H.
Qed.

Lemma covered_rest u p n :
  covered u p ->
  covered (skipn n (sorted_points u)) (skipn n (sorted_points p)).
Proof.
  intros H. split.
  - apply Forall_skipn, covered_nonneg_sorted, H.
  - destruct (prefix_le_split _ _ (prefix_le_skipn _ _ n (covered_sorted u p H)))
      as (p1 & p2 & E & H2).
    exists p1, p2. split; [now rewrite E | exact H2].
Qed.

(** ** The flex slots as a list of calls *)

Lemma flexes_steps_filter starter_counts ks :
  forall fr,
    fold_left (fun fr position => flexes_step starter_counts position fr) ks fr =
    fold_left (fun fr job =>
                 flex_step (fst job) (snd job) (count_of starter_counts (fst job)) fr)
              (map (fun position => (position, split "/" position)) (filter is_flex ks))
              fr.
Proof.
  induction ks as [|k ks IH]; intros fr; simpl; [reflexivity|].
  rewrite IH. unfold flexes_step. destruct (is_flex k); reflexivity.
Qed.

Lemma allocated_jobs lineup starter_counts fr :
  allocated lineup starter_counts fr =
  fold_left (fun fr job =>
               flex_step (fst job) (snd job) (count_of starter_counts (fst job)) fr)
            (flex_jobs starter_counts)
            (fold_left (fun fr position => position_step starter_counts position fr)
               (dict_keys starter_counts)
               (fold_left (fun fr player => collect_step player fr) lineup fr)).
Proof.
  unfold allocated, flex_jobs. rewrite !fold_left_app, flexes_steps_filter.
  unfold named_step.
  destruct (dict_contains starter_counts "OP"), (dict_contains starter_counts "DP");
    reflexivity.
Qed.

Lemma count_two_buckets {V} (d : dict (dict V)) q q' x :
  q <> q' ->
  (count_occ string_dec (dict_keys (bucket_of d q)) x +
   count_occ string_dec (dict_keys (bucket_of d q')) x <=
   count_occ string_dec (all_names d) x)%nat.
Proof.
  intros Hne. induction d as [|[k0 b0] d IH]; [simpl; lia|].
  assert (E : forall k, bucket_of ((k0, b0) :: d) k =
                        if String.eqb k0 k then b0 else bucket_of d k).
  { intros k. unfold bucket_of. simpl. now destruct (String.eqb k0 k). }
  rewrite !E. unfold all_names. simpl. rewrite count_occ_app.
  fold (all_names d).
  destruct (String.eqb_spec k0 q), (String.eqb_spec k0 q'); try congruence.
  - pose proof (count_bucket_le d q' x). lia.
  - pose proof (count_bucket_le d q x). lia.
  - lia.
Qed.

Lemma names_once_bucket_disjoint fr q q' x :
  names_once fr -> q <> q' ->
  In x (dict_keys (bucket_of (position_players fr) q)) ->
  In x (dict_keys (bucket_of (position_players fr) q')) -> False.
Proof.
  intros Hnames Hne H1 H2.
  apply (count_occ_In string_dec) in H1. apply (count_occ_In string_dec) in H2.
  pose proof (count_two_buckets (position_players fr) q q' x Hne).
  pose proof (Hnames x). lia.
Qed.

Lemma flex_pool_concat flexes fr :
  names_once fr -> NoDup flexes ->
  flex_pool flexes (position_players fr) =
  List.concat (map (bucket_of (position_players fr)) flexes).
Proof.
  intros Hnames. unfold flex_pool.
  assert (H : forall acc : dict Z,
             NoDup flexes ->
             NoDup (dict_keys acc) ->
             (forall q x, In q flexes ->
                          In x (dict_keys (bucket_of (position_players fr) q)) ->
                          ~ In x (dict_keys acc)) ->
             fold_left (fun pl flex_position =>
                          match dict_get (position_players fr) flex_position with
                          | Some bucket => dict_union pl bucket
                          | None => pl
                          end) flexes acc =
             acc ++ List.concat (map (bucket_of (position_players fr)) flexes)).
  { induction flexes as [|f flexes IH]; intros acc Hnd Hacc Hfresh; simpl.
    - now rewrite app_nil_r.
    - inversion Hnd as [|? ? Hf Hnd']; subst.
      assert (Hunion : match dict_get (position_players fr) f with
                       | Some bucket => dict_union acc bucket
                       | None => acc
                       end = acc ++ bucket_of (position_players fr) f).
      { pose proof (names_once_pool_NoDup fr f Hnames) as Hb.
        pose proof (Hfresh f) as Hff.
        unfold bucket_of in *. destruct (dict_get (position_players fr) f) as [b|].
        - apply dict_union_fresh. apply NoDup_app_iff. repeat split; auto.
          intros x Hx1 Hx2. apply (Hff x); auto. now left.
        - now rewrite app_nil_r. }
      rewrite Hunion, IH.
      + now rewrite <- app_assoc.
      + exact Hnd'.
      + unfold dict_keys. rewrite map_app. apply NoDup_app_iff. repeat split; auto.
        * apply (names_once_pool_NoDup fr f Hnames).
        * intros x Hx1 Hx2. apply (Hfresh f x); auto. now left.
      + intros q x Hq Hx. unfold dict_keys. rewrite map_app, in_app_iff.
        intros [Hin|Hin].
        * apply (Hfresh q x); auto. now right.
        * apply (names_once_bucket_disjoint fr q f x Hnames); auto.
          intros ->. contradiction. }
  intros Hnd. rewrite H; auto.
  constructor.
Qed.

Lemma remove_names_id {V} names (b : dict V) :
  (forall x, In x (dict_keys b) -> ~ In x names) -> remove_names names b = b.
Proof.
  intros H. unfold remove_names. apply forallb_filter_id, forallb_forall.
  intros [k v] Hin. simpl. apply negb_true_iff, mem_false, H.
  change k with (fst (k, v)). now apply in_map.
Qed.

Lemma flex_step_other_bucket slot flex num fr q :
  frame_ok fr -> ~ In q flex ->
  bucket_of (position_players (flex_step slot flex num fr)) q =
  bucket_of (position_players fr) q.
Proof.
  intros Hok Hq.
  destruct (flex_step_buckets slot flex num fr Hok) as (_ & _ & Epp & _).
  rewrite Epp. apply remove_names_id. intros x Hx Hin.
  rewrite <- flex_best_ranked in Hin. apply flex_best_keys_in in Hin.
  destruct Hin as (q' & Hq' & Hx').
  apply (names_once_bucket_disjoint fr q q' x); try apply Hok; auto.
  intros ->. contradiction.
Qed.

Lemma dict_contains_keys {V} (d : dict V) k : dict_contains d k = mem k (dict_keys d).
Proof.
  unfold dict_contains, mem. induction d as [|[k0 v0] d IH]; simpl; [reflexivity|].
  rewrite (String.eqb_sym k k0). destruct (String.eqb k0 k); [reflexivity | exact IH].
Qed.

Lemma dict_keys_set_same {V W} (d1 : dict V) (d2 : dict W) k v1 v2 :
  dict_keys d1 = dict_keys d2 ->
  dict_keys (dict_set d1 k v1) = dict_keys (dict_set d2 k v2).
Proof.
  intros E. rewrite !dict_keys_set, !dict_contains_keys, E. reflexivity.
Qed.

(** ** Two runs side by side *)

Section Simulation.
Variable Rel : list Z -> list Z -> Prop.
Hypothesis Rel_nil : Rel [] [].
Hypothesis Rel_app :
  forall u p u' p', Rel u p -> Rel u' p' -> Rel (u ++ u') (p ++ p').
Hypothesis Rel_top :
  forall u p n, Rel u p ->
    sum (firstn n (sorted_points u)) <= sum (firstn n (sorted_points p)).
Hypothesis Rel_rest :
  forall u p n, Rel u p ->
    Rel (skipn n (sorted_points u)) (skipn n (sorted_points p)).

Variable starter_counts : dict nat.

Lemma simulates_position_step k fr1 fr2 :
  simulates Rel [] fr1 fr2 ->
  simulates Rel [] (position_step starter_counts k fr1)
                   (position_step starter_counts k fr2).
Proof.
  intros (Hok1 & Hok2 & Hkeys & Hbl & Hpp).
  destruct (position_step_buckets starter_counts k fr1 (proj2 (proj2 Hok1)))
    as (Ebl1 & Epp1 & _).
  destruct (position_step_buckets starter_counts k fr2 (proj2 (proj2 Hok2)))
    as (Ebl2 & Epp2 & _).
  split; [now apply position_step_ok|]. split; [now apply position_step_ok|].
  rewrite Ebl1, Ebl2. split; [now apply dict_keys_set_same|].
  split.
  - intros q. rewrite !bucket_of_set. destruct (String.eqb k q); [|apply Hbl].
    rewrite !dict_values_firstn, !values_sorted_desc. apply Rel_top, Hpp. tauto.
  - intros q _. rewrite Epp1, Epp2. destruct (String.eqb k q); [|apply Hpp; tauto].
    rewrite !dict_values_skipn, !values_sorted_desc. apply Rel_rest, Hpp. tauto.
Qed.

Lemma simulates_position_steps ks :
  forall fr1 fr2,
    simulates Rel [] fr1 fr2 ->
    simulates Rel []
      (fold_left (fun fr position => position_step starter_counts position fr) ks fr1)
      (fold_left (fun fr position => position_step starter_counts position fr) ks fr2).
Proof.
  induction ks as [|k ks IH]; intros fr1 fr2 H; simpl; [exact H|].
  now apply IH, simulates_position_step.
Qed.

Lemma Rel_concat (f1 f2 : string -> dict Z) flexes :
  (forall q, In q flexes -> Rel (dict_values (f1 q)) (dict_values (f2 q))) ->
  Rel (dict_values (List.concat (map f1 flexes)))
      (dict_values (List.concat (map f2 flexes))).
Proof.
  unfold dict_values. induction flexes as [|f flexes IH]; intros H; simpl.
  - exact Rel_nil.
  - rewrite !map_app. apply Rel_app; [apply H; now left|].
    apply IH. intros q Hq. apply H. now right.
Qed.

Lemma simulates_flex_step slot flex num used fr1 fr2 :
  NoDup flex ->
  (forall q, In q flex -> ~ In q used) ->
  simulates Rel used fr1 fr2 ->
  simulates Rel (flex ++ used) (flex_step slot flex num fr1)
                               (flex_step slot flex num fr2).
Proof.
  intros Hnd Hfresh (Hok1 & Hok2 & Hkeys & Hbl & Hpp).
  destruct (flex_step_buckets slot flex num fr1 Hok1) as (Ebl1 & _ & _ & _).
  destruct (flex_step_buckets slot flex num fr2 Hok2) as (Ebl2 & _ & _ & _).
  split; [now apply flex_step_ok|]. split; [now apply flex_step_ok|].
  rewrite Ebl1, Ebl2. split; [now apply dict_keys_set_same|].
  split.
  - intros q. rewrite !bucket_of_set. destruct (String.eqb slot q); [|apply Hbl].
    rewrite !dict_values_firstn, !values_sorted_desc.
    rewrite !flex_pool_concat by (try apply Hok1; try apply Hok2; exact Hnd).
    apply Rel_top, Rel_concat. intros q' Hq'. apply Hpp. now apply Hfresh.
  - intros q Hq. rewrite in_app_iff in Hq.
    rewrite !flex_step_other_bucket by tauto. apply Hpp. tauto.
Qed.

Lemma simulates_jobs jobs :
  forall used fr1 fr2,
    NoDup (List.concat (map snd jobs)) ->
    (forall q, In q (List.concat (map snd jobs)) -> ~ In q used) ->
    simulates Rel used fr1 fr2 ->
    exists used',
      simulates Rel used'
        (fold_left (fun fr job =>
                      flex_step (fst job) (snd job)
                        (count_of starter_counts (fst job)) fr) jobs fr1)
        (fold_left (fun fr job =>
                      flex_step (fst job) (snd job)
                        (count_of starter_counts (fst job)) fr) jobs fr2).
Proof.
  induction jobs as [|[slot flex] jobs IH]; intros used fr1 fr2 Hnd Hfresh H; simpl.
  - now exists used.
  - simpl in Hnd, Hfresh. apply NoDup_app_iff in Hnd. destruct Hnd as (Hflex & Hrest & Hdisj).
    apply (IH (flex ++ used)).
    + exact Hrest.
    + intros q Hq. rewrite in_app_iff. intros [Hin|Hin].
      * apply (Hdisj q Hin Hq).
      * apply (Hfresh q); [apply in_or_app; now right | exact Hin].
    + apply simulates_flex_step; auto.
      intros q Hq. apply Hfresh, in_or_app. now left.
Qed.

Lemma simulates_total used fr1 fr2 :
  simulates Rel used fr1 fr2 ->
  lineup_total (best_lineup fr1) <= lineup_total (best_lineup fr2).
Proof.
  intros (_ & _ & Hkeys & Hbl & _). rewrite !lineup_total_buckets, Hkeys.
  clear Hkeys.
  induction (dict_keys (best_lineup fr2)) as [|k ks IH]; simpl; [apply Z.le_refl|].
  rewrite !sum_cons. specialize (Hbl k). lia.
Qed.

Lemma simulates_allocated lineup1 lineup2 :
  NoDup (map name lineup1) ->
  NoDup (map name lineup2) ->
  NoDup (eligible_positions starter_counts) ->
  (forall q, Rel (dict_values (position_items q lineup1))
                 (dict_values (position_items q lineup2))) ->
  lineup_total (best_lineup (allocated lineup1 starter_counts initial_locals)) <=
  lineup_total (best_lineup (allocated lineup2 starter_counts initial_locals)).
Proof.
  intros Hnd1 Hnd2 Hdisj Hrel.
  rewrite !allocated_jobs.
  destruct (collected_ok lineup1 Hnd1) as (Hok1 & Ebl1 & Epp1).
  destruct (collected_ok lineup2 Hnd2) as (Hok2 & Ebl2 & Epp2).
  destruct (simulates_jobs (flex_jobs starter_counts) []
              (fold_left (fun fr position => position_step starter_counts position fr)
                 (dict_keys starter_counts)
                 (fold_left (fun fr player => collect_step player fr) lineup1
                    initial_locals))
              (fold_left (fun fr position => position_step starter_counts position fr)
                 (dict_keys starter_counts)
                 (fold_left (fun fr player => collect_step player fr) lineup2
                    initial_locals))) as (used & Hsim).
  - exact Hdisj.
  - intros q _ [].
  - apply simulates_position_steps.
    split; [exact Hok1|]. split; [exact Hok2|].
    rewrite Ebl1, Ebl2. split; [reflexivity|]. split; [intros k; apply Z.le_refl|].
    intros q _. rewrite Epp1, Epp2. apply Hrel.
  - exact (simulates_total _ _ _ Hsim).
Qed.
End Simulation.

(** ** The lineup at the flex slots *)

Lemma jobs_ok starter_counts jobs :
  forall fr, frame_ok fr ->
    frame_ok (fold_left (fun fr job =>
                           flex_step (fst job) (snd job)
                             (count_of starter_counts (fst job)) fr) jobs fr).
Proof.
  induction jobs as [|job jobs IH]; intros fr H; simpl; [exact H|].
  now apply IH, flex_step_ok.
Qed.

Lemma jobs_lineup_other starter_counts jobs slot :
  ~ In slot (map fst jobs) ->
  forall fr,
    dict_get (best_lineup (fold_left (fun fr job =>
                                        flex_step (fst job) (snd job)
                                          (count_of starter_counts (fst job)) fr)
                             jobs fr)) slot =
    dict_get (best_lineup fr) slot.
Proof.
  induction jobs as [|job jobs IH]; intros Hslot fr; simpl; [reflexivity|].
  simpl in Hslot. rewrite IH by tauto. simpl.
  apply dict_get_set_other. tauto.
Qed.

Lemma jobs_lineup starter_counts jobs :
  forall fr slot flex,
    frame_ok fr ->
    NoDup (List.concat (map snd jobs)) ->
    NoDup (map fst jobs) ->
    In (slot, flex) jobs ->
    dict_get (best_lineup (fold_left (fun fr job =>
                                        flex_step (fst job) (snd job)
                                          (count_of starter_counts (fst job)) fr)
                             jobs fr)) slot =
    Some (firstn (count_of starter_counts slot)
            (sorted_desc (List.concat (map (bucket_of (position_players fr)) flex)))).
Proof.
  induction jobs as [|[s0 f0] jobs IH]; intros fr slot flex Hok Hdisj Hslots Hin;
    [destruct Hin|].
  simpl in Hdisj, Hslots. apply NoDup_app_iff in Hdisj.
  destruct Hdisj as (Hf0 & Hrest & Hsep). inversion Hslots as [|? ? Hs0 Hslots']; subst.
  cbn [fold_left fst snd]. destruct Hin as [[= -> ->]|Hin].
  - rewrite jobs_lineup_other by exact Hs0.
    destruct (flex_step_buckets slot flex (count_of starter_counts slot) fr Hok)
      as (Ebl & _).
    rewrite Ebl, dict_get_set_same.
    rewrite flex_pool_concat; [reflexivity | apply Hok | exact Hf0].
  - rewrite (IH _ slot flex); auto using flex_step_ok.
    do 4 f_equal. apply map_ext_in. intros q Hq.
    apply flex_step_other_bucket; [exact Hok|].
    intros Hq0. apply (Hsep q Hq0). apply in_concat. exists flex. split; [|exact Hq].
    apply in_map_iff. exists (slot, flex). auto.
Qed.

Lemma flex_jobs_slots starter_counts slot :
  In slot (map fst (flex_jobs starter_counts)) ->
  In slot (dict_keys starter_counts) /\
  (is_flex slot = true \/ slot = "OP" \/ slot = "DP").
Proof.
  unfold flex_jobs. rewrite !map_app, !in_app_iff, map_map. simpl.
  rewrite map_id. intros [H|[H|H]].
  - apply filter_In in H. tauto.
  - destruct (dict_contains starter_counts "OP") eqn:E; [|destruct H].
    destruct H as [<-|[]]. split; [|tauto].
    rewrite dict_contains_keys in E. now apply mem_In.
  - destruct (dict_contains starter_counts "DP") eqn:E; [|destruct H].
    destruct H as [<-|[]]. split; [|tauto].
    rewrite dict_contains_keys in E. now apply mem_In.
Qed.

Lemma flex_jobs_slots_NoDup starter_counts :
  NoDup (dict_keys starter_counts) -> NoDup (map fst (flex_jobs starter_counts)).
Proof.
  intros Hnd. unfold flex_jobs. rewrite !map_app, map_map. simpl. rewrite map_id.
  apply NoDup_app_iff. split; [now apply NoDup_filter|]. split.
  - destruct (dict_contains starter_counts "OP"), (dict_contains starter_counts "DP");
      simpl; repeat constructor; simpl; intuition discriminate.
  - intros x Hx. apply filter_In in Hx. destruct Hx as [_ Hx].
    destruct (dict_contains starter_counts "OP"), (dict_contains starter_counts "DP");
      simpl; intros H; intuition (subst; discriminate).
Qed.

Lemma allocated_flex_slot lineup starter_counts slot flex :
  NoDup (map name lineup) ->
  NoDup (dict_keys starter_counts) ->
  NoDup (eligible_positions starter_counts) ->
  In (slot, flex) (flex_jobs starter_counts) ->
  dict_get (best_lineup (allocated lineup starter_counts initial_locals)) slot =
  Some (firstn (count_of starter_counts slot)
          (sorted_desc (List.concat (map (remaining_items starter_counts lineup) flex)))).
Proof.
  intros Hnd Hkeys Hdisj Hin. rewrite allocated_jobs.
  destruct (collected_ok lineup Hnd) as (H0 & _ & Epp).
  destruct (position_steps_buckets starter_counts _ Hkeys _ H0) as [Hpp _].
  rewrite (jobs_lineup starter_counts _ _ slot flex); auto.
  - do 4 f_equal. apply map_ext. intros q. rewrite Hpp, Epp. reflexivity.
  - now apply position_steps_ok.
  - now apply flex_jobs_slots_NoDup.
Qed.

(** ** A roster of legal starters is assigned whole *)

Lemma same_job (jobs : list (string * list string)) :
  NoDup (List.concat (map snd jobs)) ->
  forall s1 f1 s2 f2 q,
    In (s1, f1) jobs -> In (s2, f2) jobs -> In q f1 -> In q f2 -> s1 = s2.
Proof.
  induction jobs as [|[s0 f0] jobs IH]; intros Hnd s1 f1 s2 f2 q H1 H2 Hq1 Hq2;
    [destruct H1|].
  simpl in Hnd. apply NoDup_app_iff in Hnd. destruct Hnd as (_ & Hrest & Hsep).
  assert (Hin : forall s f, In (s, f) jobs -> In q f ->
                            In q (List.concat (map snd jobs))).
  { intros s f Hsf Hqf. apply in_concat. exists f. split; [|exact Hqf].
    apply in_map_iff. exists (s, f). auto. }
  destruct H1 as [[= -> ->]|H1], H2 as [[= -> ->]|H2].
  - reflexivity.
  - exfalso. apply (Hsep q Hq1). eauto.
  - exfalso. apply (Hsep q Hq2). eauto.
  - eapply IH; eauto.
Qed.

Lemma NoDup_concat_member {A} (ls : list (list A)) l :
  NoDup (List.concat ls) -> In l ls -> NoDup l.
Proof.
  induction ls as [|l0 ls IH]; simpl; [tauto|].
  intros Hnd [->|Hin]; apply NoDup_app_iff in Hnd; tauto.
Qed.

Lemma filter_length_le {A} (f g : A -> bool) (l : list A) :
  (forall x, In x l -> f x = true -> g x = true) ->
  (List.length (filter f l) <= List.length (filter g l))%nat.
Proof.
  induction l as [|x l IH]; intros H; simpl; [lia|].
  assert (IH' : (List.length (filter f l) <= List.length (filter g l))%nat).
  { apply IH. intros y Hy. apply H. now right. }
  destruct (f x) eqn:Ef.
  - rewrite (H x (or_introl eq_refl) Ef). simpl. lia.
  - destruct (g x); simpl; lia.
Qed.

Lemma filter_none {A} (f : A -> bool) (l : list A) :
  (forall x, In x l -> f x = false) -> filter f l = [].
Proof.
  induction l as [|x l IH]; intros H; simpl; [reflexivity|].
  rewrite (H x (or_introl eq_refl)). apply IH. intros y Hy. apply H. now right.
Qed.

Lemma filter_length_split {A} (f g : A -> bool) (l : list A) :
  List.length (filter f l) =
  (List.length (filter (fun x => f x && g x) l) +
   List.length (filter (fun x => f x && negb (g x)) l))%nat.
Proof.
  induction l as [|x l IH]; simpl; [reflexivity|].
  destruct (f x), (g x); simpl; lia.
Qed.

Lemma count_by_position (g : Player -> bool) (M : list Player) flex :
  NoDup flex ->
  (list_sum (map (fun q => List.length
                             (filter (fun p => String.eqb (position p) q && g p) M))
               flex) <= List.length (filter g M))%nat.
Proof.
  intros Hnd. induction M as [|p M IH]; simpl.
  - clear Hnd. induction flex; simpl; lia.
  - assert (Hstep :
      (list_sum (map (fun q => List.length
                        (if String.eqb (position p) q && g p
                         then p :: filter (fun p => String.eqb (position p) q && g p) M
                         else filter (fun p => String.eqb (position p) q && g p) M))
                  flex) <=
       list_sum (map (fun q => List.length
                        (filter (fun p => String.eqb (position p) q && g p) M)) flex) +
       (if g p then 1 else 0))%nat).
    { clear IH. induction flex as [|q flex IHf]; simpl; [lia|].
      inversion Hnd as [|? ? Hq Hnd']; subst. specialize (IHf Hnd').
      destruct (String.eqb_spec (position p) q) as [E|E]; simpl.
      - assert (Hzero :
          list_sum (map (fun q0 => List.length
                           (if String.eqb (position p) q0 && g p
                            then p :: filter (fun p => String.eqb (position p) q0 && g p) M
                            else filter (fun p => String.eqb (position p) q0 && g p) M))
                      flex) =
          list_sum (map (fun q0 => List.length
                           (filter (fun p => String.eqb (position p) q0 && g p) M))
                      flex)).
        { f_equal. apply map_ext_in. intros q0 Hq0.
          destruct (String.eqb_spec (position p) q0); [|reflexivity].
          exfalso. apply Hq. congruence. }
        rewrite Hzero. destruct (g p); simpl; lia.
      - lia. }
    destruct (g p); simpl; lia.
Qed.

Section EveryStarterAssigned.
Variable starter_counts : dict nat.
Variable M : list Player.
Hypothesis Hnames : NoDup (map name M).
Hypothesis Hkeys : NoDup (dict_keys starter_counts).
Hypothesis Hsep : flex_separate starter_counts.
Hypothesis Hlegal : forall p, In p M -> legal_starter starter_counts p = true.
Hypothesis Hcount :
  forall slot, In slot (dict_keys starter_counts) ->
    (List.length (filter (fun p => String.eqb (slot_position p) slot) M) <=
     count_of starter_counts slot)%nat.

Lemma separate_positions : NoDup (eligible_positions starter_counts).
Proof. unfold flex_separate in Hsep. now apply NoDup_app_iff in Hsep. Qed.

Lemma flex_jobs_member slot :
  In slot (dict_keys starter_counts) ->
  is_flex slot = true \/ slot = "OP" \/ slot = "DP" ->
  exists flex, In (slot, flex) (flex_jobs starter_counts) /\
               forall pos, eligible slot pos = true -> In pos flex.
Proof.
  intros Hin Hkind. unfold flex_jobs, eligible.
  destruct (is_flex slot) eqn:Ef.
  - exists (split "/" slot). split; [|intros pos; apply mem_In].
    apply in_or_app. left. apply in_map_iff. exists slot. split; [reflexivity|].
    apply filter_In. auto.
  - destruct Hkind as [?|[->| ->]]; [discriminate| |].
    + exists OP_flex. split; [|intros pos; apply mem_In].
      apply in_or_app. right. apply in_or_app. left.
      rewrite dict_contains_keys. apply mem_In in Hin. rewrite Hin. now left.
    + exists DP_flex. split; [|intros pos; apply mem_In].
      apply in_or_app. right. apply in_or_app. right.
      rewrite dict_contains_keys. apply mem_In in Hin. rewrite Hin. now left.
Qed.

Lemma legal_cases p :
  In p M ->
  In (slot_position p) (dict_keys starter_counts) /\
  ((position p = slot_position p /\
    ~ In (slot_position p) (map fst (flex_jobs starter_counts))) \/
   exists flex, In (slot_position p, flex) (flex_jobs starter_counts) /\
                In (position p) flex).
Proof.
  intros Hp. pose proof (Hlegal p Hp) as H. unfold legal_starter in H.
  apply andb_true_iff in H. destruct H as [Hc He].
  rewrite dict_contains_keys in Hc. apply mem_In in Hc. split; [exact Hc|].
  destruct (is_flex (slot_position p)) eqn:Ef;
    [|destruct (String.eqb_spec (slot_position p) "OP") as [EOP|EOP];
      [|destruct (String.eqb_spec (slot_position p) "DP") as [EDP|EDP]]].
  - right. destruct (flex_jobs_member _ Hc (or_introl Ef)) as (flex & Hin & Hel).
    exists flex. auto.
  - right. destruct (flex_jobs_member _ Hc (or_intror (or_introl EOP)))
      as (flex & Hin & Hel). exists flex. auto.
  - right. destruct (flex_jobs_member _ Hc (or_intror (or_intror EDP)))
      as (flex & Hin & Hel). exists flex. auto.
  - left. unfold eligible in He. rewrite Ef in He.
    apply String.eqb_neq in EOP, EDP. rewrite EOP, EDP in He.
    apply String.eqb_eq in He. split; [exact He|].
    intros Hin. apply flex_jobs_slots in Hin.
    apply String.eqb_neq in EOP, EDP.
    destruct Hin as (_ & [?|[?|?]]); congruence.
Qed.

Lemma position_not_slot p :
  In p M -> ~ In (position p) (map fst (flex_jobs starter_counts)).
Proof.
  intros Hp. destruct (legal_cases p Hp) as (_ & [[-> H]|(flex & Hin & Hq)]);
    [exact H|].
  intros Hslot. unfold flex_separate in Hsep. apply NoDup_app_iff in Hsep.
  destruct Hsep as (_ & _ & Hdisj). apply (Hdisj _ Hslot).
  apply in_concat. exists flex. split; [|exact Hq].
  apply in_map_iff. exists (slot_position p, flex). auto.
Qed.

Lemma remaining_length q :
  List.length (remaining_items starter_counts M q) =
  (List.length (position_items q M) - count_of starter_counts q)%nat.
Proof.
  unfold remaining_items. destruct (mem q (dict_keys starter_counts)) eqn:E.
  - now rewrite length_skipn, (Permutation_length (sorted_desc_perm _)).
  - apply mem_false, dict_get_none_keys in E. unfold count_of. rewrite E. lia.
Qed.

Lemma own_slot_le q :
  (List.length (filter (fun p => String.eqb (position p) q &&
                                 String.eqb (slot_position p) q) M) <=
   count_of starter_counts q)%nat.
Proof.
  destruct (in_dec string_dec q (dict_keys starter_counts)) as [Hin|Hnin].
  - etransitivity; [|apply (Hcount q Hin)].
    apply filter_length_le. intros p _ H. apply andb_true_iff in H. tauto.
  - assert (E : filter (fun p => String.eqb (position p) q &&
                                 String.eqb (slot_position p) q) M = []).
    { apply filter_none. intros p Hp.
      destruct (String.eqb_spec (slot_position p) q) as [Es|Es];
        [|now rewrite andb_false_r].
      exfalso. apply Hnin. rewrite <- Es. apply (legal_cases p Hp). }
    rewrite E. simpl. lia.
Qed.

Lemma position_items_length q :
  List.length (position_items q M) =
  List.length (filter (fun p => String.eqb (position p) q) M).
Proof. unfold position_items. apply length_map. Qed.

Lemma remaining_le_flex q slot flex :
  In (slot, flex) (flex_jobs starter_counts) -> In q flex ->
  (List.length (remaining_items starter_counts M q) <=
   List.length (filter (fun p => String.eqb (position p) q &&
                                 String.eqb (slot_position p) slot) M))%nat.
Proof.
  intros Hjob Hq. rewrite remaining_length, position_items_length.
  rewrite (filter_length_split (fun p => String.eqb (position p) q)
             (fun p => String.eqb (slot_position p) q)).
  pose proof (own_slot_le q) as Hown.
  assert ((List.length (filter (fun p => String.eqb (position p) q &&
                                        negb (String.eqb (slot_position p) q)) M) <=
           List.length (filter (fun p => String.eqb (position p) q &&
                                        String.eqb (slot_position p) slot) M))%nat).
  { apply filter_length_le. intros p Hp H.
    apply andb_true_iff in H. destruct H as [Hpos Hslot].
    rewrite Hpos. simpl. apply String.eqb_eq in Hpos.
    apply negb_true_iff, String.eqb_neq in Hslot.
    destruct (legal_cases p Hp) as (_ & [[E _]|(flex' & Hjob' & Hq')]);
      [congruence|].
    apply String.eqb_eq.
    apply (same_job _ separate_positions _ _ _ _ q Hjob' Hjob); congruence. }
  lia.
Qed.

Lemma remaining_has_flex q :
  remaining_items starter_counts M q <> [] ->
  exists slot flex, In (slot, flex) (flex_jobs starter_counts) /\ In q flex.
Proof.
  intros Hne.
  assert (Hlen : (0 < List.length (remaining_items starter_counts M q))%nat).
  { destruct (remaining_items starter_counts M q); [congruence | simpl; lia]. }
  rewrite remaining_length, position_items_length in Hlen.
  rewrite (filter_length_split (fun p => String.eqb (position p) q)
             (fun p => String.eqb (slot_position p) q)) in Hlen.
  pose proof (own_slot_le q) as Hown.
  destruct (filter (fun p => String.eqb (position p) q &&
                             negb (String.eqb (slot_position p) q)) M)
    as [|p rest] eqn:E; [simpl in Hlen; lia|].
  assert (Hp : In p (filter (fun p => String.eqb (position p) q &&
                                      negb (String.eqb (slot_position p) q)) M))
    by (rewrite E; now left).
  apply filter_In in Hp. destruct Hp as [Hp H].
  apply andb_true_iff in H. destruct H as [Hpos Hslot].
  apply String.eqb_eq in Hpos. apply negb_true_iff, String.eqb_neq in Hslot.
  destruct (legal_cases p Hp) as (_ & [[E' _]|(flex' & Hjob' & Hq')]);
    [congruence|].
  exists (slot_position p), flex'. split; [exact Hjob' | congruence].
Qed.

Lemma pool_fits slot flex :
  In (slot, flex) (flex_jobs starter_counts) ->
  (List.length (List.concat (map (remaining_items starter_counts M) flex)) <=
   count_of starter_counts slot)%nat.
Proof.
  intros Hjob. rewrite length_concat, map_map.
  assert (Hflex : NoDup flex).
  { apply (NoDup_concat_member _ _ separate_positions).
    apply in_map_iff. exists (slot, flex). auto. }
  assert (Hslot : In slot (dict_keys starter_counts)).
  { apply flex_jobs_slots. apply in_map_iff. exists (slot, flex). auto. }
  etransitivity; [|apply (Hcount slot Hslot)].
  etransitivity;
    [|apply (count_by_position (fun p => String.eqb (slot_position p) slot) M flex Hflex)].
  clear Hflex.
  assert (H : forall q, In q flex ->
             (List.length (remaining_items starter_counts M q) <=
              List.length (filter (fun p => String.eqb (position p) q &&
                                            String.eqb (slot_position p) slot) M))%nat)
    by (intros q Hq; now apply (remaining_le_flex q slot flex)).
  clear Hjob. induction flex as [|q flex IH]; simpl; [lia|].
  specialize (H q (or_introl eq_refl)) as Hq.
  assert (IH' := IH (fun q' Hq' => H q' (or_intror Hq'))). lia.
Qed.

Lemma dict_get_assigned (bl : dict (dict Z)) k b x :
  dict_get bl k = Some b -> In x b -> In x (assigned bl).
Proof.
  intros Hget Hx. unfold assigned. apply in_concat. exists b. split; [|exact Hx].
  apply in_map_iff. exists (k, b). split; [reflexivity | now apply dict_get_In].
Qed.

Lemma every_starter_assigned p :
  In p M ->
  In (player_item p)
     (assigned (best_lineup (allocated M starter_counts initial_locals))).
Proof.
  intros Hp. set (q := position p).
  assert (Hitem : In (player_item p) (position_items q M)).
  { unfold position_items. apply in_map, filter_In. split; [exact Hp|].
    apply String.eqb_refl. }
  assert (Hrem : In (player_item p) (remaining_items starter_counts M q) ->
                 In (player_item p)
                    (assigned (best_lineup (allocated M starter_counts initial_locals)))).
  { intros Hin.
    destruct (remaining_has_flex q) as (slot & flex & Hjob & Hq).
    { intros E. rewrite E in Hin. destruct Hin. }
    apply (dict_get_assigned _ slot _ _
             (allocated_flex_slot M starter_counts slot flex Hnames Hkeys
                separate_positions Hjob)).
    rewrite firstn_all2.
    - apply (Permutation_in _ (Permutation_sym (sorted_desc_perm _))).
      apply in_concat. exists (remaining_items starter_counts M q).
      split; [now apply in_map | exact Hin].
    - rewrite (Permutation_length (sorted_desc_perm _)). now apply pool_fits. }
  destruct (mem q (dict_keys starter_counts)) eqn:Emem.
  - apply (Permutation_in _ (Permutation_sym (sorted_desc_perm _))) in Hitem.
    rewrite <- (firstn_skipn (count_of starter_counts q)) in Hitem.
    apply in_app_or in Hitem. destruct Hitem as [Hitem|Hitem].
    + apply mem_In in Emem.
      assert (Hnot : ~ In q (map fst (flex_jobs starter_counts)))
        by now apply position_not_slot.
      assert (Hkind : is_flex q = false /\ q <> "OP" /\ q <> "DP").
      { repeat split.
        - destruct (is_flex q) eqn:Ef; [|reflexivity]. exfalso. apply Hnot.
          destruct (flex_jobs_member q Emem (or_introl Ef)) as (flex & Hin & _).
          apply in_map_iff. exists (q, flex). auto.
        - intros E. apply Hnot.
          destruct (flex_jobs_member q Emem (or_intror (or_introl E)))
            as (flex & Hin & _).
          apply in_map_iff. exists (q, flex). auto.
        - intros E. apply Hnot.
          destruct (flex_jobs_member q Emem (or_intror (or_intror E)))
            as (flex & Hin & _).
          apply in_map_iff. exists (q, flex). auto. }
      destruct Hkind as (Hf & HOP & HDP).
      apply (dict_get_assigned _ q _ _
               (optimal_lineup_position M starter_counts q Hnames Hkeys Emem
                  Hf HOP HDP)).
      exact Hitem.
    + apply Hrem. unfold remaining_items. now rewrite Emem.
  - apply Hrem. unfold remaining_items. now rewrite Emem.
Qed.

Lemma starters_total :
  lineup_total (best_lineup (allocated M starter_counts initial_locals)) =
  sum (map points M).
Proof.
  pose proof (allocated_ok M starter_counts Hnames) as (Hbl & Hpp & Hno).
  pose proof (allocated_items M starter_counts Hnames) as Hit.
  rewrite lineup_total_assigned by exact Hbl.
  assert (Hperm : Permutation
                    (assigned (best_lineup (allocated M starter_counts initial_locals)))
                    (map player_item M)).
  { apply NoDup_Permutation.
    - apply (NoDup_map_inv fst). rewrite <- all_names_assigned.
      apply count_le_1_NoDup. intros x. pose proof (Hno x). lia.
    - apply (NoDup_map_inv fst). rewrite map_map. exact Hnames.
    - intros kv. split.
      + intros Hin. unfold assigned in Hin. apply in_concat in Hin.
        destruct Hin as (b & Hb & Hkv). apply in_map_iff in Hb.
        destruct Hb as ([k b'] & <- & Hb). simpl in Hkv.
        apply (Hit k). left. unfold bucket_of.
        now rewrite (dict_In_get _ _ _ Hbl Hb).
      + intros Hin. apply in_map_iff in Hin. destruct Hin as (p & <- & Hp).
        now apply every_starter_assigned. }
  rewrite (sum_perm _ _ (Permutation_map snd Hperm)), map_map. reflexivity.
Qed.
End EveryStarterAssigned.

(** ** Slot configuration inference *)

Lemma tally_home_run lineup fr :
  for_ lineup tally_home fr =
  (Returned tt,
   {| h_starters := fold_left tally_step lineup (h_starters fr);
      h_starter_count := h_starter_count fr + List.length (starters lineup);
      a_starters := a_starters fr;
      a_starter_count := a_starter_count fr |}).
Proof.
  revert fr. induction lineup as [|player lineup IH]; intros fr; simpl.
  - rewrite Nat.add_0_r. destruct fr; reflexivity.
  - unfold bind at 1. unfold tally_home at 1, tally_step at 2.
    destruct (is_starter player) eqn:Es; unfold_monad; simpl.
    + destruct (dict_get (h_starters fr) (slot_position player)) eqn:E; simpl;
        rewrite IH; simpl; f_equal; f_equal; lia.
    + rewrite IH. reflexivity.
Qed.

Lemma tally_away_run lineup fr :
  for_ lineup tally_away fr =
  (Returned tt,
   {| h_starters := h_starters fr;
      h_starter_count := h_starter_count fr;
      a_starters := fold_left tally_step lineup (a_starters fr);
      a_starter_count := a_starter_count fr + List.length (starters lineup) |}).
Proof.
  revert fr. induction lineup as [|player lineup IH]; intros fr; simpl.
  - rewrite Nat.add_0_r. destruct fr; reflexivity.
  - unfold bind at 1. unfold tally_away at 1, tally_step at 2.
    destruct (is_starter player) eqn:Es; unfold_monad; simpl.
    + destruct (dict_get (a_starters fr) (slot_position player)) eqn:E; simpl;
        rewrite IH; simpl; f_equal; f_equal; lia.
    + rewrite IH. reflexivity.
Qed.

Lemma get_starter_counts_run i rest :
  get_starter_counts (i :: rest) =
  Returned (Some (if (List.length (starters (home_lineup i)) <?
                      List.length (starters (away_lineup i)))%nat
                  then tally (away_lineup i) else tally (home_lineup i))).
Proof.
  unfold get_starter_counts. simpl.
  unfold bind at 1. unfold bind at 1. rewrite tally_home_run.
  unfold bind at 1. rewrite tally_away_run.
  unfold bind, get. simpl.
  destruct (_ <? _)%nat; reflexivity.
Qed.

Lemma tally_step_get d player slot :
  dict_get (tally_step d player) slot =
  if is_starter player && String.eqb (slot_position player) slot
  then Some (match dict_get d slot with Some n => n + 1 | None => 1 end)%nat
  else dict_get d slot.
Proof.
  unfold tally_step. destruct (is_starter player); simpl; [|reflexivity].
  destruct (String.eqb_spec (slot_position player) slot) as [->|Hne].
  - destruct (dict_get d slot); now rewrite dict_get_set_same.
  - destruct (dict_get d (slot_position player)); now rewrite dict_get_set_other.
Qed.

Lemma fold_tally_get lineup slot :
  forall d,
    dict_get (fold_left tally_step lineup d) slot =
    match starters_at slot lineup, dict_get d slot with
    | O, r => r
    | S k, Some n => Some (n + S k)%nat
    | S k, None => Some (S k)
    end.
Proof.
  unfold starters_at, starters.
  induction lineup as [|player lineup IH]; intros d; simpl.
  - reflexivity.
  - rewrite IH, tally_step_get.
    destruct (is_starter player); simpl; [|reflexivity].
    destruct (String.eqb (slot_position player) slot); simpl; [|reflexivity].
    destruct (List.length _), (dict_get d slot); f_equal; lia.
Qed.

Lemma tally_get lineup slot :
  dict_get (tally lineup) slot =
  match starters_at slot lineup with O => None | S k => Some (S k) end.
Proof.
  unfold tally. rewrite fold_tally_get. simpl.
  destruct (starters_at slot lineup); reflexivity.
Qed.

Lemma fold_tally_starters lineup :
  forall d, fold_left tally_step lineup d = fold_left tally_step (starters lineup) d.
Proof.
  unfold starters.
  induction lineup as [|player lineup IH]; intros d; simpl; [reflexivity|].
  destruct (is_starter player) eqn:E; simpl.
  - apply IH.
  - rewrite <- IH. unfold tally_step at 2. now rewrite E.
Qed.

(** C3: for one matchup, [get_starter_counts] returns the tally of the side
    with the larger number of starters (the home side's on a tie), each tally
    binding a slot to the number of that side's starters in it; with nine
    home starters and ten away starters the result is the away tally. *)
Theorem get_starter_counts_larger_side :
  forall i : BoxScore,
    get_starter_counts [i] =
      Returned (Some (if (List.length (starters (home_lineup i)) <?
                          List.length (starters (away_lineup i)))%nat
                      then tally (away_lineup i) else tally (home_lineup i))) /\
    (forall lineup slot,
        dict_get (tally lineup) slot =
        match starters_at slot lineup with O => None | S k => Some (S k) end) /\
    (List.length (starters (home_lineup i)) = 9%nat ->
     List.length (starters (away_lineup i)) = 10%nat ->
     get_starter_counts [i] = Returned (Some (tally (away_lineup i)))).
Proof.
  intros i. split; [apply get_starter_counts_run|].
  split; [apply tally_get|].
  intros Hh Ha. rewrite get_starter_counts_run, Hh, Ha. reflexivity.
Qed.

Lemma get_starter_counts_larger_side_witness :
  List.length (starters (home_lineup scenario_D)) = 9%nat /\
  List.length (starters (away_lineup scenario_D)) = 10%nat /\
  get_starter_counts [scenario_D] = Returned (Some (tally (away_lineup scenario_D))).
Proof.
  split; [reflexivity|]. split; [reflexivity|].
  apply (proj2 (proj2 (get_starter_counts_larger_side scenario_D))); reflexivity.
Defined.

(** A matchup without players yields the empty configuration, not an error. *)
Lemma get_starter_counts_empty_matchup_returns :
  get_starter_counts [empty_matchup] = Returned (Some []) /\
  forall e, get_starter_counts [empty_matchup] <> Raised e.
Proof. split; [reflexivity | intros e; discriminate]. Qed.

(** C9, as the code has it: on a matchup in which neither lineup has a
    starter (in particular no player at all), [get_starter_counts] returns
    the empty configuration and raises nothing. *)
Theorem get_starter_counts_no_starters :
  forall (i : BoxScore) (rest : list BoxScore),
    starters (home_lineup i) = [] ->
    starters (away_lineup i) = [] ->
    get_starter_counts (i :: rest) = Returned (Some []).
Proof.
  intros i rest Hh Ha. rewrite get_starter_counts_run.
  unfold tally. rewrite (fold_tally_starters (home_lineup i)).
  rewrite (fold_tally_starters (away_lineup i)), Hh, Ha.
  destruct (_ <? _)%nat; reflexivity.
Qed.

Lemma get_starter_counts_no_starters_witness :
  starters (home_lineup empty_matchup) = [] /\
  starters (away_lineup empty_matchup) = [] /\
  get_starter_counts [empty_matchup] = Returned (Some []).
Proof.
  split; [reflexivity|]. split; [reflexivity|].
  apply (get_starter_counts_no_starters empty_matchup []); reflexivity.
Defined.

(** ** Failures of the allocation *)

Lemma flex_pool_skip flexes pp :
  flex_pool flexes pp = flex_pool (filter (dict_contains pp) flexes) pp.
Proof.
  unfold flex_pool. generalize (@nil (string * Z)) as acc.
  induction flexes as [|f flexes IH]; intros acc; simpl; [reflexivity|].
  unfold dict_contains at 1.
  destruct (dict_get pp f) eqn:E; simpl; [rewrite E|]; apply IH.
Qed.

(** C10: the slot-filling statements never raise: the allocation returns for
    every roster and configuration, a position without a bucket gets the empty
    slot, [best_flex] returns and treats a listed position without a bucket as
    if it were not listed, and the only exception [optimal_lineup_score] can
    raise is the division's [ZeroDivisionError]. *)
Theorem allocation_never_raises :
  forall (lineup : list Player) (starter_counts : dict nat),
    allocate lineup starter_counts initial_locals =
      (Returned tt, allocated lineup starter_counts initial_locals) /\
    (forall e, optimal_lineup_score lineup starter_counts = Raised e ->
               e = ZeroDivisionError) /\
    (forall position n fr,
        dict_get (position_players fr) position = None ->
        fill_positions [(position, n)] fr =
        (Returned tt,
         {| best_lineup := dict_set (best_lineup fr) position [];
            position_players := position_players fr;
            score := score fr; best_score := best_score fr |})) /\
    (forall flexes num fr,
        fst (best_flex flexes num fr) =
          Returned (flex_best flexes num (player_pool fr),
                    remove_best (flex_best flexes num (player_pool fr)) (player_pool fr)) /\
        best_flex flexes num fr =
          best_flex (filter (dict_contains (player_pool fr)) flexes) num fr).
Proof.
  intros lineup starter_counts. split; [apply allocate_run|].
  split.
  { intros e. rewrite optimal_lineup_score_report. unfold score_report.
    destruct (_ =? 0); congruence. }
  split.
  { intros position n fr Hnone. rewrite fill_positions_run. simpl.
    unfold position_step. now rewrite Hnone. }
  intros flexes num fr. rewrite !best_flex_run. simpl.
  split; [reflexivity|].
  unfold flex_best. rewrite <- !flex_pool_skip. reflexivity.
Qed.

Lemma allocation_never_raises_witness :
  dict_get (position_players initial_locals) "K" = None /\
  fill_positions [("K", 1%nat)] initial_locals =
  (Returned tt,
   {| best_lineup := [("K", [])]; position_players := []; score := 0; best_score := 0 |}).
Proof.
  split; [reflexivity|].
  apply (proj1 (proj2 (proj2 (allocation_never_raises [] []))) "K" 1%nat initial_locals).
  reflexivity.
Defined.

Lemma lineup_total_all_empty (bl : dict (dict Z)) :
  Forall (fun kd => snd kd = []) bl -> lineup_total bl = 0.
Proof.
  intros Hall. unfold lineup_total.
  assert (H : forall positions acc,
             fold_left (fun acc position =>
                          match dict_get bl position with
                          | Some slot => acc + sum (dict_values slot)
                          | None => acc
                          end) positions acc = acc).
  { induction positions as [|p positions IH]; intros acc; simpl; [reflexivity|].
    rewrite IH. destruct (dict_get bl p) as [slot|] eqn:E; [|reflexivity].
    assert (Hslot : slot = []).
    { clear - Hall E. induction bl as [|[k v] bl IHbl]; simpl in *; [discriminate|].
      inversion Hall; subst. destruct (String.eqb k p); [simpl in *; congruence|auto]. }
    subst. unfold sum. simpl. lia. }
  apply H.
Qed.

Lemma all_empty_set (bl : dict (dict Z)) k :
  Forall (fun kd => snd kd = []) bl ->
  Forall (fun kd : string * dict Z => snd kd = []) (dict_set bl k []).
Proof.
  induction 1 as [|[k0 v0] bl Hx Hall IH]; simpl.
  - constructor; [reflexivity | constructor].
  - destruct (String.eqb k0 k); constructor; auto.
Qed.

Lemma flex_pool_no_buckets flexes : flex_pool flexes [] = [].
Proof.
  unfold flex_pool. induction flexes as [|f flexes IH]; simpl; auto.
Qed.

Lemma flex_step_no_buckets slot flex num fr :
  position_players fr = [] ->
  Forall (fun kd => snd kd = []) (best_lineup fr) ->
  position_players (flex_step slot flex num fr) = [] /\
  Forall (fun kd => snd kd = []) (best_lineup (flex_step slot flex num fr)).
Proof.
  intros Hpp Hbl. unfold flex_step, flex_best. rewrite Hpp, flex_pool_no_buckets.
  simpl. rewrite firstn_nil. simpl. split; [reflexivity|].
  now apply all_empty_set.
Qed.

Lemma empty_roster_allocated starter_counts :
  Forall (fun kd => snd kd = [])
    (best_lineup (allocated [] starter_counts initial_locals)).
Proof.
  unfold allocated. simpl.
  set (I := fun fr : locals =>
              position_players fr = [] /\
              Forall (fun kd => snd kd = []) (best_lineup fr)).
  assert (H0 : I initial_locals) by (split; [reflexivity | constructor]).
  assert (H1 : forall positions fr, I fr ->
             I (fold_left (fun fr position => position_step starter_counts position fr)
                  positions fr)).
  { induction positions as [|p positions IH]; intros fr Hfr; simpl; [exact Hfr|].
    apply IH. destruct Hfr as [Hpp Hbl]. unfold position_step. rewrite Hpp. simpl.
    split; [reflexivity | now apply all_empty_set]. }
  assert (H2 : forall positions fr, I fr ->
             I (fold_left (fun fr position => flexes_step starter_counts position fr)
                  positions fr)).
  { induction positions as [|p positions IH]; intros fr Hfr; simpl; [exact Hfr|].
    apply IH. unfold flexes_step. destruct (is_flex p); [|exact Hfr].
    destruct Hfr. now apply flex_step_no_buckets. }
  assert (H3 : forall slot flex fr, I fr -> I (named_step slot flex starter_counts fr)).
  { intros slot flex fr Hfr. unfold named_step.
    destruct (dict_contains starter_counts slot); [|exact Hfr].
    destruct Hfr. now apply flex_step_no_buckets. }
  apply H3, H3, H2, H1, H0.
Qed.

(** C5: when the optimal score that the code computes is zero, the call
    raises [ZeroDivisionError] (the failure named UndefinedAllocation) and
    returns no tuple; an empty roster is such an input for every
    configuration. *)
Theorem zero_optimal_score_raises :
  forall (lineup : list Player) (starter_counts : dict nat),
    (computed_best_score lineup starter_counts = 0 ->
     optimal_lineup_score lineup starter_counts = Raised ZeroDivisionError) /\
    computed_best_score [] starter_counts = 0 /\
    optimal_lineup_score [] starter_counts = Raised ZeroDivisionError.
Proof.
  intros lineup starter_counts.
  assert (Hzero : forall l, computed_best_score l starter_counts = 0 ->
                            optimal_lineup_score l starter_counts = Raised ZeroDivisionError).
  { intros l H. rewrite computed_best_score_total in H.
    rewrite optimal_lineup_score_report, H. reflexivity. }
  assert (Hempty : computed_best_score [] starter_counts = 0).
  { rewrite computed_best_score_total, optimal_lineup_allocated.
    apply lineup_total_all_empty, empty_roster_allocated. }
  split; [apply Hzero|]. split; [exact Hempty | now apply Hzero].
Qed.

Lemma zero_optimal_score_raises_witness :
  computed_best_score [] [("QB", 1%nat); ("RB/WR/TE", 1%nat)] = 0 /\
  optimal_lineup_score [] [("QB", 1%nat); ("RB/WR/TE", 1%nat)] = Raised ZeroDivisionError.
Proof.
  split; [reflexivity|].
  apply (proj1 (zero_optimal_score_raises [] [("QB", 1%nat); ("RB/WR/TE", 1%nat)])).
  reflexivity.
Defined.

(** ** Projections are not read *)

Lemma collect_step_same_realized p q fr :
  same_realized p q -> collect_step p fr = collect_step q fr.
Proof.
  intros (Hn & Hp & Hs & Hpts).
  unfold collect_step, add_player, is_starter. now rewrite Hn, Hp, Hs, Hpts.
Qed.

(** C8: two rosters that agree, player by player, on name, position, slot
    and points get the same result, whatever their projections and game
    clocks. *)
Theorem optimal_lineup_score_ignores_projections :
  forall (starter_counts : dict nat) (lineup1 lineup2 : list Player),
    Forall2 same_realized lineup1 lineup2 ->
    optimal_lineup_score lineup1 starter_counts =
    optimal_lineup_score lineup2 starter_counts.
Proof.
  intros starter_counts lineup1 lineup2 H.
  unfold optimal_lineup_score, bind. rewrite !allocate_run. unfold allocated.
  assert (Hfold : forall fr,
             fold_left (fun fr player => collect_step player fr) lineup1 fr =
             fold_left (fun fr player => collect_step player fr) lineup2 fr).
  { induction H as [|p q l1 l2 Hpq Hrest IH]; intros fr; simpl; [reflexivity|].
    rewrite (collect_step_same_realized p q fr Hpq). apply IH. }
  now rewrite Hfold.
Qed.

(** ** Conservation *)

(** C6: with unique player names, no name occurs twice among the players
    assigned to the slots of the optimal lineup (not within a slot, not in
    two slots), every assigned entry is a player of the roster with its
    points, and the optimal score is the sum of the assigned entries, each
    counted once. *)
Theorem each_player_in_one_slot :
  forall (lineup : list Player) (starter_counts : dict nat),
    NoDup (map name lineup) ->
    NoDup (dict_keys (optimal_lineup lineup starter_counts)) /\
    NoDup (map fst (assigned (optimal_lineup lineup starter_counts))) /\
    incl (assigned (optimal_lineup lineup starter_counts)) (map player_item lineup) /\
    computed_best_score lineup starter_counts =
      sum (map snd (assigned (optimal_lineup lineup starter_counts))).
Proof.
  intros lineup starter_counts Hnd.
  pose proof (allocated_ok lineup starter_counts Hnd) as (Hbl & Hpp & Hnames).
  pose proof (allocated_items lineup starter_counts Hnd) as Hit.
  rewrite computed_best_score_total, optimal_lineup_allocated.
  split; [exact Hbl|]. split.
  - rewrite <- all_names_assigned. apply count_le_1_NoDup.
    intros x. pose proof (Hnames x). lia.
  - split; [|now apply lineup_total_assigned].
    intros kv Hin. unfold assigned in Hin. apply in_concat in Hin.
    destruct Hin as (b & Hb & Hkv). apply in_map_iff in Hb.
    destruct Hb as ([k b'] & <- & Hb). simpl in Hkv.
    apply (Hit k). left. unfold bucket_of.
    now rewrite (dict_In_get _ _ _ Hbl Hb).
Qed.

(** ** Scenario A *)

Lemma Permutation_three {A} (l : list A) a b c :
  Permutation l [a; b; c] ->
  l = [a; b; c] \/ l = [a; c; b] \/ l = [b; a; c] \/
  l = [b; c; a] \/ l = [c; a; b] \/ l = [c; b; a].
Proof.
  intros H. pose proof (Permutation_length H) as Hlen.
  destruct l as [|x [|y [|z [|? ?]]]]; try discriminate.
  assert (Hx : In x [a; b; c]) by (apply (Permutation_in _ H); now left).
  destruct Hx as [Hx|[Hx|[Hx|[]]]]; subst x.
  - apply Permutation_cons_inv in H.
    apply Permutation_length_2_inv in H. destruct H as [H|H]; inversion H; auto.
  - assert (H' : Permutation (b :: [y; z]) (b :: [a; c])).
    { rewrite H. apply perm_swap. }
    apply Permutation_cons_inv in H'.
    apply Permutation_length_2_inv in H'. destruct H' as [H'|H']; inversion H'; auto 6.
  - assert (H' : Permutation (c :: [y; z]) (c :: [a; b])).
    { rewrite H. symmetry. apply (Permutation_cons_append [a; b] c). }
    apply Permutation_cons_inv in H'.
    apply Permutation_length_2_inv in H'. destruct H' as [H'|H']; inversion H'; auto 7.
Qed.

(** C2: a roster of one quarterback with 12 points and two running backs
    with 10 and 8 points (distinct names, any order, any declared slots),
    under the configuration QB 1, RB 1, RB/WR/TE 1: the quarterback fills QB,
    the 10-point back RB, the 8-point back the flex slot; the optimal score
    is 30 and the returned tuple compares the actual score with it. *)
Theorem scenario_A_optimal_is_30 :
  forall (n1 n2 n3 s1 s2 s3 : string) (j1 j2 j3 g1 g2 g3 : Z) (lineup : list Player),
    n2 <> n3 ->
    Permutation lineup
      [ {| name := n1; position := "QB"; slot_position := s1; points := 12;
           projected_points := j1; game_played := g1 |};
        {| name := n2; position := "RB"; slot_position := s2; points := 10;
           projected_points := j2; game_played := g2 |};
        {| name := n3; position := "RB"; slot_position := s3; points := 8;
           projected_points := j3; game_played := g3 |} ] ->
    optimal_lineup lineup scenario_A_counts =
      [("QB", [(n1, 12)]); ("RB", [(n2, 10)]); ("RB/WR/TE", [(n3, 8)])] /\
    optimal_lineup_score lineup scenario_A_counts =
      Returned (30, actual_score lineup, 30 - actual_score lineup,
                (inject_Z (actual_score lineup) / inject_Z 30 * inject_Z 100)%Q).
Proof.
  intros n1 n2 n3 s1 s2 s3 j1 j2 j3 g1 g2 g3 lineup Hne Hperm.
  assert (E23 : String.eqb n2 n3 = false) by now apply String.eqb_neq.
  assert (E32 : String.eqb n3 n2 = false) by (apply String.eqb_neq; congruence).
  assert (Hol : optimal_lineup lineup scenario_A_counts =
                [("QB", [(n1, 12)]); ("RB", [(n2, 10)]); ("RB/WR/TE", [(n3, 8)])]).
  { rewrite optimal_lineup_allocated. unfold allocated, scenario_A_counts.
    destruct (Permutation_three _ _ _ _ Hperm) as [-> | [-> | [-> | [-> | [-> | ->]]]]];
      cbn; rewrite ?E23, ?E32, ?String.eqb_refl; cbn;
      rewrite ?E23, ?E32, ?String.eqb_refl; cbn; reflexivity. }
  split; [exact Hol|].
  rewrite optimal_lineup_score_report, Hol. reflexivity.
Qed.

(** ** Partial fill *)

(** A slot that asks for more players than there are does not make the call
    return: with one scoreless running back for two places the division by
    the optimal score 0 raises. *)
Lemma short_slot_can_raise :
  (List.length (position_items "RB" scenario_B_scoreless) <
   count_of scenario_B_counts "RB")%nat /\
  optimal_lineup_score scenario_B_scoreless scenario_B_counts = Raised ZeroDivisionError.
Proof. split; [vm_compute; lia | reflexivity]. Qed.

(** C4, as the code has it: filling the slots raises nothing; a position
    slot whose count is at least the number of players of that position holds
    all of them; [best_flex] asked for at least as many players as its pool
    has returns the whole pool, which holds exactly the remaining players of
    the listed positions; and the call returns the tuple whose optimal score
    is the sum over the assigned players, unless that sum is zero. *)
Theorem partial_fill :
  forall (lineup : list Player) (starter_counts : dict nat),
    NoDup (map name lineup) ->
    NoDup (dict_keys starter_counts) ->
    allocate lineup starter_counts initial_locals =
      (Returned tt, allocated lineup starter_counts initial_locals) /\
    (forall slot n,
        dict_get starter_counts slot = Some n ->
        is_flex slot = false -> slot <> "OP" -> slot <> "DP" ->
        (List.length (position_items slot lineup) <= n)%nat ->
        dict_get (optimal_lineup lineup starter_counts) slot =
        Some (sorted_desc (position_items slot lineup))) /\
    (forall flexes num fr,
        (List.length (flex_pool flexes (player_pool fr)) <= num)%nat ->
        fst (best_flex flexes num fr) =
          Returned (sorted_desc (flex_pool flexes (player_pool fr)),
                    remove_best (sorted_desc (flex_pool flexes (player_pool fr)))
                      (player_pool fr)) /\
        forall x, In x (dict_keys (flex_pool flexes (player_pool fr))) <->
                  exists q, In q flexes /\ In x (dict_keys (bucket_of (player_pool fr) q))) /\
    optimal_lineup_score lineup starter_counts =
      score_report (sum (map snd (assigned (optimal_lineup lineup starter_counts))))
                   (actual_score lineup).
Proof.
  intros lineup starter_counts Hnd Hsc.
  split; [apply allocate_run|]. split; [|split].
  - intros slot n Hn Hflex HOP HDP Hlen.
    rewrite optimal_lineup_allocated.
    rewrite optimal_lineup_position; try assumption.
    + unfold count_of. rewrite Hn. rewrite firstn_all2; [reflexivity|].
      now rewrite (Permutation_length (sorted_desc_perm _)).
    + apply dict_get_keys. eauto.
  - intros flexes num fr Hlen. split; [|apply flex_pool_keys_in].
    rewrite best_flex_run. simpl. rewrite flex_best_ranked.
    rewrite firstn_all2; [reflexivity|].
    now rewrite (Permutation_length (sorted_desc_perm _)).
  - rewrite optimal_lineup_score_report. f_equal.
    apply lineup_total_assigned. rewrite optimal_lineup_allocated.
    now apply allocated_ok.
Qed.

(** ** Monotonicity *)

Lemma position_items_raised q lineup1 lineup2 :
  Forall2 (fun a b => position a = position b /\ points a <= points b) lineup1 lineup2 ->
  Forall2 Z.le (dict_values (position_items q lineup1))
               (dict_values (position_items q lineup2)).
Proof.
  unfold position_items.
  induction 1 as [|a b l1 l2 [Hpos Hpts] H IH]; simpl; [constructor|].
  rewrite <- Hpos. destruct (String.eqb (position a) q); simpl; [|exact IH].
  constructor; [exact Hpts | exact IH].
Qed.

Lemma raised_lineups before player after v :
  points player < v ->
  Forall2 (fun a b => position a = position b /\ points a <= points b)
    (before ++ player :: after) (before ++ with_points player v :: after).
Proof.
  intros Hv.
  assert (Hrefl : forall l : list Player,
             Forall2 (fun a b => position a = position b /\ points a <= points b) l l).
  { induction l; constructor; auto. split; [reflexivity | lia]. }
  apply Forall2_app; [apply Hrefl|].
  constructor; [|apply Hrefl]. simpl. split; [reflexivity | lia].
Qed.

(** With two flex slots that share a position, more points for one player
    can lower the optimal score: 6 + 5 = 11 becomes 7. *)
Lemma raising_points_can_lower_optimal :
  points overlap_wr < 7 /\
  optimal_lineup_score [overlap_rb; overlap_wr] overlap_counts =
    Returned (11, 11, 0, (inject_Z 11 / inject_Z 11 * inject_Z 100)%Q) /\
  optimal_lineup_score [overlap_rb; with_points overlap_wr 7] overlap_counts =
    Returned (7, 13, -6, (inject_Z 13 / inject_Z 7 * inject_Z 100)%Q) /\
  ~ (computed_best_score [overlap_rb; overlap_wr] overlap_counts <=
     computed_best_score [overlap_rb; with_points overlap_wr 7] overlap_counts).
Proof.
  split; [reflexivity|]. split; [reflexivity|]. split; [reflexivity|].
  vm_compute. intros H. apply H. reflexivity.
Qed.

(** C7, as the code has it: when the players' names are unique and no
    position is listed twice among the positions the flex slots draw from,
    giving one player more points does not lower the optimal score, neither
    the score computed before the division nor the one in the returned
    tuples. *)
Theorem raising_points_keeps_optimal :
  forall (before after : list Player) (player : Player) (v : Z)
         (starter_counts : dict nat),
    NoDup (map name (before ++ player :: after)) ->
    NoDup (eligible_positions starter_counts) ->
    points player < v ->
    computed_best_score (before ++ player :: after) starter_counts <=
    computed_best_score (before ++ with_points player v :: after) starter_counts /\
    forall o1 a1 d1 p1 o2 a2 d2 p2,
      optimal_lineup_score (before ++ player :: after) starter_counts =
        Returned (o1, a1, d1, p1) ->
      optimal_lineup_score (before ++ with_points player v :: after) starter_counts =
        Returned (o2, a2, d2, p2) ->
      o1 <= o2.
Proof.
  intros before after player v starter_counts Hnd Hdisj Hv.
  assert (Hle : computed_best_score (before ++ player :: after) starter_counts <=
                computed_best_score (before ++ with_points player v :: after)
                  starter_counts).
  { rewrite !computed_best_score_total, !optimal_lineup_allocated.
    apply (simulates_allocated dominated dominated_nil dominated_app
             (fun u p n => dominated_top u p n) (fun u p n => dominated_rest u p n)).
    - exact Hnd.
    - rewrite map_app in *. exact Hnd.
    - exact Hdisj.
    - intros q. exists (dict_values (position_items q
                                       (before ++ with_points player v :: after))).
      split; [reflexivity|]. now apply position_items_raised, raised_lineups. }
  split; [exact Hle|].
  intros o1 a1 d1 p1 o2 a2 d2 p2.
  rewrite !optimal_lineup_score_report, <- !computed_best_score_total.
  unfold score_report.
  destruct (_ =? 0); [discriminate|]. destruct (_ =? 0); [discriminate|].
  intros [= <- _ _ _] [= <- _ _ _]. exact Hle.
Qed.

(** ** Optimal and actual score *)

Lemma actual_score_starters lineup :
  actual_score lineup = sum (map points (starters lineup)).
Proof.
  unfold actual_score, starters.
  assert (H : forall acc,
             fold_left (fun acc player =>
                          if is_starter player then acc + points player else acc)
                       lineup acc =
             acc + sum (map points (filter is_starter lineup))).
  { induction lineup as [|p lineup IH]; intros acc; simpl.
    - unfold sum. simpl. lia.
    - rewrite IH. destruct (is_starter p); simpl; [rewrite sum_cons|]; lia. }
  rewrite H. lia.
Qed.

Lemma NoDup_map_filter {A B} (f : A -> B) (g : A -> bool) l :
  NoDup (map f l) -> NoDup (map f (filter g l)).
Proof.
  induction l as [|x l IH]; simpl; intros H; [constructor|].
  inversion H as [|? ? Hx Hl]; subst. destruct (g x); simpl; [|auto].
  constructor; [|auto]. intros Hin. apply Hx.
  apply in_map_iff in Hin. destruct Hin as (y & E & Hy).
  apply filter_In in Hy. apply in_map_iff. exists y. tauto.
Qed.

Lemma position_items_partition q (g : Player -> bool) lineup :
  Permutation (position_items q lineup)
    (position_items q (filter g lineup) ++
     position_items q (filter (fun p => negb (g p)) lineup)).
Proof.
  unfold position_items. induction lineup as [|p lineup IH]; simpl; [constructor|].
  destruct (g p) eqn:Eg, (String.eqb (position p) q) eqn:Eq; simpl; rewrite ?Eq; simpl;
    auto.
  rewrite IH. apply Permutation_middle.
Qed.

Lemma starters_covered q lineup :
  Forall (fun p => 0 <= points p) lineup ->
  covered (dict_values (position_items q (starters lineup)))
          (dict_values (position_items q lineup)).
Proof.
  intros Hpos. split.
  - unfold position_items, dict_values. rewrite map_map. apply Forall_map.
    simpl. apply Forall_forall. intros p Hp. apply filter_In in Hp.
    rewrite Forall_forall in Hpos. apply Hpos, Hp.
  - exists (dict_values (position_items q (starters lineup))),
           (dict_values (position_items q (filter (fun p => negb (is_starter p)) lineup))).
    split.
    + unfold dict_values. rewrite <- map_app. apply Permutation_map.
      apply position_items_partition.
    + clear. induction (dict_values _); constructor; auto. lia.
Qed.


Lemma sum_le_abs l : sum l <= sum (map Z.abs l).
Proof.
  induction l as [|x l IH]; simpl; [apply Z.le_refl|].
  rewrite !sum_cons. lia.
Qed.

Lemma sum_incl_le (l m : dict Z) :
  NoDup (map fst l) -> incl l m -> Forall (fun kv => 0 <= snd kv) m ->
  sum (map snd l) <= sum (map snd m).
Proof.
  revert m. induction l as [|x l IH]; intros m Hnd Hincl Hpos.
  - simpl. apply sum_nonneg. apply Forall_forall. intros y Hy.
    apply in_map_iff in Hy. destruct Hy as (kv & <- & Hkv).
    now apply (proj1 (Forall_forall _ _) Hpos).
  - inversion Hnd as [|? ? Hx Hl]; subst.
    destruct (in_split x m (Hincl x (or_introl eq_refl))) as (m1 & m2 & ->).
    assert (Hpos' : Forall (fun kv => 0 <= snd kv) (m1 ++ m2)).
    { apply Forall_forall. intros y Hy. apply (proj1 (Forall_forall _ _) Hpos).
      apply in_app_or in Hy. apply in_or_app. destruct Hy; [now left | right; now right]. }
    assert (Hincl' : incl l (m1 ++ m2)).
    { intros y Hy. pose proof (Hincl y (or_intror Hy)) as Hin.
      apply in_app_or in Hin. apply in_or_app.
      destruct Hin as [Hin | [<- | Hin]]; [now left | | now right].
      exfalso. apply Hx. now apply in_map. }
    specialize (IH _ Hl Hincl' Hpos').
    cbn [map]. rewrite !map_app in *. cbn [map]. rewrite sum_cons, !sum_app in *.
    rewrite sum_cons. lia.
Qed.


(** ** The theorems at concrete rosters *)

Lemma distinct_NoDup names : distinct names = true -> NoDup names.
Proof.
  induction names as [|x names IH]; simpl; intros H; [constructor|].
  apply andb_true_iff in H. destruct H as [Hx Hrest].
  constructor; [|auto]. now apply mem_false, negb_true_iff.
Qed.


Lemma scenario_A_optimal_is_30_witness :
  "rb1" <> "rb2" /\
  optimal_lineup
    [ {| name := "qb"; position := "QB"; slot_position := "QB"; points := 12;
         projected_points := 15; game_played := 100 |};
      {| name := "rb1"; position := "RB"; slot_position := "BE"; points := 10;
         projected_points := 9; game_played := 100 |};
      {| name := "rb2"; position := "RB"; slot_position := "RB"; points := 8;
         projected_points := 7; game_played := 100 |} ]
    scenario_A_counts =
  [("QB", [("qb", 12)]); ("RB", [("rb1", 10)]); ("RB/WR/TE", [("rb2", 8)])].
Proof.
  assert (H : "rb1" <> "rb2") by (apply String.eqb_neq; reflexivity).
  split; [exact H|].
  exact (proj1 (scenario_A_optimal_is_30 "qb" "rb1" "rb2" "QB" "BE" "RB"
                  15 9 7 100 100 100 _ H (Permutation_refl _))).
Defined.

Lemma partial_fill_witness :
  NoDup (map name scenario_B) /\
  NoDup (dict_keys scenario_B_counts) /\
  dict_get scenario_B_counts "RB" = Some 2%nat /\
  (List.length (position_items "RB" scenario_B) <= 2)%nat /\
  dict_get (optimal_lineup scenario_B scenario_B_counts) "RB" = Some [("rb", 7)].
Proof.
  assert (H1 : NoDup (map name scenario_B)) by (apply distinct_NoDup; reflexivity).
  assert (H2 : NoDup (dict_keys scenario_B_counts)) by (apply distinct_NoDup; reflexivity).
  assert (H3 : (List.length (position_items "RB" scenario_B) <= 2)%nat)
    by (vm_compute; lia).
  split; [exact H1|]. split; [exact H2|]. split; [reflexivity|]. split; [exact H3|].
  apply (proj1 (proj2 (partial_fill scenario_B scenario_B_counts H1 H2)) "RB" 2%nat).
  - reflexivity.
  - reflexivity.
  - intros E. discriminate E.
  - intros E. discriminate E.
  - exact H3.
Defined.

Lemma each_player_in_one_slot_witness :
  NoDup (map name bench_lineup) /\
  NoDup (map fst (assigned (optimal_lineup bench_lineup scenario_A_counts))).
Proof.
  assert (H : NoDup (map name bench_lineup)) by (apply distinct_NoDup; reflexivity).
  split; [exact H|].
  exact (proj1 (proj2 (each_player_in_one_slot bench_lineup scenario_A_counts H))).
Defined.

Lemma raising_points_keeps_optimal_witness :
  NoDup (map name bench_lineup) /\
  NoDup (eligible_positions scenario_A_counts) /\
  8 < 20 /\
  computed_best_score bench_lineup scenario_A_counts <=
  computed_best_score
    [ {| name := "qb"; position := "QB"; slot_position := "QB"; points := 12;
         projected_points := 15; game_played := 100 |};
      {| name := "rb1"; position := "RB"; slot_position := "RB"; points := 20;
         projected_points := 9; game_played := 100 |};
      {| name := "rb2"; position := "RB"; slot_position := "RB/WR/TE"; points := 10;
         projected_points := 7; game_played := 100 |};
      {| name := "wr"; position := "WR"; slot_position := "BE"; points := 11;
         projected_points := 6; game_played := 100 |} ]
    scenario_A_counts.
Proof.
  assert (H1 : NoDup (map name bench_lineup)) by (apply distinct_NoDup; reflexivity).
  assert (H2 : NoDup (eligible_positions scenario_A_counts))
    by (apply distinct_NoDup; reflexivity).
  assert (H3 : 8 < 20) by lia.
  split; [exact H1|]. split; [exact H2|]. split; [exact H3|].
  exact (proj1 (raising_points_keeps_optimal
                  [ {| name := "qb"; position := "QB"; slot_position := "QB";
                       points := 12; projected_points := 15; game_played := 100 |} ]
                  [ {| name := "rb2"; position := "RB"; slot_position := "RB/WR/TE";
                       points := 10; projected_points := 7; game_played := 100 |};
                    {| name := "wr"; position := "WR"; slot_position := "BE";
                       points := 11; projected_points := 6; game_played := 100 |} ]
                  {| name := "rb1"; position := "RB"; slot_position := "RB";
                     points := 8; projected_points := 9; game_played := 100 |}
                  20 scenario_A_counts H1 H2 H3)).
Defined.

Lemma optimal_lineup_score_ignores_projections_witness :
  Forall2 same_realized bench_lineup
    (map (fun p => {| name := name p; position := position p;
                      slot_position := slot_position p; points := points p;
                      projected_points := 0; game_played := 0 |}) bench_lineup) /\
  optimal_lineup_score bench_lineup scenario_A_counts =
  optimal_lineup_score
    (map (fun p => {| name := name p; position := position p;
                      slot_position := slot_position p; points := points p;
                      projected_points := 0; game_played := 0 |}) bench_lineup)
    scenario_A_counts.
Proof.
  assert (H : Forall2 same_realized bench_lineup
                (map (fun p => {| name := name p; position := position p;
                                  slot_position := slot_position p; points := points p;
                                  projected_points := 0; game_played := 0 |})
                     bench_lineup))
    by (repeat constructor).
  split; [exact H|].
  exact (optimal_lineup_score_ignores_projections scenario_A_counts _ _ H).
Defined.

(** * The code around the allocation *)

(** ** Projected totals and finished lineups *)

Lemma get_projected_total_sum lineup :
  get_projected_total lineup = sum (map projected_of lineup).
Proof.
  unfold get_projected_total.
  assert (H : forall acc,
             fold_left (fun total_projected i =>
               if negb (String.eqb (slot_position i) "BE") &&
                  negb (String.eqb (slot_position i) "IR")
               then if negb (points i =? 0) || (0 <? game_played i)
                    then total_projected + points i
                    else total_projected + projected_points i
               else total_projected) lineup acc =
             acc + sum (map projected_of lineup)).
  { induction lineup as [|i lineup IH]; intros acc; simpl.
    - unfold sum. simpl. lia.
    - rewrite IH, sum_cons. unfold projected_of, is_starter.
      destruct (negb (slot_position i =? "BE")%string &&
                negb (slot_position i =? "IR")%string);
        [destruct (negb (points i =? 0) || (0 <? game_played i))|]; lia. }
  now rewrite H.
Qed.

Lemma all_played_spec lineup :
  all_played lineup = true <-> forallb (fun i => negb (still_playing i)) lineup = true.
Proof.
  induction lineup as [|i lineup IH]; simpl; [tauto|].
  unfold still_playing at 1, is_starter.
  destruct (negb (slot_position i =? "BE")%string &&
            negb (slot_position i =? "IR")%string && (game_played i <? 100)); simpl.
  - split; discriminate.
  - exact IH.
Qed.

Lemma projected_of_starters lineup :
  sum (map projected_of lineup) = sum (map projected_of (starters lineup)).
Proof.
  unfold starters.
  induction lineup as [|i lineup IH]; simpl; [reflexivity|].
  destruct (is_starter i) eqn:E; simpl; rewrite !sum_cons, ?IH; [reflexivity|].
  unfold projected_of. rewrite E. lia.
Qed.

(** X1: once every starter of a lineup has finished their game, the projected
    total of the lineup is its actual score: no projection enters it. *)
Theorem get_projected_total_all_played :
  forall lineup : list Player,
    all_played lineup = true ->
    get_projected_total lineup = actual_score lineup.
Proof.
  intros lineup H. apply all_played_spec in H.
  rewrite get_projected_total_sum, actual_score_starters, projected_of_starters.
  f_equal. unfold starters.
  induction lineup as [|i lineup IH]; simpl in *; [reflexivity|].
  apply andb_true_iff in H. destruct H as [Hi H].
  destruct (is_starter i) eqn:E; simpl; [|now apply IH].
  f_equal; [|now apply IH].
  unfold projected_of, still_playing in *. rewrite E in *. simpl in Hi.
  apply negb_true_iff, Z.ltb_ge in Hi.
  assert (G : (0 <? game_played i) = true) by (apply Z.ltb_lt; lia).
  rewrite G, orb_true_r. reflexivity.
Qed.

Lemma get_projected_total_all_played_witness :
  all_played (home_lineup scenario_D) = true /\
  get_projected_total (home_lineup scenario_D) = actual_score (home_lineup scenario_D).
Proof.
  split; [reflexivity | apply get_projected_total_all_played; reflexivity].
Defined.

(** X2: the projected total depends on the starters only: two lineups with
    the same starters in the same order have the same projected total,
    whoever is on the bench or on injured reserve and whatever those players
    scored.  The code then adds the same values in the same order, so this
    holds of its floats as it stands. *)
Theorem get_projected_total_starters_only :
  forall lineup lineup' : list Player,
    starters lineup = starters lineup' ->
    get_projected_total lineup = get_projected_total lineup'.
Proof.
  assert (H : forall lineup acc,
             fold_left (fun total_projected i =>
               if negb (String.eqb (slot_position i) "BE") &&
                  negb (String.eqb (slot_position i) "IR")
               then if negb (points i =? 0) || (0 <? game_played i)
                    then total_projected + points i
                    else total_projected + projected_points i
               else total_projected) lineup acc =
             fold_left (fun total_projected i =>
               if negb (String.eqb (slot_position i) "BE") &&
                  negb (String.eqb (slot_position i) "IR")
               then if negb (points i =? 0) || (0 <? game_played i)
                    then total_projected + points i
                    else total_projected + projected_points i
               else total_projected) (starters lineup) acc).
  { unfold starters, is_starter.
    induction lineup as [|i lineup IH]; intros acc; cbn [fold_left filter]; [reflexivity|].
    destruct (negb (slot_position i =? "BE")%string &&
              negb (slot_position i =? "IR")%string) eqn:E.
    - cbn [fold_left]. rewrite E. apply IH.
    - apply IH. }
  intros lineup lineup' Hs. unfold get_projected_total.
  now rewrite (H lineup), (H lineup'), Hs.
Qed.

Lemma get_projected_total_starters_only_witness :
  starters bench_lineup = starters (firstn 3 bench_lineup) /\
  get_projected_total bench_lineup = get_projected_total (firstn 3 bench_lineup).
Proof.
  split; [reflexivity | apply get_projected_total_starters_only; reflexivity].
Defined.

(** ** Close scores *)

Lemma close_scores_loop format_score box_scores :
  forall score,
    (forall e,
        for_result box_scores
          (fun score i =>
             if is_team (away_team i) then
               if close_game i then
                 h <~ attribute team_abbrev (home_team i) ;;
                 a <~ attribute team_abbrev (away_team i) ;;
                 Ok (score ++ [format_score h (home_projected i) (away_projected i) a])
               else Ok score
             else Ok score) score = Fail e ->
        exists i, In i box_scores /\ reported i = true /\ home_team i = no_team) /\
    (forall score',
        for_result box_scores
          (fun score i =>
             if is_team (away_team i) then
               if close_game i then
                 h <~ attribute team_abbrev (home_team i) ;;
                 a <~ attribute team_abbrev (away_team i) ;;
                 Ok (score ++ [format_score h (home_projected i) (away_projected i) a])
               else Ok score
             else Ok score) score = Ok score' ->
        score' = score ++ map (close_line format_score) (filter reported box_scores)).
Proof.
  induction box_scores as [|i box_scores IH]; intros score.
  - split; simpl; [discriminate|]. intros score' [= <-]. now rewrite app_nil_r.
  - cbn [for_result filter].
    assert (Er : reported i = is_team (away_team i) && close_game i) by reflexivity.
    rewrite Er.
    destruct (away_team i) as [|a] eqn:Ea; cbn [is_team andb and_then].
    + destruct (IH score) as [IHf IHo]. split.
      * intros e He. destruct (IHf e He) as (j & Hj & Hr). exists j. split; [now right | exact Hr].
      * exact IHo.
    + destruct (close_game i) eqn:Ec; cbn [and_then].
      * destruct (home_team i) as [|h] eqn:Eh; cbn [attribute and_then abbrev_of].
        -- split; [|discriminate]. intros e _. exists i.
           split; [now left|]. split; [|exact Eh]. unfold reported. now rewrite Ea, Ec.
        -- destruct (IH (score ++ [format_score (team_abbrev h) (home_projected i)
                                     (away_projected i) (team_abbrev a)])) as [IHf IHo].
           split.
           ++ intros e He. destruct (IHf e He) as (j & Hj & Hr). exists j.
              split; [now right | exact Hr].
           ++ intros score' H. rewrite (IHo score' H), <- app_assoc.
              cbn [map app]. unfold close_line. rewrite Ea, Eh. reflexivity.
      * destruct (IH score) as [IHf IHo]. split.
        -- intros e He. destruct (IHf e He) as (j & Hj & Hr). exists j.
           split; [now right | exact Hr].
        -- exact IHo.
Qed.

Lemma filter_nil_none {A} (f : A -> bool) l :
  filter f l = [] <-> forall x, In x l -> f x = false.
Proof.
  induction l as [|y l IH]; simpl.
  - split; [intros _ x [] | reflexivity].
  - destruct (f y) eqn:E.
    + split; [discriminate|]. intros H. rewrite (H y) in E; [discriminate | now left].
    + rewrite IH. split.
      * intros H x [<- | Hx]; [exact E | now apply H].
      * intros H x Hx. apply H. now right.
Qed.

(** X3: [get_close_scores] returns the empty string exactly when it lists no
    matchup: every matchup is a bye or fails the test of line 309. *)
Theorem get_close_scores_empty_iff :
  forall (format_score : string -> Z -> Z -> string -> string)
         (box_scores : list Matchup),
    get_close_scores format_score box_scores = Ok EmptyString <->
    forall i, In i box_scores -> reported i = false.
Proof.
  intros format_score box_scores. unfold get_close_scores.
  destruct (close_scores_loop format_score box_scores []) as [Hf Ho].
  rewrite <- filter_nil_none.
  destruct (for_result box_scores _ []) as [score|e]; cbn [and_then].
  - rewrite (Ho score eq_refl). cbn [app].
    destruct (filter reported box_scores) as [|i l]; cbn [map].
    + tauto.
    + split; [|discriminate]. simpl. destruct (map _ l); discriminate.
  - split; [discriminate|]. intros H.
    destruct (Hf e eq_refl) as (i & Hi & Hr & _).
    rewrite (proj1 (filter_nil_none _ _) H i Hi) in Hr. discriminate.
Qed.

(** X4: when every listed matchup has a home team, [get_close_scores]
    returns; with something to list the text is the heading followed by one
    line per listed matchup, in the order of the box scores. *)
Theorem get_close_scores_lines :
  forall (format_score : string -> Z -> Z -> string -> string)
         (box_scores : list Matchup),
    (forall i, In i box_scores -> reported i = true -> is_team (home_team i) = true) ->
    get_close_scores format_score box_scores =
    Ok (match filter reported box_scores with
        | [] => EmptyString
        | _ :: _ =>
            join newline
              ("Projected Close Scores" ::
               map (close_line format_score) (filter reported box_scores))
        end).
Proof.
  intros format_score box_scores H. unfold get_close_scores.
  destruct (close_scores_loop format_score box_scores []) as [Hf Ho].
  destruct (for_result box_scores _ []) as [score|e]; cbn [and_then].
  - rewrite (Ho score eq_refl). cbn [app].
    destruct (filter reported box_scores); reflexivity.
  - destruct (Hf e eq_refl) as (i & Hi & Hr & Hh).
    specialize (H i Hi Hr). rewrite Hh in H. discriminate.
Qed.

Lemma get_close_scores_lines_witness :
  get_close_scores example_format_score [finished_matchup; bye_matchup; running_matchup] =
  Ok (join newline ["Projected Close Scores"; "ALP - BRV"]).
Proof.
  apply (get_close_scores_lines example_format_score
           [finished_matchup; bye_matchup; running_matchup]).
  intros i [<- | [<- | [<- | []]]] _; reflexivity.
Defined.

(** X5: a matchup is never listed once both of its lineups have finished, nor
    when the side behind in the projection has finished, nor when the
    projections are eleven or more points apart. *)
Theorem close_game_needs_open_chase :
  forall i : Matchup,
    close_game i = true ->
    Z.abs (get_projected_total (away_lineup (box i)) -
           get_projected_total (home_lineup (box i))) < 11 /\
    ((get_projected_total (away_lineup (box i)) <=
      get_projected_total (home_lineup (box i)) /\
      exists p, In p (away_lineup (box i)) /\ still_playing p = true) \/
     (get_projected_total (home_lineup (box i)) <=
      get_projected_total (away_lineup (box i)) /\
      exists p, In p (home_lineup (box i)) /\ still_playing p = true)).
Proof.
  intros i H. unfold close_game in H.
  assert (Hopen : forall l, negb (all_played l) = true ->
                            exists p, In p l /\ still_playing p = true).
  { intros l Hl. apply negb_true_iff in Hl.
    destruct (forallb (fun p => negb (still_playing p)) l) eqn:E.
    - apply all_played_spec in E. congruence.
    - clear Hl. induction l as [|p l IH]; simpl in E; [discriminate|].
      destruct (still_playing p) eqn:Ep.
      + exists p. split; [now left | exact Ep].
      + destruct (IH E) as (q & Hq & Hs). exists q. split; [now right | exact Hs]. }
  apply orb_true_iff in H.
  destruct H as [H | H]; apply andb_true_iff in H; destruct H as [H Hp];
    apply andb_true_iff in H; destruct H as [H1 H2];
    apply Hopen in Hp.
  - apply Z.ltb_lt in H1. apply Z.leb_le in H2. split; [lia|]. left. split; [lia | exact Hp].
  - apply Z.leb_le in H1. apply Z.ltb_lt in H2. split; [lia|]. right. split; [lia | exact Hp].
Qed.

Lemma close_game_needs_open_chase_witness :
  Z.abs (get_projected_total (away_lineup (box running_matchup)) -
         get_projected_total (home_lineup (box running_matchup))) < 11.
Proof.
  apply (close_game_needs_open_chase running_matchup). reflexivity.
Defined.

(** ** Sorting by a key *)

Lemma insert_by_perm {A} (leb : A -> A -> bool) x l :
  Permutation (insert_by leb x l) (x :: l).
Proof.
  induction l as [|y l IH]; simpl; [reflexivity|].
  destruct (leb y x); [reflexivity|].
  rewrite IH. apply perm_swap.
Qed.

Lemma sorted_by_perm {A} (leb : A -> A -> bool) l : Permutation (sorted_by leb l) l.
Proof.
  induction l as [|x l IH]; simpl; [reflexivity|].
  rewrite insert_by_perm. now constructor.
Qed.

Section SortedBy.
Context {A : Type} (leb : A -> A -> bool).
Hypothesis leb_total : forall x y, leb x y = true \/ leb y x = true.
Hypothesis leb_trans : forall x y z, leb x y = true -> leb y z = true -> leb x z = true.

Lemma insert_by_descending x l :
  descending_by leb l -> descending_by leb (insert_by leb x l).
Proof.
  induction l as [|y l IH]; simpl.
  - intros _. split; [constructor | exact I].
  - intros [Hy Hl]. destruct (leb y x) eqn:E; simpl.
    + split; [|split; assumption]. constructor; [exact E|].
      apply Forall_forall. intros z Hz.
      apply (leb_trans z y x); [|exact E].
      now apply (proj1 (Forall_forall _ _) Hy).
    + split; [|now apply IH].
      apply Forall_forall. intros z Hz.
      apply (Permutation_in _ (insert_by_perm leb x l)) in Hz.
      destruct Hz as [<- | Hz].
      * destruct (leb_total x y) as [H | H]; [exact H | congruence].
      * now apply (proj1 (Forall_forall _ _) Hy).
Qed.

Lemma sorted_by_descending l : descending_by leb (sorted_by leb l).
Proof.
  induction l as [|x l IH]; simpl; [exact I | now apply insert_by_descending].
Qed.

Lemma descending_by_app l1 l2 :
  descending_by leb (l1 ++ l2) ->
  forall x y, In x l1 -> In y l2 -> leb y x = true.
Proof.
  induction l1 as [|z l1 IH]; simpl; [intros _ x y []|].
  intros [Hz Hl] x y [<- | Hx] Hy.
  - apply (proj1 (Forall_forall _ _) Hz), in_or_app. now right.
  - now apply IH.
Qed.
End SortedBy.

(** ** Top-half wins *)

Lemma home_scores_run box_scores :
  (forall i, In i box_scores -> is_team (home_team i) = true) ->
  map_result (fun i => n <~ attribute team_name (home_team i) ;; Ok (home_score i, n))
    box_scores =
  Ok (map (fun i => (home_score i, name_of (home_team i))) box_scores).
Proof.
  induction box_scores as [|i l IH]; intros H; simpl; [reflexivity|].
  pose proof (H i (or_introl eq_refl)) as Hi.
  destruct (home_team i); [discriminate|]. simpl.
  rewrite IH; [reflexivity|]. intros j Hj. apply H. now right.
Qed.

Lemma away_scores_run box_scores :
  (forall i, In i box_scores -> is_team (away_team i) = true) ->
  map_result (fun i => n <~ attribute team_name (away_team i) ;; Ok (away_score i, n))
    box_scores =
  Ok (map (fun i => (away_score i, name_of (away_team i))) box_scores).
Proof.
  induction box_scores as [|i l IH]; intros H; simpl; [reflexivity|].
  pose proof (H i (or_introl eq_refl)) as Hi.
  destruct (away_team i); [discriminate|]. simpl.
  rewrite IH; [reflexivity|]. intros j Hj. apply H. now right.
Qed.

Lemma home_scores_fail box_scores :
  (exists i, In i box_scores /\ home_team i = no_team) ->
  map_result (fun i => n <~ attribute team_name (home_team i) ;; Ok (home_score i, n))
    box_scores = Fail AttributeError.
Proof.
  induction box_scores as [|i l IH]; intros (j & Hj & Hn); [destruct Hj|].
  simpl. destruct (home_team i) eqn:E; simpl; [reflexivity|].
  rewrite IH; [reflexivity|]. destruct Hj as [<- | Hj]; [congruence|]. now exists j.
Qed.

Lemma top_half_wins_run box_scores top_half_totals :
  (forall i, In i box_scores -> is_team (home_team i) = true) ->
  top_half_wins box_scores top_half_totals =
  for_result (top_half box_scores)
    (fun totals entry =>
       match dict_get totals (snd entry) with
       | Some wins => Ok (dict_set totals (snd entry) (wins + 1))
       | None => Fail (Builtin KeyError)
       end)
    top_half_totals.
Proof.
  intros H. unfold top_half_wins. rewrite (home_scores_run _ H). cbn [and_then].
  rewrite away_scores_run.
  - reflexivity.
  - intros i Hi. now apply filter_In in Hi.
Qed.

Lemma sum_values_set (d : dict Z) k w v :
  dict_get d k = Some w ->
  sum (dict_values (dict_set d k v)) = sum (dict_values d) - w + v.
Proof.
  unfold dict_values.
  induction d as [|[k0 v0] d IH]; simpl; [discriminate|].
  destruct (String.eqb k0 k); simpl; rewrite !sum_cons.
  - intros [= ->]. lia.
  - intros H. rewrite (IH H). lia.
Qed.

Lemma credit_loop (entries : list (Z * string)) :
  forall totals : dict Z,
    match for_result entries
            (fun totals entry =>
               match dict_get totals (snd entry) with
               | Some wins => Ok (dict_set totals (snd entry) (wins + 1))
               | None => Fail (Builtin KeyError)
               end) totals with
    | Ok totals' =>
        (forall e, In e entries -> In (snd e) (dict_keys totals)) /\
        dict_keys totals' = dict_keys totals /\
        (forall n, dict_get totals' n =
                   option_map (fun w => w + Z.of_nat (count_occ string_dec (map snd entries) n))
                     (dict_get totals n)) /\
        sum (dict_values totals') =
          sum (dict_values totals) + Z.of_nat (List.length entries)
    | Fail e =>
        e = Builtin KeyError /\
        exists x, In x entries /\ ~ In (snd x) (dict_keys totals)
    end.
Proof.
  induction entries as [|[s k] entries IH]; intros totals.
  - simpl. split; [intros e []|]. split; [reflexivity|]. split; [|lia].
    intros n. destruct (dict_get totals n); simpl; f_equal; lia.
  - cbn [for_result snd]. destruct (dict_get totals k) as [w|] eqn:E; cbn [and_then].
    + assert (Hk : In k (dict_keys totals)) by (apply dict_get_keys; eauto).
      specialize (IH (dict_set totals k (w + 1))).
      destruct (for_result entries _ (dict_set totals k (w + 1))) as [t'|e].
      * destruct IH as (Hin & Hkeys & Hget & Hsum).
        rewrite dict_keys_set_present in Hin, Hkeys by exact Hk.
        split; [|split; [exact Hkeys | split]].
        -- intros e [<- | He]; [exact Hk | now apply Hin].
        -- intros n. rewrite Hget. cbn [map snd count_occ].
           destruct (string_dec k n) as [-> | Hne].
           ++ rewrite dict_get_set_same, E. simpl. f_equal. lia.
           ++ rewrite dict_get_set_other by exact Hne.
              reflexivity.
        -- rewrite Hsum, (sum_values_set _ _ _ _ E). cbn [List.length]. lia.
      * destruct IH as (-> & x & Hx & Hn).
        rewrite dict_keys_set_present in Hn by exact Hk.
        split; [reflexivity|]. exists x. split; [now right | exact Hn].
    + split; [reflexivity|]. exists (s, k). split; [now left|].
      now apply dict_get_none_keys.
Qed.

Lemma top_half_length box_scores :
  List.length (top_half box_scores) = (List.length (week_scores box_scores) / 2)%nat.
Proof.
  unfold top_half. cbv zeta.
  rewrite length_firstn, (Permutation_length (sorted_by_perm _ _)).
  apply Nat.min_l, Nat.Div0.div_le_upper_bound. lia.
Qed.

Lemma top_half_incl box_scores e :
  In e (top_half box_scores) -> In e (week_scores box_scores).
Proof.
  unfold top_half. cbv zeta. intros H.
  apply (Permutation_in _ (sorted_by_perm (fun y x => fst y <=? fst x) _)).
  rewrite <- (firstn_skipn (List.length (sorted_by (fun y x => fst y <=? fst x)
                                           (week_scores box_scores)) / 2)).
  apply in_or_app. now left.
Qed.

(** X6: when every matchup has a home team and every team of the week has an
    entry in the totals, [top_half_wins] returns the totals with the same
    teams in the same order, and it has handed out one win for each score of
    the better half: the wins grow by half the number of scores, rounded
    down. *)
Theorem top_half_wins_credits_half :
  forall (box_scores : list Matchup) (top_half_totals : dict Z),
    (forall i, In i box_scores -> is_team (home_team i) = true) ->
    (forall e, In e (week_scores box_scores) -> In (snd e) (dict_keys top_half_totals)) ->
    exists totals,
      top_half_wins box_scores top_half_totals = Ok totals /\
      dict_keys totals = dict_keys top_half_totals /\
      sum (dict_values totals) =
        sum (dict_values top_half_totals) +
        Z.of_nat (List.length (week_scores box_scores) / 2).
Proof.
  intros box_scores totals Hhome Hkeys.
  rewrite (top_half_wins_run _ _ Hhome).
  pose proof (credit_loop (top_half box_scores) totals) as H.
  destruct (for_result (top_half box_scores) _ totals) as [t'|e].
  - destruct H as (_ & Hk & _ & Hs). exists t'.
    rewrite <- top_half_length. auto.
  - destruct H as (_ & x & Hx & Hn). exfalso. apply Hn, Hkeys.
    now apply top_half_incl.
Qed.

Lemma top_half_wins_credits_half_witness :
  exists totals,
    top_half_wins example_week example_totals = Ok totals /\
    dict_keys totals = dict_keys example_totals /\
    sum (dict_values totals) = sum (dict_values example_totals) + 1.
Proof.
  apply (top_half_wins_credits_half example_week example_totals).
  - intros i [<- | [<- | []]]; reflexivity.
  - intros e [<- | [<- | [<- | []]]]; simpl; tauto.
Defined.

(** X7: the totals must already hold every team of the better half: if one of
    them has no entry, [top_half_wins] raises [KeyError]. *)
Theorem top_half_wins_unknown_team :
  forall (box_scores : list Matchup) (top_half_totals : dict Z),
    (forall i, In i box_scores -> is_team (home_team i) = true) ->
    (exists e, In e (top_half box_scores) /\ ~ In (snd e) (dict_keys top_half_totals)) ->
    top_half_wins box_scores top_half_totals = Fail (Builtin KeyError).
Proof.
  intros box_scores totals Hhome (e & He & Hn).
  rewrite (top_half_wins_run _ _ Hhome).
  pose proof (credit_loop (top_half box_scores) totals) as H.
  destruct (for_result (top_half box_scores) _ totals) as [t'|err].
  - destruct H as (Hin & _). exfalso. now apply Hn, Hin.
  - destruct H as [-> _]. reflexivity.
Qed.

Lemma top_half_wins_unknown_team_witness :
  top_half_wins example_week [("Alpha", 3); ("Charlie", 5)] = Fail (Builtin KeyError).
Proof.
  apply top_half_wins_unknown_team.
  - intros i [<- | [<- | []]]; reflexivity.
  - exists (90, "Bravo"). split; [now left|].
    simpl. intros [H | [H | []]]; discriminate.
Defined.

(** X8: a matchup without a home team makes [top_half_wins] raise
    [AttributeError], whatever the totals hold. *)
Theorem top_half_wins_needs_home_team :
  forall (box_scores : list Matchup) (top_half_totals : dict Z),
    (exists i, In i box_scores /\ home_team i = no_team) ->
    top_half_wins box_scores top_half_totals = Fail AttributeError.
Proof.
  intros box_scores totals H. unfold top_half_wins.
  now rewrite (home_scores_fail _ H).
Qed.

Lemma top_half_wins_needs_home_team_witness :
  top_half_wins
    [finished_matchup;
     {| box := empty_matchup; home_team := no_team; away_team := a_team team_C;
        home_score := 0; away_score := 12; home_projected := 0; away_projected := 12 |}]
    example_totals = Fail AttributeError.
Proof.
  apply top_half_wins_needs_home_team.
  eexists. split; [right; left; reflexivity | reflexivity].
Defined.

Lemma NoDup_snd_inj {A B} (l : list (A * B)) a b n :
  NoDup (map snd l) -> In (a, n) l -> In (b, n) l -> a = b.
Proof.
  induction l as [|[x m] l IH]; simpl; [intros _ []|].
  intros Hnd Ha Hb. inversion Hnd as [|? ? Hm Hl]; subst.
  destruct Ha as [[= -> ->] | Ha], Hb as [[= ->] | Hb].
  - reflexivity.
  - exfalso. apply Hm. apply (in_map snd) in Hb. exact Hb.
  - subst. exfalso. apply Hm. apply (in_map snd) in Ha. exact Ha.
  - now apply IH.
Qed.

Lemma top_half_ranked box_scores sa na sb nb :
  In (sa, na) (week_scores box_scores) ->
  In (sb, nb) (top_half box_scores) ->
  sb < sa ->
  In (sa, na) (top_half box_scores).
Proof.
  unfold top_half. cbv zeta.
  set (leb := fun y x : Z * string => fst y <=? fst x).
  set (scores := sorted_by leb (week_scores box_scores)).
  set (k := (List.length scores / 2)%nat).
  intros Ha Hb Hlt.
  apply (Permutation_in _ (Permutation_sym (sorted_by_perm leb _))) in Ha.
  fold scores in Ha. rewrite <- (firstn_skipn k scores) in Ha.
  apply in_app_or in Ha. destruct Ha as [Ha | Ha]; [exact Ha|].
  exfalso.
  assert (Hd : descending_by leb (firstn k scores ++ skipn k scores)).
  { rewrite firstn_skipn. apply sorted_by_descending.
    - intros x y. unfold leb. destruct (Z.leb_spec (fst x) (fst y)); [now left|].
      right. apply Z.leb_le. lia.
    - intros x y z. unfold leb. rewrite !Z.leb_le. lia. }
  pose proof (descending_by_app leb _ _ Hd _ _ Hb Ha) as H.
  unfold leb in H. simpl in H. apply Z.leb_le in H. lia.
Qed.

(** X9: with every home team present and no team name used twice in the week,
    a win goes to the better scores first: if [top_half_wins] returns and has
    changed the total of a team, then every team of the week that scored
    strictly more has exactly one win more than before. *)
Theorem top_half_wins_credits_the_better :
  forall (box_scores : list Matchup) (top_half_totals totals : dict Z),
    (forall i, In i box_scores -> is_team (home_team i) = true) ->
    NoDup (map snd (week_scores box_scores)) ->
    top_half_wins box_scores top_half_totals = Ok totals ->
    forall sa na sb nb,
      In (sa, na) (week_scores box_scores) ->
      In (sb, nb) (week_scores box_scores) ->
      sb < sa ->
      dict_get totals nb <> dict_get top_half_totals nb ->
      exists wins,
        dict_get top_half_totals na = Some wins /\
        dict_get totals na = Some (wins + 1).
Proof.
  intros box_scores totals totals' Hhome Hnd Hok sa na sb nb Ha Hb Hlt Hcred.
  rewrite (top_half_wins_run _ _ Hhome) in Hok.
  pose proof (credit_loop (top_half box_scores) totals) as H.
  rewrite Hok in H. destruct H as (Hin & _ & Hget & _).
  assert (Hnames : NoDup (map snd (top_half box_scores))).
  { unfold top_half. cbv zeta. rewrite <- firstn_map. apply NoDup_firstn.
    apply (Permutation_NoDup
             (Permutation_map snd (Permutation_sym (sorted_by_perm _ _))) Hnd). }
  assert (Hbtop : In (sb, nb) (top_half box_scores)).
  { destruct (count_occ string_dec (map snd (top_half box_scores)) nb) as [|c] eqn:Ec.
    - exfalso. apply Hcred. rewrite Hget, Ec.
      destruct (dict_get totals nb); simpl; f_equal; lia.
    - assert (Hnb : In nb (map snd (top_half box_scores))).
      { apply (count_occ_In string_dec). lia. }
      apply in_map_iff in Hnb. destruct Hnb as ([s' n'] & Hn & Htop).
      simpl in Hn. subst n'.
      now rewrite (NoDup_snd_inj _ sb s' nb Hnd Hb (top_half_incl _ _ Htop)). }
  pose proof (top_half_ranked _ _ _ _ _ Ha Hbtop Hlt) as Hatop.
  pose proof (Hin _ Hatop) as Hkey. simpl in Hkey.
  apply dict_get_keys in Hkey. destruct Hkey as [wins Hw].
  exists wins. split; [exact Hw|]. rewrite Hget, Hw. simpl. f_equal. f_equal.
  assert (Hc : (count_occ string_dec (map snd (top_half box_scores)) na <= 1)%nat)
    by (now apply NoDup_count_occ).
  assert (Hc' : (count_occ string_dec (map snd (top_half box_scores)) na > 0)%nat).
  { apply count_occ_In. apply in_map_iff. exists (sa, na). auto. }
  lia.
Qed.

Lemma top_half_wins_credits_the_better_witness :
  exists wins,
    dict_get example_totals "Bravo" = Some wins /\
    dict_get [("Alpha", 4); ("Bravo", 1); ("Charlie", 5)] "Bravo" = Some (wins + 1).
Proof.
  apply (top_half_wins_credits_the_better
           [finished_matchup; other_matchup] example_totals
           [("Alpha", 4); ("Bravo", 1); ("Charlie", 5)]) with (sa := 90) (sb := 80)
                                                             (nb := "Alpha").
  - intros i [<- | [<- | []]]; reflexivity.
  - vm_compute. repeat constructor; simpl; intuition discriminate.
  - reflexivity.
  - simpl. tauto.
  - simpl. tauto.
  - lia.
  - discriminate.
Defined.

(** ** Optimal team scores *)

Lemma call_optimal_lineup_score_run lineup starter_counts :
  call_optimal_lineup_score lineup (Some starter_counts) =
  if computed_best_score lineup starter_counts =? 0
  then Fail (Builtin ZeroDivisionError)
  else Ok (computed_best_score lineup starter_counts, actual_score lineup,
           computed_best_score lineup starter_counts - actual_score lineup,
           (inject_Z (actual_score lineup) /
            inject_Z (computed_best_score lineup starter_counts) * inject_Z 100)%Q).
Proof.
  unfold call_optimal_lineup_score.
  rewrite optimal_lineup_score_report, computed_best_score_total.
  unfold score_report. destruct (_ =? 0); reflexivity.
Qed.

Lemma score_side_some starter_counts best_scores side lineup :
  (exists best_scores',
      score_side (Some starter_counts) best_scores side lineup = Ok best_scores') \/
  score_side (Some starter_counts) best_scores side lineup =
    Fail (Builtin ZeroDivisionError).
Proof.
  unfold score_side. destruct side as [|t]; [eauto|].
  rewrite call_optimal_lineup_score_run.
  destruct (_ =? 0); cbn [and_then]; eauto.
Qed.

Lemma score_side_zero starter_counts best_scores side lineup :
  side_scores_zero starter_counts side lineup ->
  score_side (Some starter_counts) best_scores side lineup =
    Fail (Builtin ZeroDivisionError).
Proof.
  intros [Hteam Hzero]. unfold score_side. destruct side as [|t]; [discriminate|].
  rewrite call_optimal_lineup_score_run, Hzero. reflexivity.
Qed.

Lemma score_matchup_some starter_counts best_scores i :
  (exists best_scores',
      score_matchup (Some starter_counts) best_scores i = Ok best_scores') \/
  score_matchup (Some starter_counts) best_scores i = Fail (Builtin ZeroDivisionError).
Proof.
  unfold score_matchup.
  destruct (score_side_some starter_counts best_scores (home_team i)
              (home_lineup (box i))) as [[b ->] | ->]; cbn [and_then]; [|now right].
  apply score_side_some.
Qed.

Lemma score_matchup_zero starter_counts best_scores i :
  scores_zero starter_counts i ->
  score_matchup (Some starter_counts) best_scores i = Fail (Builtin ZeroDivisionError).
Proof.
  unfold score_matchup. intros [H | H].
  - now rewrite (score_side_zero _ _ _ _ H).
  - destruct (score_side_some starter_counts best_scores (home_team i)
                (home_lineup (box i))) as [[b ->] | ->]; cbn [and_then]; [|reflexivity].
    now apply score_side_zero.
Qed.

Lemma collect_zero starter_counts box_scores :
  (exists i, In i box_scores /\ scores_zero starter_counts i) ->
  forall best_scores,
    for_result box_scores (score_matchup (Some starter_counts)) best_scores =
    Fail (Builtin ZeroDivisionError).
Proof.
  induction box_scores as [|i l IH]; intros (j & Hj & Hz) best_scores; [destruct Hj|].
  cbn [for_result].
  destruct (score_matchup_some starter_counts best_scores i) as [[b Hb] | Hb].
  - destruct Hj as [<- | Hj].
    + now rewrite (score_matchup_zero _ _ _ Hz) in Hb.
    + rewrite Hb. cbn [and_then]. apply IH. now exists j.
  - now rewrite Hb.
Qed.

Lemma collect_none box_scores :
  forall best_scores,
    for_result box_scores (score_matchup None) best_scores =
    if existsb has_team box_scores then Fail TypeError else Ok best_scores.
Proof.
  induction box_scores as [|i l IH]; intros best_scores; [reflexivity|].
  cbn [for_result existsb]. unfold score_matchup at 1, has_team at 1, score_side.
  destruct (home_team i), (away_team i); cbn [and_then is_team orb call_optimal_lineup_score];
    try reflexivity.
  apply IH.
Qed.

Lemma has_team_exists box_scores :
  (exists i, In i box_scores /\ has_team i = true) -> existsb has_team box_scores = true.
Proof. intros H. now apply existsb_exists. Qed.

Lemma computed_best_score_no_slots lineup : computed_best_score lineup [] = 0.
Proof.
  rewrite computed_best_score_total, optimal_lineup_allocated.
  unfold allocated. cbn [dict_keys map fold_left].
  unfold named_step. cbn [dict_contains dict_get].
  rewrite (proj1 (collect_frame lineup initial_locals)). reflexivity.
Qed.

Lemma tally_no_starters lineup : starters lineup = [] -> tally lineup = [].
Proof. intros H. unfold tally. now rewrite fold_tally_starters, H. Qed.

(** X10: one team is enough to stop the whole report: if under the inferred
    slot configuration the optimal score of any participating lineup is zero,
    [optimal_team_scores] raises [ZeroDivisionError], in either form of the
    report and wherever the matchup stands among the box scores. *)
Theorem optimal_team_scores_zero_division :
  forall (format_full : Z -> string -> Z -> Z -> Q -> string)
         (format_best : string -> Q -> string)
         (format_worst : string -> Z -> Q -> string)
         (counts_week : list BoxScore) (starter_counts : dict nat)
         (box_scores : list Matchup) (full_report : bool),
    get_starter_counts counts_week = Returned (Some starter_counts) ->
    (exists i, In i box_scores /\ scores_zero starter_counts i) ->
    optimal_team_scores format_full format_best format_worst counts_week box_scores
      full_report = Fail (Builtin ZeroDivisionError).
Proof.
  intros ff fb fw counts_week sc box_scores full Hsc Hz.
  unfold optimal_team_scores, collect_best_scores. rewrite Hsc. cbn [and_then].
  now rewrite (collect_zero _ _ Hz).
Qed.

Lemma optimal_team_scores_zero_division_witness :
  optimal_team_scores example_format_full example_format_best example_format_worst
    [scenario_D] [finished_matchup; running_matchup] false =
  Fail (Builtin ZeroDivisionError).
Proof.
  apply (optimal_team_scores_zero_division _ _ _ [scenario_D]
           (tally (away_lineup scenario_D))).
  - reflexivity.
  - exists running_matchup. split; [right; left; reflexivity|].
    right. split; reflexivity.
Defined.

(** X11: when the previous week has no box scores, [get_starter_counts]
    returns [None], and [optimal_team_scores] raises [TypeError] as soon as a
    team takes part in the reported week. *)
Theorem optimal_team_scores_no_previous_week :
  forall (format_full : Z -> string -> Z -> Z -> Q -> string)
         (format_best : string -> Q -> string)
         (format_worst : string -> Z -> Q -> string)
         (box_scores : list Matchup) (full_report : bool),
    (exists i, In i box_scores /\ has_team i = true) ->
    optimal_team_scores format_full format_best format_worst [] box_scores full_report =
    Fail TypeError.
Proof.
  intros ff fb fw box_scores full H.
  unfold optimal_team_scores, collect_best_scores.
  change (get_starter_counts []) with (@Returned (option (dict nat)) None).
  cbn [and_then]. now rewrite collect_none, (has_team_exists _ H).
Qed.

Lemma optimal_team_scores_no_previous_week_witness :
  optimal_team_scores example_format_full example_format_best example_format_worst
    [] [bye_matchup] true = Fail TypeError.
Proof.
  apply optimal_team_scores_no_previous_week.
  exists bye_matchup. split; [now left | reflexivity].
Defined.

(** X12: when neither lineup of the first box score of the previous week has
    a starter, the inferred configuration is empty, every optimal score is
    zero, and [optimal_team_scores] raises [ZeroDivisionError] as soon as a
    team takes part in the reported week. *)
Theorem optimal_team_scores_empty_configuration :
  forall (format_full : Z -> string -> Z -> Z -> Q -> string)
         (format_best : string -> Q -> string)
         (format_worst : string -> Z -> Q -> string)
         (i : BoxScore) (rest : list BoxScore)
         (box_scores : list Matchup) (full_report : bool),
    starters (home_lineup i) = [] ->
    starters (away_lineup i) = [] ->
    (exists m, In m box_scores /\ has_team m = true) ->
    optimal_team_scores format_full format_best format_worst (i :: rest) box_scores
      full_report = Fail (Builtin ZeroDivisionError).
Proof.
  intros ff fb fw i rest box_scores full Hh Ha (m & Hm & Ht).
  unfold optimal_team_scores, collect_best_scores.
  rewrite get_starter_counts_run, Hh, Ha. cbn [List.length Nat.ltb Nat.leb].
  rewrite (tally_no_starters _ Hh). cbn [and_then].
  rewrite collect_zero; [reflexivity|].
  exists m. split; [exact Hm|]. unfold scores_zero, side_scores_zero.
  rewrite !computed_best_score_no_slots.
  unfold has_team in Ht. apply orb_true_iff in Ht. tauto.
Qed.

Lemma optimal_team_scores_empty_configuration_witness :
  optimal_team_scores example_format_full example_format_best example_format_worst
    [empty_matchup; scenario_D] [finished_matchup] false =
  Fail (Builtin ZeroDivisionError).
Proof.
  apply optimal_team_scores_empty_configuration; try reflexivity.
  exists finished_matchup. split; [now left | reflexivity].
Defined.

(** X13: when no team takes part in the reported week, the full report is the
    heading alone, and the short report raises [StopIteration], whatever the
    previous week holds. *)
Theorem optimal_team_scores_no_teams :
  forall (format_full : Z -> string -> Z -> Z -> Q -> string)
         (format_best : string -> Q -> string)
         (format_worst : string -> Z -> Q -> string)
         (counts_week : list BoxScore) (box_scores : list Matchup),
    (forall i, In i box_scores -> has_team i = false) ->
    optimal_team_scores format_full format_best format_worst counts_week box_scores
      true = Ok (Text "Optimal Scores:  (Actual - % of optimal)") /\
    optimal_team_scores format_full format_best format_worst counts_week box_scores
      false = Fail StopIteration.
Proof.
  intros ff fb fw counts_week box_scores H.
  assert (Hc : forall sc, collect_best_scores sc box_scores = Ok []).
  { intros sc. unfold collect_best_scores. generalize (@nil (Team * (Z * Z * Z * Q))).
    induction box_scores as [|i l IH]; intros acc; [reflexivity|].
    cbn [for_result]. pose proof (H i (or_introl eq_refl)) as Hi.
    unfold has_team in Hi. apply orb_false_iff in Hi. destruct Hi as [Hh Ha].
    unfold score_matchup, score_side.
    destruct (home_team i); [|discriminate]. destruct (away_team i); [|discriminate].
    cbn [and_then]. apply IH. intros j Hj. apply H. now right. }
  unfold optimal_team_scores.
  destruct counts_week as [|i rest].
  - change (get_starter_counts []) with (@Returned (option (dict nat)) None).
    cbn [and_then]. rewrite Hc. split; reflexivity.
  - rewrite get_starter_counts_run. cbn [and_then]. rewrite Hc. split; reflexivity.
Qed.

Lemma optimal_team_scores_no_teams_witness :
  optimal_team_scores example_format_full example_format_best example_format_worst
    [scenario_D]
    [ {| box := empty_matchup; home_team := no_team; away_team := no_team;
         home_score := 0; away_score := 0; home_projected := 0; away_projected := 0 |} ]
    false = Fail StopIteration.
Proof.
  apply optimal_team_scores_no_teams.
  intros i [<- | []]. reflexivity.
Defined.

(** ** The ranking of the managers *)

Lemma team_set_ids_in {V} (d : team_dict V) t v x :
  In x (team_ids (team_set d t v)) -> In x (team_ids d) \/ x = team_id t.
Proof.
  unfold team_ids. induction d as [|[t' v'] d IH]; simpl.
  - intros [<- | []]. now right.
  - destruct (team_id t' =? team_id t); simpl.
    + intros [<- | H]; auto.
    + intros [<- | H]; [auto|]. destruct (IH H); auto.
Qed.

Lemma team_set_NoDup {V} (d : team_dict V) t v :
  NoDup (team_ids d) -> NoDup (team_ids (team_set d t v)).
Proof.
  induction d as [|[t' v'] d IH]; simpl.
  - intros _. repeat constructor. intros [].
  - intros H. inversion H as [|? ? Hn Hd]; subst.
    destruct (Z.eqb_spec (team_id t') (team_id t)) as [E | E]; simpl.
    + constructor; assumption.
    + constructor; [|now apply IH].
      intros Hin. apply team_set_ids_in in Hin. destruct Hin as [Hin | Hin]; auto.
Qed.

Lemma team_set_absent {V} (d : team_dict V) t v :
  ~ In (team_id t) (team_ids d) -> team_set d t v = d ++ [(t, v)].
Proof.
  induction d as [|[t' v'] d IH]; simpl; [reflexivity|].
  intros H. destruct (Z.eqb_spec (team_id t') (team_id t)) as [E | E]; [tauto|].
  rewrite IH; tauto.
Qed.

Lemma team_dict_of_items_id {V} (l : team_dict V) :
  NoDup (team_ids l) -> team_dict_of_items l = l.
Proof.
  unfold team_dict_of_items.
  assert (H : forall acc : team_dict V,
             NoDup (team_ids (acc ++ l)) ->
             fold_left (fun d kv => team_set d (fst kv) (snd kv)) l acc = acc ++ l).
  { induction l as [|[t v] l IH]; intros acc Hnd; simpl.
    - now rewrite app_nil_r.
    - unfold team_ids in Hnd. rewrite map_app in Hnd. simpl in Hnd.
      rewrite team_set_absent.
      + rewrite IH; rewrite <- app_assoc; [reflexivity|].
        unfold team_ids. rewrite map_app. exact Hnd.
      + apply NoDup_remove_2 in Hnd. intros Hin. apply Hnd, in_or_app. now left. }
  intros Hnd. now apply (H []).
Qed.

Lemma score_side_NoDup starter_counts best_scores side lineup best_scores' :
  score_side starter_counts best_scores side lineup = Ok best_scores' ->
  NoDup (team_ids best_scores) -> NoDup (team_ids best_scores').
Proof.
  unfold score_side. destruct side as [|t].
  - now intros [= <-].
  - destruct (call_optimal_lineup_score lineup starter_counts); cbn [and_then];
      [|discriminate].
    intros [= <-]. apply team_set_NoDup.
Qed.

Lemma collect_NoDup starter_counts box_scores best_scores :
  collect_best_scores starter_counts box_scores = Ok best_scores ->
  NoDup (team_ids best_scores).
Proof.
  unfold collect_best_scores.
  assert (H : forall acc, NoDup (team_ids acc) ->
                          for_result box_scores (score_matchup starter_counts) acc =
                            Ok best_scores ->
                          NoDup (team_ids best_scores)).
  { induction box_scores as [|i l IH]; intros acc Hacc; cbn [for_result].
    - now intros [= <-].
    - unfold score_matchup at 1.
      destruct (score_side starter_counts acc (home_team i) (home_lineup (box i)))
        as [acc1|] eqn:E1; cbn [and_then]; [|discriminate].
      destruct (score_side starter_counts acc1 (away_team i) (away_lineup (box i)))
        as [acc2|] eqn:E2; cbn [and_then]; [|discriminate].
      apply IH. apply (score_side_NoDup _ _ _ _ _ E2), (score_side_NoDup _ _ _ _ _ E1), Hacc. }
  apply H. constructor.
Qed.

Lemma by_percent_total x y : by_percent x y = true \/ by_percent y x = true.
Proof.
  unfold by_percent. rewrite !Qle_bool_iff.
  destruct (Qlt_le_dec (percent_of (snd y)) (percent_of (snd x))) as [H | H];
    [right; now apply Qlt_le_weak | now left].
Qed.

Lemma by_percent_trans x y z :
  by_percent x y = true -> by_percent y z = true -> by_percent x z = true.
Proof. unfold by_percent. rewrite !Qle_bool_iff. apply Qle_trans. Qed.

Lemma ranked_sorted best_scores :
  NoDup (team_ids best_scores) ->
  ranked best_scores = sorted_by by_percent best_scores /\
  Permutation (ranked best_scores) best_scores /\
  descending_by by_percent (ranked best_scores) /\
  NoDup (team_ids (ranked best_scores)).
Proof.
  intros H. unfold ranked.
  assert (Hs : NoDup (team_ids (sorted_by by_percent best_scores))).
  { apply (Permutation_NoDup
             (Permutation_map _ (Permutation_sym (sorted_by_perm by_percent _))) H). }
  rewrite (team_dict_of_items_id _ Hs).
  split; [reflexivity|]. split; [apply sorted_by_perm|]. split; [|exact Hs].
  apply sorted_by_descending; [apply by_percent_total | apply by_percent_trans].
Qed.

Lemma leading_count l :
  descending_by by_percent l ->
  forall n s,
    fst (leading l n s) = n + Z.of_nat (List.length (filter above_threshold l)).
Proof.
  induction l as [|[t r] l IH]; intros Hd n s; cbn [leading filter].
  - simpl. lia.
  - destruct Hd as [Hhead Hd].
    destruct (above_threshold (t, r)) eqn:E.
    + rewrite (IH Hd). cbn [List.length]. lia.
    + assert (Hnone : filter above_threshold l = []).
      { apply filter_nil_none. intros e He.
        pose proof (proj1 (Forall_forall _ _) Hhead e He) as Hle.
        unfold above_threshold in *. apply negb_false_iff in E. apply negb_false_iff.
        unfold by_percent in Hle. rewrite Qle_bool_iff in *.
        now apply (Qle_trans _ _ _ Hle). }
      rewrite Hnone. simpl. lia.
Qed.

Lemma filter_length_perm {A} (f : A -> bool) l l' :
  Permutation l l' -> List.length (filter f l) = List.length (filter f l').
Proof.
  induction 1 as [|x l l' _ IH|x y l|l l' l'' _ IH1 _ IH2]; simpl.
  - reflexivity.
  - destruct (f x); simpl; now rewrite IH.
  - destruct (f x), (f y); reflexivity.
  - now rewrite IH1.
Qed.

Lemma descending_head_max (x : Team * (Z * Z * Z * Q)) l :
  descending_by by_percent (x :: l) ->
  forall e, In e (x :: l) -> by_percent e x = true.
Proof.
  intros [H _] e [<- | He].
  - destruct (by_percent_total x x); assumption.
  - now apply (proj1 (Forall_forall _ _) H).
Qed.

Lemma descending_last_min (x : Team * (Z * Z * Z * Q)) l l' :
  descending_by by_percent l -> rev l = x :: l' ->
  forall e, In e l -> by_percent x e = true.
Proof.
  intros Hd Hrev e He.
  assert (Hl : l = rev l' ++ [x]).
  { rewrite <- (rev_involutive l), Hrev. reflexivity. }
  rewrite Hl in Hd, He. apply in_app_or in He. destruct He as [He | [<- | []]].
  - apply (descending_by_app by_percent _ _ Hd e x He). now left.
  - destruct (by_percent_total x x); assumption.
Qed.

Lemma short_report_run format_best format_worst best l worst l' :
  descending_by by_percent (best :: l) ->
  rev (best :: l) = worst :: l' ->
  short_report format_best format_worst (best :: l) =
  Ok [ (if (List.length (filter above_threshold (best :: l)) <=? 1)%nat
        then format_best (team_name (fst best)) (percent_of (snd best))
        else best_managers_line);
       format_worst (team_name (fst worst))
         (optimal_of (snd worst) - actual_of (snd worst)) (percent_of (snd worst)) ].
Proof.
  intros Hd Hrev. unfold short_report.
  pose proof (leading_count _ Hd 0 EmptyString) as Hc.
  destruct (leading (best :: l) 0 EmptyString) as [num names]. cbn [fst] in Hc.
  rewrite Hrev, Hc. destruct best as [t r], worst as [tw rw]. cbn [fst snd].
  destruct (Nat.leb_spec (List.length (filter above_threshold ((t, r) :: l))) 1) as [H | H].
  - replace (0 + Z.of_nat _ <=? 1) with true by (symmetry; apply Z.leb_le; lia).
    reflexivity.
  - replace (0 + Z.of_nat _ <=? 1) with false by (symmetry; apply Z.leb_gt; lia).
    reflexivity.
Qed.

Lemma collected_report format_full format_best format_worst counts_week starter_counts
  box_scores best_scores full_report :
  get_starter_counts counts_week = Returned starter_counts ->
  collect_best_scores starter_counts box_scores = Ok best_scores ->
  optimal_team_scores format_full format_best format_worst counts_week box_scores
    full_report =
  if full_report then Ok (Text (full_report_text format_full (ranked best_scores)))
  else lines <~ short_report format_best format_worst (ranked best_scores) ;;
       Ok (Lines lines).
Proof.
  intros Hsc Hc. unfold optimal_team_scores. rewrite Hsc. cbn [and_then].
  rewrite Hc. reflexivity.
Qed.

(** X14: in the short report the worst manager is a team whose percentage is
    the lowest of the week, and the line gives the name of that team, its
    optimal score less its actual score, and its percentage. *)
Theorem optimal_team_scores_worst_manager :
  forall (format_full : Z -> string -> Z -> Z -> Q -> string)
         (format_best : string -> Q -> string)
         (format_worst : string -> Z -> Q -> string)
         (counts_week : list BoxScore) (starter_counts : option (dict nat))
         (box_scores : list Matchup) (best_scores : team_dict (Z * Z * Z * Q)),
    get_starter_counts counts_week = Returned starter_counts ->
    collect_best_scores starter_counts box_scores = Ok best_scores ->
    best_scores <> [] ->
    exists worst best_line,
      In worst best_scores /\
      (forall e, In e best_scores ->
                 (percent_of (snd worst) <= percent_of (snd e))%Q) /\
      optimal_team_scores format_full format_best format_worst counts_week box_scores
        false =
      Ok (Lines [best_line;
                 format_worst (team_name (fst worst))
                   (optimal_of (snd worst) - actual_of (snd worst))
                   (percent_of (snd worst))]).
Proof.
  intros ff fb fw counts_week sc box_scores scores Hsc Hc Hne.
  rewrite (collected_report _ _ _ _ _ _ _ false Hsc Hc).
  destruct (ranked_sorted scores (collect_NoDup _ _ _ Hc)) as (_ & Hperm & Hd & _).
  destruct (ranked scores) as [|best l] eqn:Er.
  { apply Permutation_nil in Hperm. contradiction. }
  destruct (rev (best :: l)) as [|worst l'] eqn:Hrev.
  { apply (f_equal (@List.length _)) in Hrev. rewrite length_rev in Hrev. discriminate. }
  rewrite (short_report_run fb fw best l worst l' Hd Hrev). cbn [and_then].
  exists worst. eexists. split; [|split; [|reflexivity]].
  - apply (Permutation_in _ Hperm). apply in_rev. rewrite Hrev. now left.
  - intros e He. apply Qle_bool_iff.
    apply (descending_last_min worst _ l' Hd Hrev).
    apply (Permutation_in _ (Permutation_sym Hperm) He).
Qed.

Lemma optimal_team_scores_worst_manager_witness :
  exists worst best_line,
    In worst example_scores /\
    (forall e, In e example_scores ->
               (percent_of (snd worst) <= percent_of (snd e))%Q) /\
    optimal_team_scores example_format_full example_format_best example_format_worst
      [scenario_D] [finished_matchup; other_matchup] false =
    Ok (Lines [best_line;
               example_format_worst (team_name (fst worst))
                 (optimal_of (snd worst) - actual_of (snd worst))
                 (percent_of (snd worst))]).
Proof.
  apply (optimal_team_scores_worst_manager _ _ _ [scenario_D]
           (Some (tally (away_lineup scenario_D)))).
  - reflexivity.
  - reflexivity.
  - discriminate.
Defined.

(** X15: in the short report the best manager is a team whose percentage is
    the highest of the week, named with that percentage, unless two or more
    teams are above 99.8 percent: then the line is one fixed string, which
    names no team. *)
Theorem optimal_team_scores_best_manager :
  forall (format_full : Z -> string -> Z -> Z -> Q -> string)
         (format_best : string -> Q -> string)
         (format_worst : string -> Z -> Q -> string)
         (counts_week : list BoxScore) (starter_counts : option (dict nat))
         (box_scores : list Matchup) (best_scores : team_dict (Z * Z * Z * Q)),
    get_starter_counts counts_week = Returned starter_counts ->
    collect_best_scores starter_counts box_scores = Ok best_scores ->
    best_scores <> [] ->
    exists best worst_line,
      In best best_scores /\
      (forall e, In e best_scores ->
                 (percent_of (snd e) <= percent_of (snd best))%Q) /\
      optimal_team_scores format_full format_best format_worst counts_week box_scores
        false =
      Ok (Lines [if (List.length (filter above_threshold best_scores) <=? 1)%nat
                 then format_best (team_name (fst best)) (percent_of (snd best))
                 else best_managers_line;
                 worst_line]).
Proof.
  intros ff fb fw counts_week sc box_scores scores Hsc Hc Hne.
  rewrite (collected_report _ _ _ _ _ _ _ false Hsc Hc).
  destruct (ranked_sorted scores (collect_NoDup _ _ _ Hc)) as (_ & Hperm & Hd & _).
  rewrite <- (filter_length_perm above_threshold _ _ Hperm).
  destruct (ranked scores) as [|best l] eqn:Er.
  { apply Permutation_nil in Hperm. contradiction. }
  destruct (rev (best :: l)) as [|worst l'] eqn:Hrev.
  { apply (f_equal (@List.length _)) in Hrev. rewrite length_rev in Hrev. discriminate. }
  rewrite (short_report_run fb fw best l worst l' Hd Hrev). cbn [and_then].
  exists best. eexists. split; [|split; [|reflexivity]].
  - apply (Permutation_in _ Hperm). now left.
  - intros e He. apply Qle_bool_iff.
    apply (descending_head_max best l Hd).
    apply (Permutation_in _ (Permutation_sym Hperm) He).
Qed.

Lemma optimal_team_scores_best_manager_witness :
  exists best worst_line,
    In best example_scores /\
    (forall e, In e example_scores ->
               (percent_of (snd e) <= percent_of (snd best))%Q) /\
    optimal_team_scores example_format_full example_format_best example_format_worst
      [scenario_D] [finished_matchup; other_matchup] false =
    Ok (Lines [example_format_best (team_name (fst best)) (percent_of (snd best));
               worst_line]).
Proof.
  apply (optimal_team_scores_best_manager _ _ _ [scenario_D]
           (Some (tally (away_lineup scenario_D))) [finished_matchup; other_matchup]
           example_scores).
  - reflexivity.
  - reflexivity.
  - discriminate.
Defined.

(** X16: the full report is the heading followed by one line per
    participating team: no team twice, numbered from 1, in descending order
    of percentage. *)
Theorem optimal_team_scores_full_report :
  forall (format_full : Z -> string -> Z -> Z -> Q -> string)
         (format_best : string -> Q -> string)
         (format_worst : string -> Z -> Q -> string)
         (counts_week : list BoxScore) (starter_counts : option (dict nat))
         (box_scores : list Matchup) (best_scores : team_dict (Z * Z * Z * Q)),
    get_starter_counts counts_week = Returned starter_counts ->
    collect_best_scores starter_counts box_scores = Ok best_scores ->
    exists order,
      Permutation order best_scores /\
      NoDup (team_ids order) /\
      descending_by by_percent order /\
      optimal_team_scores format_full format_best format_worst counts_week box_scores
        true =
      Ok (Text (join newline
                  ("Optimal Scores:  (Actual - % of optimal)" ::
                   full_lines format_full 1 order))).
Proof.
  intros ff fb fw counts_week sc box_scores scores Hsc Hc.
  rewrite (collected_report _ _ _ _ _ _ _ true Hsc Hc).
  destruct (ranked_sorted scores (collect_NoDup _ _ _ Hc)) as (_ & Hperm & Hd & Hnd).
  exists (ranked scores). auto.
Qed.

Lemma optimal_team_scores_full_report_witness :
  exists order,
    Permutation order example_scores /\
    NoDup (team_ids order) /\
    descending_by by_percent order /\
    optimal_team_scores example_format_full example_format_best example_format_worst
      [scenario_D] [finished_matchup; other_matchup] true =
    Ok (Text (join newline
                ("Optimal Scores:  (Actual - % of optimal)" ::
                 full_lines example_format_full 1 order))).
Proof.
  apply (optimal_team_scores_full_report _ _ _ [scenario_D]
           (Some (tally (away_lineup scenario_D)))).
  - reflexivity.
  - reflexivity.
Defined.

(** ** More on the slot configuration *)

Lemma tally_NoDup lineup : NoDup (dict_keys (tally lineup)).
Proof.
  unfold tally.
  assert (H : forall d, NoDup (dict_keys d) ->
                        NoDup (dict_keys (fold_left tally_step lineup d))).
  { induction lineup as [|p lineup IH]; intros d Hd; simpl; [exact Hd|].
    apply IH. unfold tally_step.
    destruct (is_starter p); [|exact Hd].
    destruct (dict_get d (slot_position p)); now apply dict_set_NoDup. }
  apply H. constructor.
Qed.

Lemma list_sum_values_set (d : dict nat) k v :
  (list_sum (dict_values (dict_set d k v)) +
   match dict_get d k with Some n => n | None => 0 end =
   list_sum (dict_values d) + v)%nat.
Proof.
  unfold dict_values.
  induction d as [|[k0 v0] d IH]; simpl.
  - lia.
  - destruct (String.eqb k0 k); simpl; lia.
Qed.

Lemma tally_sum lineup :
  list_sum (dict_values (tally lineup)) = List.length (starters lineup).
Proof.
  unfold tally, starters.
  assert (H : forall d,
             list_sum (dict_values (fold_left tally_step lineup d)) =
             (list_sum (dict_values d) + List.length (filter is_starter lineup))%nat).
  { induction lineup as [|p lineup IH]; intros d; simpl; [lia|].
    rewrite IH. unfold tally_step.
    destruct (is_starter p); simpl; [|reflexivity].
    pose proof (list_sum_values_set d (slot_position p)) as Hs.
    destruct (dict_get d (slot_position p)) as [n|].
    - specialize (Hs (n + 1)%nat). lia.
    - specialize (Hs 1%nat). lia. }
  now rewrite H.
Qed.

Lemma tally_slots lineup slot n :
  dict_get (tally lineup) slot = Some n ->
  (1 <= n)%nat /\ n = starters_at slot lineup /\ slot <> "BE" /\ slot <> "IR".
Proof.
  rewrite tally_get. destruct (starters_at slot lineup) as [|k] eqn:E; [discriminate|].
  intros [= <-]. split; [lia|]. split; [reflexivity|].
  unfold starters_at, starters in E.
  destruct (filter _ (filter is_starter lineup)) as [|p l] eqn:Ef; [discriminate|].
  assert (Hp : In p (p :: l)) by now left.
  rewrite <- Ef in Hp. apply filter_In in Hp. destruct Hp as [Hp Hslot].
  apply filter_In in Hp. destruct Hp as [_ Hst].
  apply String.eqb_eq in Hslot. subst slot.
  unfold is_starter in Hst. apply andb_true_iff in Hst. destruct Hst as [H1 H2].
  apply negb_true_iff in H1, H2. apply String.eqb_neq in H1, H2. auto.
Qed.

(** X17: [get_starter_counts] reads the first box score only: whatever
    follows it does not change the result; without any box score the result
    is [None]. *)
Theorem get_starter_counts_first_matchup_only :
  (forall (i : BoxScore) (rest : list BoxScore),
      get_starter_counts (i :: rest) = get_starter_counts [i]) /\
  get_starter_counts [] = Returned None.
Proof.
  split; [|reflexivity]. intros i rest. now rewrite !get_starter_counts_run.
Qed.

(** X18: the configuration [get_starter_counts] infers from a non-empty week
    is well formed: no slot twice, no count below 1, neither the bench nor
    the injured reserve among the slots, and the counts add up to the larger
    of the two numbers of starters of the first matchup. *)
Theorem get_starter_counts_well_formed :
  forall (i : BoxScore) (rest : list BoxScore),
    exists starter_counts,
      get_starter_counts (i :: rest) = Returned (Some starter_counts) /\
      NoDup (dict_keys starter_counts) /\
      (forall slot n, dict_get starter_counts slot = Some n ->
                      (1 <= n)%nat /\ slot <> "BE" /\ slot <> "IR") /\
      list_sum (dict_values starter_counts) =
        Nat.max (List.length (starters (home_lineup i)))
                (List.length (starters (away_lineup i))).
Proof.
  intros i rest. rewrite get_starter_counts_run.
  eexists. split; [reflexivity|].
  destruct (Nat.ltb_spec (List.length (starters (home_lineup i)))
              (List.length (starters (away_lineup i)))) as [H | H].
  - split; [apply tally_NoDup|]. split.
    + intros slot n Hn. pose proof (tally_slots _ _ _ Hn). tauto.
    + rewrite tally_sum. lia.
  - split; [apply tally_NoDup|]. split.
    + intros slot n Hn. pose proof (tally_slots _ _ _ Hn). tauto.
    + rewrite tally_sum. lia.
Qed.

(** ** More on the allocation *)

Lemma dict_set_length {V} (d : dict V) k v :
  (List.length (dict_set d k v) <= S (List.length d))%nat.
Proof.
  induction d as [|[k0 v0] d IH]; simpl; [lia|].
  destruct (String.eqb k0 k); simpl; lia.
Qed.

Lemma dict_of_items_length {V} (items : list (string * V)) :
  (List.length (dict_of_items items) <= List.length items)%nat.
Proof.
  unfold dict_of_items.
  assert (H : forall acc : dict V,
             (List.length (fold_left (fun d kv => dict_set d (fst kv) (snd kv)) items acc)
              <= List.length acc + List.length items)%nat).
  { induction items as [|[k v] items IH]; intros acc; simpl; [lia|].
    specialize (IH (dict_set acc k v)). pose proof (dict_set_length acc k v). lia. }
  apply (H []).
Qed.

Lemma within_counts_set starter_counts bl k b :
  within_counts starter_counts bl ->
  (List.length b <= count_of starter_counts k)%nat ->
  within_counts starter_counts (dict_set bl k b).
Proof.
  intros H Hb slot. rewrite bucket_of_set.
  destruct (String.eqb_spec k slot) as [<- | _]; [exact Hb | apply H].
Qed.

Lemma position_step_within starter_counts k fr :
  within_counts starter_counts (best_lineup fr) ->
  within_counts starter_counts (best_lineup (position_step starter_counts k fr)).
Proof.
  intros H. unfold position_step.
  destruct (dict_get (position_players fr) k); cbn [best_lineup];
    apply within_counts_set; try exact H.
  - etransitivity; [apply dict_of_items_length|]. rewrite length_firstn. lia.
  - simpl. lia.
Qed.

Lemma flex_step_within starter_counts slot flex fr :
  within_counts starter_counts (best_lineup fr) ->
  within_counts starter_counts
    (best_lineup (flex_step slot flex (count_of starter_counts slot) fr)).
Proof.
  intros H. unfold flex_step. cbn [best_lineup]. apply within_counts_set; [exact H|].
  rewrite flex_best_ranked, length_firstn. lia.
Qed.

Lemma allocated_within lineup starter_counts :
  within_counts starter_counts (best_lineup (allocated lineup starter_counts initial_locals)).
Proof.
  unfold allocated.
  assert (H1 : within_counts starter_counts
                 (best_lineup (fold_left (fun fr player => collect_step player fr)
                                 lineup initial_locals))).
  { rewrite (proj1 (collect_frame lineup initial_locals)). intros slot. simpl. lia. }
  revert H1. generalize (fold_left (fun fr player => collect_step player fr)
                           lineup initial_locals).
  intros fr1 H1.
  assert (H2 : forall ks fr, within_counts starter_counts (best_lineup fr) ->
                 within_counts starter_counts
                   (best_lineup (fold_left (fun fr position =>
                                              position_step starter_counts position fr)
                                   ks fr))).
  { induction ks as [|k ks IH]; intros fr Hfr; simpl; [exact Hfr|].
    apply IH. now apply position_step_within. }
  assert (H3 : forall ks fr, within_counts starter_counts (best_lineup fr) ->
                 within_counts starter_counts
                   (best_lineup (fold_left (fun fr position =>
                                              flexes_step starter_counts position fr)
                                   ks fr))).
  { induction ks as [|k ks IH]; intros fr Hfr; simpl; [exact Hfr|].
    apply IH. unfold flexes_step. destruct (is_flex k); [|exact Hfr].
    now apply flex_step_within. }
  assert (H4 : forall slot flex fr, within_counts starter_counts (best_lineup fr) ->
                 within_counts starter_counts
                   (best_lineup (named_step slot flex starter_counts fr))).
  { intros slot flex fr Hfr. unfold named_step.
    destruct (dict_contains starter_counts slot); [|exact Hfr].
    now apply flex_step_within. }
  cbv zeta. apply H4, H4, H3, H2, H1.
Qed.

(** X19: no slot of the optimal lineup holds more players than the
    configuration counts for it, and a slot the configuration does not have
    holds none; this needs no assumption on the roster. *)
Theorem optimal_lineup_within_counts :
  forall (lineup : list Player) (starter_counts : dict nat) (slot : string),
    (List.length (bucket_of (optimal_lineup lineup starter_counts) slot) <=
     count_of starter_counts slot)%nat /\
    (dict_get starter_counts slot = None ->
     bucket_of (optimal_lineup lineup starter_counts) slot = []).
Proof.
  intros lineup starter_counts slot.
  pose proof (allocated_within lineup starter_counts slot) as H.
  rewrite <- optimal_lineup_allocated in H. split; [exact H|].
  intros Hnone. unfold count_of in H. rewrite Hnone in H.
  destruct (bucket_of _ slot); [reflexivity | simpl in H; lia].
Qed.

Lemma descending_app l1 l2 :
  descending (l1 ++ l2) -> forall a b, In a l1 -> In b l2 -> b <= a.
Proof.
  induction l1 as [|z l1 IH]; simpl; [intros _ a b []|].
  intros [Hz Hl] a b [<- | Ha] Hb.
  - apply (proj1 (Forall_forall _ _) Hz), in_or_app. now right.
  - now apply IH.
Qed.

(** X20: [best_flex] returns, and what it returns are the highest scorers of
    the pool of its positions: as many as asked for when the pool has them,
    each an entry of the pool, and none of them below an entry of the pool it
    left out. *)
Theorem best_flex_takes_the_highest :
  forall (flexes : list string) (num : nat) (fr : flex_frame),
    exists chosen rest,
      fst (best_flex flexes num fr) = Returned (chosen, rest) /\
      List.length chosen =
        Nat.min num (List.length (flex_pool flexes (player_pool fr))) /\
      incl chosen (flex_pool flexes (player_pool fr)) /\
      forall x v y w,
        In (x, v) chosen ->
        In (y, w) (flex_pool flexes (player_pool fr)) ->
        ~ In (y, w) chosen ->
        w <= v.
Proof.
  intros flexes num fr. rewrite best_flex_run. cbv zeta. cbn [fst].
  eexists. eexists. split; [reflexivity|].
  rewrite flex_best_ranked.
  set (pl := flex_pool flexes (player_pool fr)).
  split; [|split].
  - now rewrite length_firstn, (Permutation_length (sorted_desc_perm pl)).
  - intros e He. apply (Permutation_in _ (sorted_desc_perm pl)).
    rewrite <- (firstn_skipn num (sorted_desc pl)). apply in_or_app. now left.
  - intros x v y w Hx Hy Hn.
    apply (Permutation_in _ (Permutation_sym (sorted_desc_perm pl))) in Hy.
    rewrite <- (firstn_skipn num (sorted_desc pl)) in Hy.
    apply in_app_or in Hy. destruct Hy as [Hy | Hy]; [contradiction|].
    pose proof (sorted_points_descending (dict_values pl)) as Hd.
    rewrite <- values_sorted_desc, <- (firstn_skipn num (sorted_desc pl)) in Hd.
    unfold dict_values in Hd. rewrite map_app in Hd.
    apply (descending_app _ _ Hd v w).
    + apply (in_map snd) in Hx. exact Hx.
    + apply (in_map snd) in Hy. exact Hy.
Qed.

Lemma position_steps_keys starter_counts ks :
  forall fr,
    NoDup (dict_keys (best_lineup fr) ++ ks) ->
    dict_keys (best_lineup (fold_left (fun fr position =>
                                         position_step starter_counts position fr)
                              ks fr)) =
    dict_keys (best_lineup fr) ++ ks.
Proof.
  induction ks as [|k ks IH]; intros fr Hnd; cbn [fold_left].
  - now rewrite app_nil_r.
  - assert (Hk : dict_keys (best_lineup (position_step starter_counts k fr)) =
                 dict_keys (best_lineup fr) ++ [k]).
    { assert (Hfresh : ~ In k (dict_keys (best_lineup fr))).
      { apply NoDup_remove_2 in Hnd. intros Hin. apply Hnd, in_or_app. now left. }
      unfold position_step.
      destruct (dict_get (position_players fr) k); cbn [best_lineup];
        rewrite dict_keys_set, dict_contains_keys, (proj2 (mem_false _ _) Hfresh);
        reflexivity. }
    rewrite IH; rewrite Hk, <- app_assoc; [reflexivity | exact Hnd].
Qed.

Lemma flex_step_keys slot flex num fr :
  In slot (dict_keys (best_lineup fr)) ->
  dict_keys (best_lineup (flex_step slot flex num fr)) = dict_keys (best_lineup fr).
Proof. intros H. unfold flex_step. cbn [best_lineup]. now apply dict_keys_set_present. Qed.

Lemma flexes_steps_keys starter_counts ks :
  forall fr,
    incl ks (dict_keys (best_lineup fr)) ->
    dict_keys (best_lineup (fold_left (fun fr position =>
                                         flexes_step starter_counts position fr)
                              ks fr)) =
    dict_keys (best_lineup fr).
Proof.
  induction ks as [|k ks IH]; intros fr Hin; cbn [fold_left]; [reflexivity|].
  assert (Hk : dict_keys (best_lineup (flexes_step starter_counts k fr)) =
               dict_keys (best_lineup fr)).
  { unfold flexes_step. destruct (is_flex k); [|reflexivity].
    apply flex_step_keys, Hin. now left. }
  rewrite IH; rewrite Hk; [reflexivity|].
  intros x Hx. apply Hin. now right.
Qed.

Lemma named_step_keys slot flex starter_counts fr :
  dict_keys (best_lineup fr) = dict_keys starter_counts ->
  dict_keys (best_lineup (named_step slot flex starter_counts fr)) =
  dict_keys starter_counts.
Proof.
  intros H. unfold named_step. rewrite dict_contains_keys.
  destruct (mem slot (dict_keys starter_counts)) eqn:E; [|exact H].
  rewrite flex_step_keys; [exact H|]. rewrite H. now apply mem_In.
Qed.

(** X21: the optimal lineup has the slots of the configuration, each once and
    in the order of the configuration: no slot is dropped when there is no
    player for it, and none is added. *)
Theorem optimal_lineup_slots :
  forall (lineup : list Player) (starter_counts : dict nat),
    NoDup (dict_keys starter_counts) ->
    dict_keys (optimal_lineup lineup starter_counts) = dict_keys starter_counts.
Proof.
  intros lineup starter_counts Hnd.
  rewrite optimal_lineup_allocated. unfold allocated. cbv zeta.
  apply named_step_keys, named_step_keys.
  assert (H2 : dict_keys
                 (best_lineup
                    (fold_left (fun fr position => position_step starter_counts position fr)
                       (dict_keys starter_counts)
                       (fold_left (fun fr player => collect_step player fr) lineup
                          initial_locals))) = dict_keys starter_counts).
  { rewrite position_steps_keys;
      rewrite (proj1 (collect_frame lineup initial_locals)); [reflexivity | exact Hnd]. }
  rewrite flexes_steps_keys; [exact H2|]. rewrite H2. apply incl_refl.
Qed.

Lemma optimal_lineup_slots_witness :
  dict_keys (optimal_lineup bench_lineup scenario_A_counts) = dict_keys scenario_A_counts.
Proof.
  apply optimal_lineup_slots. vm_compute.
  repeat constructor; simpl; intuition discriminate.
Defined.

(** ** Achievers *)

Lemma note_performance_of seen performance side fr :
  achievers_of seen fr ->
  achievers_of (seen ++ side_performance performance side)
    (note_performance performance side fr).
Proof.
  intros (Hall & Hbest & Hworst). destruct side as [|t]; simpl.
  - rewrite app_nil_r. repeat split; try assumption; now apply Hall.
  - unfold achievers_of.
    destruct (Z.ltb_spec (best_performance fr) performance) as [Hb | Hb];
      cbn [best_performance worst_performance over_achiever under_achiever];
      destruct (Z.ltb_spec performance (worst_performance fr)) as [Hw | Hw];
      cbn [best_performance worst_performance over_achiever under_achiever];
      (split; [|split]);
      try (intros e He; apply in_app_or in He; destruct He as [He | [<- | []]];
           [specialize (Hall e He); lia | simpl; lia]);
      try (right; apply in_or_app; right; now left);
      try (destruct Hbest as [Hbest | Hbest];
           [now left | right; apply in_or_app; now left]);
      try (destruct Hworst as [Hworst | Hworst];
           [now left | right; apply in_or_app; now left]).
Qed.

Lemma achievers_loop box_scores :
  forall seen fr,
    achievers_of seen fr ->
    achievers_of (seen ++ performances box_scores)
      (fold_left (fun fr i =>
                    let home_performance := home_score i - home_projected i in
                    let away_performance := away_score i - away_projected i in
                    note_performance away_performance (away_team i)
                      (note_performance home_performance (home_team i) fr))
                 box_scores fr).
Proof.
  induction box_scores as [|i l IH]; intros seen fr H; simpl.
  - now rewrite app_nil_r.
  - rewrite !app_assoc. apply IH. rewrite <- app_assoc, app_assoc.
    now apply note_performance_of, note_performance_of.
Qed.

(** X22: [get_achievers_trophy] returns two lines.  The first names a team
    with the highest performance of the week (score less projection) and that
    performance, when some team is above its projection, and is a fixed text
    otherwise; the second names a team with the lowest performance and its
    distance to the projection, when some team is below its projection, and
    is a fixed text otherwise. *)
Theorem get_achievers_trophy_extremes :
  forall (format_over format_under : string -> Z -> string)
         (box_scores : list Matchup),
    exists high low,
      get_achievers_trophy format_over format_under box_scores = [high; low] /\
      ((forall e, In e (performances box_scores) -> fst e <= 0) ->
       high = no_over_achiever) /\
      ((exists e, In e (performances box_scores) /\ 0 < fst e) ->
       exists best team,
         In (best, team) (performances box_scores) /\
         (forall e, In e (performances box_scores) -> fst e <= best) /\
         high = format_over team best) /\
      ((forall e, In e (performances box_scores) -> 0 <= fst e) ->
       low = no_under_achiever) /\
      ((exists e, In e (performances box_scores) /\ fst e < 0) ->
       exists worst team,
         In (worst, team) (performances box_scores) /\
         (forall e, In e (performances box_scores) -> worst <= fst e) /\
         low = format_under team (- worst)).
Proof.
  intros fo fu box_scores. unfold get_achievers_trophy.
  assert (H0 : achievers_of []
                 {| over_achiever := EmptyString; under_achiever := EmptyString;
                    best_performance := -9999; worst_performance := 9999 |}).
  { split; [intros e []|]. split; now left. }
  cbv zeta. set (fr := fold_left _ box_scores _).
  assert (H : achievers_of (performances box_scores) fr)
    by apply (achievers_loop box_scores [] _ H0).
  clearbody fr. destruct H as (Hall & Hbest & Hworst). cbn [app].
  exists (if 0 <? best_performance fr
          then fo (over_achiever fr) (best_performance fr) else no_over_achiever),
         (if worst_performance fr <? 0
          then fu (under_achiever fr) (Z.abs (worst_performance fr))
          else no_under_achiever).
  split; [reflexivity|].
  split; [|split; [|split]].
  - intros Hle. destruct (Z.ltb_spec 0 (best_performance fr)) as [Hpos | _]; [|reflexivity].
    destruct Hbest as [Hbest | Hbest]; [lia|]. specialize (Hle _ Hbest). simpl in Hle. lia.
  - intros (e & He & Hpos). pose proof (Hall e He) as Hb.
    destruct (Z.ltb_spec 0 (best_performance fr)) as [_ | Hn]; [|lia].
    destruct Hbest as [Hbest | Hbest]; [lia|].
    exists (best_performance fr), (over_achiever fr).
    split; [exact Hbest|]. split; [|reflexivity]. intros e' He'. apply (Hall e' He').
  - intros Hge. destruct (Z.ltb_spec (worst_performance fr) 0) as [Hneg | _]; [|reflexivity].
    destruct Hworst as [Hworst | Hworst]; [lia|]. specialize (Hge _ Hworst). simpl in Hge. lia.
  - intros (e & He & Hneg). pose proof (Hall e He) as Hb.
    destruct (Z.ltb_spec (worst_performance fr) 0) as [Hw | Hn]; [|lia].
    destruct Hworst as [Hworst | Hworst]; [lia|].
    exists (worst_performance fr), (under_achiever fr).
    split; [exact Hworst|]. split.
    + intros e' He'. apply (Hall e' He').
    + f_equal. lia.
Qed.

(** ** Most and least valuable players *)

Lemma judge_lineup_candidates guard score_text label lineup team pair :
  judge_lineup guard score_text label lineup team pair =
  fold_left (fun pair c => judge score_text label (snd c) pair (fst c))
            (map (fun p => (p, team)) (filter guard lineup)) pair.
Proof.
  unfold judge_lineup. revert pair.
  induction lineup as [|p lineup IH]; intros pair; simpl; [reflexivity|].
  destruct (guard p); simpl; apply IH.
Qed.

Lemma judge_matchups_candidates format_points format_defence_points matchups :
  judge_matchups format_points format_defence_points matchups =
  (fold_left (fun pair c =>
                judge (player_score format_points) player_label (snd c) pair (fst c))
             (candidates eligible_player matchups)
             (most_valuable_start, least_valuable_start),
   fold_left (fun pair c =>
                judge (defence_score format_defence_points) name (snd c) pair (fst c))
             (candidates eligible_defence matchups)
             (most_valuable_start, least_valuable_start)).
Proof.
  unfold judge_matchups.
  generalize (most_valuable_start, least_valuable_start) at 1 3.
  generalize (most_valuable_start, least_valuable_start).
  induction matchups as [|i l IH]; intros defences players; [reflexivity|].
  cbn [fold_left candidates flat_map]. rewrite IH, !fold_left_app.
  now rewrite !judge_lineup_candidates.
Qed.

Lemma judge_awarded score_text label team pair p :
  (awarded (judge score_text label team pair p) <= S (awarded pair))%nat.
Proof.
  unfold judge, awarded. destruct pair as [most least].
  destruct (_ || _); cbn [fst snd trophy_team].
  - destruct (trophy_team most), (trophy_team least); lia.
  - destruct (_ || _); cbn [fst snd trophy_team];
      destruct (trophy_team most), (trophy_team least); lia.
Qed.

Lemma judged_awarded score_text label cands :
  forall pair,
    (awarded (fold_left (fun pair c => judge score_text label (snd c) pair (fst c))
                cands pair) <= awarded pair + List.length cands)%nat.
Proof.
  induction cands as [|c cands IH]; intros pair; simpl; [lia|].
  specialize (IH (judge score_text label (snd c) pair (fst c))).
  pose proof (judge_awarded score_text label (snd c) pair (fst c)). lia.
Qed.

Lemma trophy_line_cases kind tr :
  trophy_line kind tr = Fail AttributeError \/
  exists t, trophy_team tr = Some (a_team t) /\
            trophy_line kind tr =
            Ok [trophy_text kind (trophy_player tr) (team_abbrev t) (trophy_score tr)].
Proof.
  unfold trophy_line, trophy_abbrev.
  destruct (trophy_team tr) as [[|t]|]; cbn [attribute and_then]; eauto.
Qed.

Lemma get_mvp_lvp_cases format_points format_defence_points matchups :
  get_mvp_lvp format_points format_defence_points matchups = Fail AttributeError \/
  exists mvp lvp mvd lvd tp tl td tld,
    judge_matchups format_points format_defence_points matchups =
      ((mvp, lvp), (mvd, lvd)) /\
    trophy_team mvp = Some (a_team tp) /\ trophy_team lvp = Some (a_team tl) /\
    trophy_team mvd = Some (a_team td) /\ trophy_team lvd = Some (a_team tld) /\
    exists l1 l3,
      get_mvp_lvp format_points format_defence_points matchups =
      Ok [trophy_text "💯 MVP" (trophy_player mvp) (team_abbrev tp) (trophy_score mvp);
          l1;
          trophy_text "✅ MVD" (trophy_player mvd) (team_abbrev td) (trophy_score mvd);
          l3].
Proof.
  unfold get_mvp_lvp.
  destruct (judge_matchups format_points format_defence_points matchups)
    as [[mvp lvp] [mvd lvd]].
  destruct (trophy_line_cases "💯 MVP" mvp) as [-> | (tp & Hp & ->)]; [now left|].
  destruct (trophy_line_cases "✅ MVD" mvd) as [-> | (td & Hd & ->)]; [now left|].
  destruct (trophy_line_cases "💀 LVP" lvp) as [-> | (tl & Hl & ->)]; [now left|].
  destruct (trophy_line_cases "🔴 LVD" lvd) as [-> | (tld & Hld & ->)]; [now left|].
  right. exists mvp, lvp, mvd, lvd, tp, tl, td, tld.
  repeat (split; [reflexivity || assumption|]).
  eexists. eexists. reflexivity.
Qed.

Lemma get_mvp_lvp_returns_candidates format_points format_defence_points matchups lines :
  get_mvp_lvp format_points format_defence_points matchups = Ok lines ->
  (2 <= List.length (candidates eligible_player matchups))%nat /\
  (2 <= List.length (candidates eligible_defence matchups))%nat.
Proof.
  intros Hok.
  destruct (get_mvp_lvp_cases format_points format_defence_points matchups)
    as [E | (mvp & lvp & mvd & lvd & tp & tl & td & tld & Hj & Hp & Hl & Hd & Hld & _)];
    [congruence|].
  rewrite judge_matchups_candidates in Hj. injection Hj as Hplayers Hdefences.
  pose proof (judged_awarded (player_score format_points) player_label
                (candidates eligible_player matchups)
                (most_valuable_start, least_valuable_start)) as H1.
  pose proof (judged_awarded (defence_score format_defence_points) name
                (candidates eligible_defence matchups)
                (most_valuable_start, least_valuable_start)) as H2.
  rewrite Hplayers in H1. rewrite Hdefences in H2.
  unfold awarded in H1, H2. cbn [fst snd] in H1, H2.
  rewrite Hp, Hl in H1. rewrite Hd, Hld in H2. simpl in H1, H2. lia.
Qed.

(** X23: [get_mvp_lvp] needs two candidates of each kind: when fewer than two
    starters outside the D/ST slot have a positive projection, or fewer than
    two starters in the D/ST slot have one, a trophy keeps its initial team
    -1 and the function raises [AttributeError]. *)
Theorem get_mvp_lvp_needs_two_candidates :
  forall (format_points format_defence_points : Z -> Z -> string)
         (matchups : list Matchup),
    (List.length (candidates eligible_player matchups) < 2)%nat \/
    (List.length (candidates eligible_defence matchups) < 2)%nat ->
    get_mvp_lvp format_points format_defence_points matchups = Fail AttributeError.
Proof.
  intros fp fd matchups H.
  destruct (get_mvp_lvp_cases fp fd matchups)
    as [E | (mvp & lvp & mvd & lvd & tp & tl & td & tld & _ & _ & _ & _ & _
             & l1 & l3 & E)]; [exact E | exfalso].
  pose proof (get_mvp_lvp_returns_candidates fp fd matchups _ E). lia.
Qed.

Lemma get_mvp_lvp_needs_two_candidates_witness :
  get_mvp_lvp example_format_points example_format_points
    [other_matchup; running_matchup] = Fail AttributeError.
Proof.
  apply get_mvp_lvp_needs_two_candidates. right. vm_compute. lia.
Defined.

Lemma Qgt_bool_false x y : Qgt_bool x y = false -> (x <= y)%Q.
Proof. unfold Qgt_bool. intros H. apply negb_false_iff in H. now apply Qle_bool_iff. Qed.

Lemma Qgt_bool_true x y : Qgt_bool x y = true -> (y <= x)%Q.
Proof.
  unfold Qgt_bool. intros H. apply negb_true_iff in H.
  destruct (Qlt_le_dec y x) as [Hlt | Hle]; [now apply Qlt_le_weak|].
  apply Qle_bool_iff in Hle. congruence.
Qed.

Lemma judged_most score_text label cands :
  forall seen pair,
    (forall c, In c seen -> (ratio_of (fst c) <= trophy_score_diff (fst pair))%Q) ->
    (trophy_team (fst pair) = None \/
     exists c, In c seen /\ fst pair = trophy_of score_text label c) ->
    (forall c, In c (seen ++ cands) ->
               (ratio_of (fst c) <=
                trophy_score_diff
                  (fst (fold_left (fun pair c =>
                                     judge score_text label (snd c) pair (fst c))
                          cands pair)))%Q) /\
    (trophy_team (fst (fold_left (fun pair c =>
                                    judge score_text label (snd c) pair (fst c))
                         cands pair)) = None \/
     exists c, In c (seen ++ cands) /\
               fst (fold_left (fun pair c =>
                                 judge score_text label (snd c) pair (fst c))
                      cands pair) = trophy_of score_text label c).
Proof.
  induction cands as [|[p side] cands IH]; intros seen pair Hall Hmost.
  - simpl. rewrite app_nil_r. auto.
  - cbn [fold_left fst snd].
    replace (seen ++ (p, side) :: cands) with ((seen ++ [(p, side)]) ++ cands)
      by now rewrite <- app_assoc.
    apply IH.
    + intros c Hc. destruct pair as [most least]. unfold judge. cbn [fst] in *.
      destruct (_ || _) eqn:E; cbn [fst trophy_score_diff].
      * assert (Hle : (trophy_score_diff most <= ratio_of p)%Q).
        { apply orb_true_iff in E. destruct E as [E | E].
          - now apply Qgt_bool_true.
          - apply andb_true_iff in E. destruct E as [E _].
            apply Qeq_bool_iff in E. rewrite E. apply Qle_refl. }
        apply in_app_or in Hc. destruct Hc as [Hc | [<- | []]].
        -- apply (Qle_trans _ _ _ (Hall c Hc) Hle).
        -- apply Qle_refl.
      * apply orb_false_iff in E. destruct E as [E _]. apply Qgt_bool_false in E.
        assert (Hc' : (ratio_of (fst c) <= trophy_score_diff most)%Q).
        { apply in_app_or in Hc. destruct Hc as [Hc | [<- | []]];
            [now apply Hall | exact E]. }
        destruct (_ || _); exact Hc'.
    + destruct pair as [most least]. unfold judge. cbn [fst] in *.
      destruct (_ || _); cbn [fst].
      * right. exists (p, side). split; [apply in_or_app; right; now left | reflexivity].
      * assert (H : trophy_team most = None \/
                    exists c, In c (seen ++ [(p, side)]) /\
                              most = trophy_of score_text label c).
        { destruct Hmost as [Hn | (c & Hc & Ec)]; [now left|].
          right. exists c. split; [apply in_or_app; now left | exact Ec]. }
        destruct (_ || _); exact H.
Qed.

(** X24: when [get_mvp_lvp] returns, its first line names a starter outside
    the D/ST slot whose ratio of points above projection is the highest among
    those with a positive projection, with the team it plays for; its third
    line does the same for the starters in the D/ST slot. *)
Theorem get_mvp_lvp_most_valuable :
  forall (format_points format_defence_points : Z -> Z -> string)
         (matchups : list Matchup) (lines : list string),
    get_mvp_lvp format_points format_defence_points matchups = Ok lines ->
    exists p side d side' lvp_line lvd_line,
      In (p, side) (candidates eligible_player matchups) /\
      (forall c, In c (candidates eligible_player matchups) ->
                 (ratio_of (fst c) <= ratio_of p)%Q) /\
      In (d, side') (candidates eligible_defence matchups) /\
      (forall c, In c (candidates eligible_defence matchups) ->
                 (ratio_of (fst c) <= ratio_of d)%Q) /\
      lines =
      [trophy_text "💯 MVP" (player_label p) (abbrev_of side)
         (player_score format_points p);
       lvp_line;
       trophy_text "✅ MVD" (name d) (abbrev_of side')
         (defence_score format_defence_points d);
       lvd_line].
Proof.
  intros fp fd matchups lines Hok.
  destruct (get_mvp_lvp_cases fp fd matchups)
    as [E | (mvp & lvp & mvd & lvd & tp & tl & td & tld & Hj & Hp & Hl & Hd & Hld
             & l1 & l3 & E)]; [congruence|].
  rewrite E in Hok. injection Hok as <-.
  rewrite judge_matchups_candidates in Hj. injection Hj as Hplayers Hdefences.
  assert (Hstart : forall c : Player * team_ref, In c [] ->
            (ratio_of (fst c) <=
             trophy_score_diff (fst (most_valuable_start, least_valuable_start)))%Q)
    by (intros c []).
  destruct (judged_most (player_score fp) player_label
              (candidates eligible_player matchups) []
              (most_valuable_start, least_valuable_start) Hstart (or_introl eq_refl))
    as [Hmax1 Hin1].
  destruct (judged_most (defence_score fd) name
              (candidates eligible_defence matchups) []
              (most_valuable_start, least_valuable_start) Hstart (or_introl eq_refl))
    as [Hmax2 Hin2].
  rewrite Hplayers in Hmax1, Hin1. rewrite Hdefences in Hmax2, Hin2.
  cbn [fst app] in Hmax1, Hin1, Hmax2, Hin2.
  destruct Hin1 as [Hn | ([p side] & Hc1 & E1)]; [congruence|].
  destruct Hin2 as [Hn | ([d side'] & Hc2 & E2)]; [congruence|].
  subst mvp mvd. cbn [trophy_of trophy_team trophy_score_diff trophy_player
                      trophy_score fst snd] in *.
  injection Hp as ->. injection Hd as ->.
  exists p, (a_team tp), d, (a_team td), l1, l3.
  repeat (split; [assumption|]). reflexivity.
Qed.

Lemma get_mvp_lvp_most_valuable_witness :
  exists p side d side' lvp_line lvd_line,
    In (p, side) (candidates eligible_player [finished_matchup]) /\
    (forall c, In c (candidates eligible_player [finished_matchup]) ->
               (ratio_of (fst c) <= ratio_of p)%Q) /\
    In (d, side') (candidates eligible_defence [finished_matchup]) /\
    (forall c, In c (candidates eligible_defence [finished_matchup]) ->
               (ratio_of (fst c) <= ratio_of d)%Q) /\
    match get_mvp_lvp example_format_points example_format_points [finished_matchup] with
    | Ok lines => lines
    | Fail _ => []
    end =
    [trophy_text "💯 MVP" (player_label p) (abbrev_of side)
       (player_score example_format_points p);
     lvp_line;
     trophy_text "✅ MVD" (name d) (abbrev_of side')
       (defence_score example_format_points d);
     lvd_line].
Proof.
  apply (get_mvp_lvp_most_valuable example_format_points example_format_points
           [finished_matchup]).
  reflexivity.
Defined.

(** ** The lucky and the unlucky team *)

Lemma team_ids_app {V} (a b : team_dict V) : team_ids (a ++ b) = team_ids a ++ team_ids b.
Proof. apply map_app. Qed.

Lemma team_set_two {V} (acc rest : team_dict V) h a v w :
  NoDup (team_ids (acc ++ [(h, v); (a, w)] ++ rest)) ->
  team_set (team_set acc h v) a w = acc ++ [(h, v); (a, w)].
Proof.
  intros Hn. rewrite !team_ids_app in Hn. cbn [team_ids map app fst] in Hn.
  fold (team_ids acc) in Hn. fold (team_ids rest) in Hn.
  rewrite (team_set_absent acc h v).
  - rewrite team_set_absent; [now rewrite <- app_assoc|].
    rewrite team_ids_app. cbn [team_ids map fst].
    assert (Hn2 : NoDup ((team_ids acc ++ [team_id h]) ++ team_id a :: team_ids rest))
      by (rewrite <- app_assoc; exact Hn).
    apply NoDup_remove_2 in Hn2. intros Hin. apply Hn2, in_or_app. now left.
  - apply NoDup_remove_2 in Hn. intros Hin. apply Hn, in_or_app. now left.
Qed.

Lemma weekly_scores_entries box_scores :
  NoDup (team_ids (week_entries box_scores)) ->
  weekly_scores_of box_scores = week_entries box_scores.
Proof.
  unfold weekly_scores_of, week_entries.
  assert (H : forall acc : team_dict (Z * verdict),
             NoDup (team_ids (acc ++ flat_map matchup_entries box_scores)) ->
             fold_left (fun weekly_scores i =>
               match home_team i, away_team i with
               | a_team h, a_team a =>
                   if away_score i <? home_score i
                   then team_set (team_set weekly_scores h (home_score i, Win))
                          a (away_score i, Loss)
                   else team_set (team_set weekly_scores h (home_score i, Loss))
                          a (away_score i, Win)
               | _, _ => weekly_scores
               end) box_scores acc =
             acc ++ flat_map matchup_entries box_scores).
  { induction box_scores as [|i l IH]; intros acc Hnd; cbn [fold_left flat_map].
    - now rewrite app_nil_r.
    - cbn [flat_map] in Hnd. unfold matchup_entries at 1.
      unfold matchup_entries at 1 in Hnd.
      destruct (home_team i) as [|h]; [now apply IH|].
      destruct (away_team i) as [|a]; [now apply IH|].
      destruct (away_score i <? home_score i);
        rewrite (team_set_two _ _ _ _ _ _ Hnd), IH; rewrite <- ?app_assoc;
        try reflexivity; exact Hnd. }
  intros Hnd. apply (H [] Hnd).
Qed.

Lemma weekly_leb_total {K} (x y : K * (Z * verdict)) :
  weekly_leb x y = true \/ weekly_leb y x = true.
Proof.
  unfold weekly_leb. destruct x as [kx [sx vx]], y as [ky [sy vy]]. cbn [fst snd].
  destruct (Z.ltb_spec sx sy); [now left|].
  destruct (Z.ltb_spec sy sx); [now right|].
  replace (sx =? sy) with true by (symmetry; apply Z.eqb_eq; lia).
  replace (sy =? sx) with true by (symmetry; apply Z.eqb_eq; lia).
  destruct vx, vy; simpl; auto.
Qed.

Lemma weekly_leb_spec {K} (x y : K * (Z * verdict)) :
  weekly_leb x y = true <->
  fst (snd x) < fst (snd y) \/
  (fst (snd x) = fst (snd y) /\ verdict_leb (snd (snd x)) (snd (snd y)) = true).
Proof.
  unfold weekly_leb.
  rewrite orb_true_iff, andb_true_iff, Z.ltb_lt, Z.eqb_eq. reflexivity.
Qed.

Lemma weekly_leb_trans {K} (x y z : K * (Z * verdict)) :
  weekly_leb x y = true -> weekly_leb y z = true -> weekly_leb x z = true.
Proof.
  rewrite !weekly_leb_spec.
  intros [H1 | [H1 V1]] [H2 | [H2 V2]]; [left; lia | left; lia | left; lia |].
  right. split; [lia|].
  destruct (snd (snd x)), (snd (snd y)), (snd (snd z)); simpl in *; congruence.
Qed.

Lemma first_with_split mark l :
  forall count,
    match first_with mark l count with
    | Some (t, k) =>
        exists pre s post,
          l = pre ++ (t, (s, mark)) :: post /\
          (forall e, In e pre -> verdict_eqb (snd (snd e)) mark = false) /\
          k = count + Z.of_nat (List.length pre)
    | None => forall e, In e l -> verdict_eqb (snd (snd e)) mark = false
    end.
Proof.
  induction l as [|[t [s v]] l IH]; intros count; cbn [first_with].
  - intros e [].
  - destruct (verdict_eqb v mark) eqn:E.
    + exists [], s, l. split; [|split; [intros e [] | simpl; lia]].
      destruct v, mark; try discriminate; reflexivity.
    + specialize (IH (count + 1)).
      destruct (first_with mark l (count + 1)) as [[t' k]|].
      * destruct IH as (pre & s' & post & -> & Hpre & ->).
        exists ((t, (s, v)) :: pre), s', post.
        split; [reflexivity|]. split.
        -- intros e [<- | He]; [exact E | now apply Hpre].
        -- cbn [List.length]. lia.
      * intros e [<- | He]; [exact E | now apply IH].
Qed.

Lemma filter_all {A} (f : A -> bool) l :
  (forall x, In x l -> f x = true) -> filter f l = l.
Proof.
  induction l as [|y l IH]; intros H; simpl; [reflexivity|].
  rewrite (H y (or_introl eq_refl)), IH; [reflexivity|].
  intros x Hx. apply H. now right.
Qed.

Lemma unlucky_is_best_loser (d : team_dict (Z * verdict)) t k :
  descending_by weekly_leb d ->
  first_with Loss d 0 = Some (t, k) ->
  exists s,
    In (t, (s, Loss)) d /\
    (forall t' s', In (t', (s', Loss)) d -> s' <= s) /\
    k = Z.of_nat (List.length (filter (winner_from s) d)).
Proof.
  intros Hd Hf. pose proof (first_with_split Loss d 0) as H. rewrite Hf in H.
  destruct H as (pre & s & post & -> & Hpre & ->).
  exists s. split; [apply in_or_app; right; now left|].
  assert (Hbefore : forall e, In e pre -> weekly_leb (t, (s, Loss)) e = true).
  { intros e He. apply (descending_by_app weekly_leb _ _ Hd e (t, (s, Loss)) He).
    now left. }
  assert (Hafter : forall e, In e post -> weekly_leb e (t, (s, Loss)) = true).
  { intros e He.
    replace (pre ++ (t, (s, Loss)) :: post) with ((pre ++ [(t, (s, Loss))]) ++ post) in Hd
      by now rewrite <- app_assoc.
    apply (descending_by_app weekly_leb _ _ Hd (t, (s, Loss)) e); [|exact He].
    apply in_or_app. right. now left. }
  split.
  - intros t' s' Hin. apply in_app_or in Hin. destruct Hin as [Hin | [Hin | Hin]].
    + specialize (Hpre _ Hin). discriminate.
    + injection Hin as _ <-. lia.
    + apply Hafter, weekly_leb_spec in Hin. cbn [fst snd] in Hin. lia.
  - rewrite filter_app. cbn [filter]. unfold winner_from at 2. cbn [snd verdict_eqb andb].
    rewrite filter_all, (proj2 (filter_nil_none _ _)), length_app; [simpl; lia | |].
    + intros [t' [s' v]] He. unfold winner_from. cbn [fst snd].
      apply Hafter, weekly_leb_spec in He. cbn [fst snd] in He.
      destruct v; cbn [verdict_eqb andb]; [|reflexivity].
      apply Z.leb_gt. destruct He as [He | [_ He]]; [lia | discriminate].
    + intros [t' [s' v]] He. unfold winner_from. cbn [fst snd].
      pose proof (Hpre _ He) as Hv. cbn [snd] in Hv.
      apply Hbefore, weekly_leb_spec in He. cbn [fst snd] in He.
      destruct v; [|discriminate]. cbn [verdict_eqb andb]. apply Z.leb_le. lia.
Qed.

Lemma lucky_is_worst_winner (a : team_dict (Z * verdict)) t k :
  descending_by (fun y x => weekly_leb x y) a ->
  first_with Win a 0 = Some (t, k) ->
  exists s,
    In (t, (s, Win)) a /\
    (forall t' s', In (t', (s', Win)) a -> s <= s') /\
    k = Z.of_nat (List.length (filter (loser_up_to s) a)).
Proof.
  intros Hd Hf. pose proof (first_with_split Win a 0) as H. rewrite Hf in H.
  destruct H as (pre & s & post & -> & Hpre & ->).
  exists s. split; [apply in_or_app; right; now left|].
  assert (Hbefore : forall e, In e pre -> weekly_leb e (t, (s, Win)) = true).
  { intros e He.
    apply (descending_by_app (fun y x => weekly_leb x y) _ _ Hd e (t, (s, Win)) He).
    now left. }
  assert (Hafter : forall e, In e post -> weekly_leb (t, (s, Win)) e = true).
  { intros e He.
    replace (pre ++ (t, (s, Win)) :: post) with ((pre ++ [(t, (s, Win))]) ++ post) in Hd
      by now rewrite <- app_assoc.
    apply (descending_by_app (fun y x => weekly_leb x y) _ _ Hd (t, (s, Win)) e);
      [|exact He].
    apply in_or_app. right. now left. }
  split.
  - intros t' s' Hin. apply in_app_or in Hin. destruct Hin as [Hin | [Hin | Hin]].
    + specialize (Hpre _ Hin). discriminate.
    + injection Hin as _ <-. lia.
    + apply Hafter, weekly_leb_spec in Hin. cbn [fst snd] in Hin. lia.
  - rewrite filter_app. cbn [filter]. unfold loser_up_to at 2. cbn [snd verdict_eqb andb].
    rewrite filter_all, (proj2 (filter_nil_none _ _)), length_app; [simpl; lia | |].
    + intros [t' [s' v]] He. unfold loser_up_to. cbn [fst snd].
      apply Hafter, weekly_leb_spec in He. cbn [fst snd] in He.
      destruct v; cbn [verdict_eqb andb]; [reflexivity|].
      apply Z.leb_gt. destruct He as [He | [_ He]]; [lia | discriminate].
    + intros [t' [s' v]] He. unfold loser_up_to. cbn [fst snd].
      pose proof (Hpre _ He) as Hv. cbn [snd] in Hv.
      apply Hbefore, weekly_leb_spec in He. cbn [fst snd] in He.
      destruct v; [discriminate|]. cbn [verdict_eqb andb]. apply Z.leb_le. lia.
Qed.

Lemma week_entries_both box_scores :
  week_entries box_scores <> [] ->
  (exists t s, In (t, (s, Win)) (week_entries box_scores)) /\
  (exists t s, In (t, (s, Loss)) (week_entries box_scores)).
Proof.
  unfold week_entries.
  induction box_scores as [|i l IH]; [intros H; exfalso; now apply H|].
  cbn [flat_map]. intros Hne.
  destruct (matchup_entries i) as [|e es] eqn:E.
  - destruct (IH Hne) as [(t & s & H1) (t' & s' & H2)]. eauto.
  - clear IH Hne. unfold matchup_entries in E.
    destruct (home_team i) as [|h]; [discriminate|].
    destruct (away_team i) as [|a]; [discriminate|].
    destruct (away_score i <? home_score i); injection E as <- <-; split;
      eexists; eexists; simpl; eauto.
Qed.

Lemma first_with_found mark (l : team_dict (Z * verdict)) t s :
  In (t, (s, mark)) l -> exists t' k, first_with mark l 0 = Some (t', k).
Proof.
  intros Hin. pose proof (first_with_split mark l 0) as H.
  destruct (first_with mark l 0) as [[t' k]|]; [eauto|].
  specialize (H _ Hin). cbn [snd] in H. destruct mark; discriminate.
Qed.

(** X25: in a week in which no team plays twice and some matchup has two
    teams, the unlucky team of [get_lucky_trophy] is a loser with the highest
    score among the losers, and the lucky team a winner with the lowest score
    among the winners; the record of the unlucky team counts as its losses
    the winners that scored at least as much, the record of the lucky team
    counts as its wins the losers that scored at most as much. *)
Theorem get_lucky_trophy_picks :
  forall (str : Z -> string) (box_scores : list Matchup),
    NoDup (team_ids (week_entries box_scores)) ->
    week_entries box_scores <> [] ->
    exists lucky sl unlucky su,
      In (lucky, (sl, Win)) (week_entries box_scores) /\
      (forall t s, In (t, (s, Win)) (week_entries box_scores) -> sl <= s) /\
      In (unlucky, (su, Loss)) (week_entries box_scores) /\
      (forall t s, In (t, (s, Loss)) (week_entries box_scores) -> s <= su) /\
      let others := Z.of_nat (List.length (week_entries box_scores)) - 1 in
      let wins :=
        Z.of_nat (List.length (filter (loser_up_to sl) (week_entries box_scores))) in
      let losses :=
        Z.of_nat (List.length (filter (winner_from su) (week_entries box_scores))) in
      get_lucky_trophy str box_scores =
      [lucky_text (team_name lucky) (record_text str wins (others - wins));
       unlucky_text (team_name unlucky) (record_text str (others - losses) losses)].
Proof.
  intros str box_scores Hnd Hne. unfold get_lucky_trophy.
  rewrite (weekly_scores_entries _ Hnd).
  set (ws := week_entries box_scores) in *.
  assert (Pd : Permutation (sorted_by weekly_leb ws) ws) by apply sorted_by_perm.
  assert (Nd : NoDup (team_ids (sorted_by weekly_leb ws))).
  { apply (Permutation_NoDup (Permutation_map _ (Permutation_sym Pd)) Hnd). }
  rewrite (team_dict_of_items_id _ Nd).
  set (d := sorted_by weekly_leb ws) in *.
  assert (Pa : Permutation (sorted_by (fun y x => weekly_leb x y) d) d)
    by apply sorted_by_perm.
  assert (Na : NoDup (team_ids (sorted_by (fun y x => weekly_leb x y) d))).
  { apply (Permutation_NoDup (Permutation_map _ (Permutation_sym Pa)) Nd). }
  rewrite (team_dict_of_items_id _ Na).
  set (a := sorted_by (fun y x : Team * (Z * verdict) => weekly_leb x y) d) in *.
  assert (Hd : descending_by weekly_leb d).
  { apply sorted_by_descending; [apply weekly_leb_total | apply weekly_leb_trans]. }
  assert (Ha : descending_by (fun y x : Team * (Z * verdict) => weekly_leb x y) a).
  { apply sorted_by_descending.
    - intros x y. destruct (weekly_leb_total x y); auto.
    - intros x y z H1 H2. apply (weekly_leb_trans z y x H2 H1). }
  destruct (week_entries_both box_scores Hne) as [(tw & sw & Hw) (tl & sl0 & Hl)].
  fold ws in Hw, Hl.
  destruct (first_with_found Loss d tl sl0
              (Permutation_in _ (Permutation_sym Pd) Hl)) as (unlucky & losses & Eu).
  destruct (first_with_found Win a tw sw
              (Permutation_in _ (Permutation_sym Pa)
                 (Permutation_in _ (Permutation_sym Pd) Hw))) as (lucky & wins & El).
  destruct (unlucky_is_best_loser d unlucky losses Hd Eu) as (su & Hu1 & Hu2 & Hu3).
  destruct (lucky_is_worst_winner a lucky wins Ha El) as (sl & Hl1 & Hl2 & Hl3).
  assert (Pall : Permutation a ws) by (now rewrite Pa).
  exists lucky, sl, unlucky, su.
  split; [apply (Permutation_in _ Pall Hl1)|].
  split; [intros t s Hin; apply (Hl2 t), (Permutation_in _ (Permutation_sym Pall) Hin)|].
  split; [apply (Permutation_in _ Pd Hu1)|].
  split; [intros t s Hin; apply (Hu2 t), (Permutation_in _ (Permutation_sym Pd) Hin)|].
  cbv zeta. rewrite Eu, El. cbn [app].
  rewrite <- (filter_length_perm (loser_up_to sl) _ _ Pall), <- Hl3.
  rewrite <- (filter_length_perm (winner_from su) _ _ Pd), <- Hu3.
  rewrite (Permutation_length Pd). reflexivity.
Qed.

Lemma get_lucky_trophy_picks_witness :
  exists lucky sl unlucky su,
    In (lucky, (sl, Win)) (week_entries [finished_matchup; other_matchup]) /\
    (forall t s, In (t, (s, Win)) (week_entries [finished_matchup; other_matchup]) ->
                 sl <= s) /\
    In (unlucky, (su, Loss)) (week_entries [finished_matchup; other_matchup]) /\
    (forall t s, In (t, (s, Loss)) (week_entries [finished_matchup; other_matchup]) ->
                 s <= su) /\
    let others := Z.of_nat (List.length (week_entries [finished_matchup; other_matchup])) - 1 in
    let wins :=
      Z.of_nat (List.length (filter (loser_up_to sl)
                               (week_entries [finished_matchup; other_matchup]))) in
    let losses :=
      Z.of_nat (List.length (filter (winner_from su)
                               (week_entries [finished_matchup; other_matchup]))) in
    get_lucky_trophy example_str [finished_matchup; other_matchup] =
    [lucky_text (team_name lucky) (record_text example_str wins (others - wins));
     unlucky_text (team_name unlucky) (record_text example_str (others - losses) losses)].
Proof.
  apply (get_lucky_trophy_picks example_str [finished_matchup; other_matchup]).
  - vm_compute. repeat constructor; simpl; intuition discriminate.
  - discriminate.
Defined.

(** ** The trophies of the week *)

Lemma note_score_of scores decided score side tr :
  trophies_of scores decided tr ->
  trophies_of (scores ++ side_score score side) decided (note_score score side tr).
Proof.
  intros (Hall & Hhigh & Hlow & Hrest). destruct side as [|t]; simpl.
  - rewrite app_nil_r. split; [exact Hall|]. auto.
  - unfold trophies_of.
    destruct (Z.ltb_spec (high_score tr) score) as [Hb | Hb];
      cbn [low_score low_team_name high_score high_team_name closest_score close_winner
           close_loser biggest_blowout blown_out_team_name ownerer_team_name];
      destruct (Z.ltb_spec score (low_score tr)) as [Hw | Hw];
      cbn [low_score low_team_name high_score high_team_name closest_score close_winner
           close_loser biggest_blowout blown_out_team_name ownerer_team_name];
      (split; [|split; [|split; [|exact Hrest]]]);
      try (intros e He; apply in_app_or in He; destruct He as [He | [<- | []]];
           [specialize (Hall e He); lia | simpl; lia]);
      try (right; apply in_or_app; right; now left);
      try (destruct Hhigh as [Hhigh | Hhigh];
           [now left | right; apply in_or_app; now left]);
      try (destruct Hlow as [Hlow | Hlow];
           [now left | right; apply in_or_app; now left]).
Qed.

Lemma note_margin_of scores decided i tr :
  trophies_of scores decided tr ->
  trophies_of scores (decided ++ margin_of i) (note_margin i tr).
Proof.
  intros H. unfold note_margin, margin_of.
  destruct (away_team i) as [|a]; [now rewrite app_nil_r|].
  destruct (home_team i) as [|h]; [now rewrite app_nil_r|].
  destruct H as (Hall & Hhigh & Hlow & Hbig & Hclose & Hbigin & Hclosein).
  assert (Hle : closest_score tr <= 9999) by (destruct Hclosein as [[-> _] | [? _]]; lia).
  set (diff := away_score i - home_score i).
  assert (Hpair : forall A (x y : A),
             (if diff <? 0 then (x, y) else (y, x)) =
             (if diff <? 0 then x else y, if diff <? 0 then y else x)).
  { intros A x y. destruct (diff <? 0); reflexivity. }
  unfold trophies_of. cbv zeta.
  destruct (negb (diff =? 0) && (Z.abs diff <? closest_score tr)) eqn:Ec;
    cbn [low_score low_team_name high_score high_team_name closest_score close_winner
         close_loser biggest_blowout blown_out_team_name ownerer_team_name];
    destruct (Z.ltb_spec (biggest_blowout tr) (Z.abs diff)) as [Hb | Hb];
    cbn [low_score low_team_name high_score high_team_name closest_score close_winner
         close_loser biggest_blowout blown_out_team_name ownerer_team_name];
    (split; [exact Hall|]); (split; [exact Hhigh|]); (split; [exact Hlow|]);
    (split; [|split; [|split]]).
  all: try (apply andb_true_iff in Ec; destruct Ec as [Ez Ec];
            apply negb_true_iff, Z.eqb_neq in Ez; apply Z.ltb_lt in Ec).
  all: try (apply andb_false_iff in Ec).
  all: try (intros m Hm; apply in_app_or in Hm; destruct Hm as [Hm | [<- | []]];
            [specialize (Hbig m Hm); lia | simpl; lia]).
  all: try (intros m Hm Hnz; apply in_app_or in Hm; destruct Hm as [Hm | [<- | []]];
            [specialize (Hclose m Hm Hnz); lia | simpl in *; lia]).
  all: try (right; apply in_or_app; right; rewrite <- Hpair; now left).
  all: try (right; split; [lia|]; apply in_or_app; right; rewrite <- Hpair; now left).
  all: try (destruct Hbigin as [Hbigin | Hbigin];
            [now left | right; apply in_or_app; now left]).
  all: try (destruct Hclosein as [Hclosein | [Hnz Hclosein]];
            [now left | right; split; [exact Hnz | apply in_or_app; now left]]).
  all: try (intros m Hm Hnz; apply in_app_or in Hm; destruct Hm as [Hm | [<- | []]];
            [now apply Hclose|]; cbn [fst] in *;
            destruct Ec as [Ec | Ec];
            [apply negb_false_iff, Z.eqb_eq in Ec; lia | apply Z.ltb_ge in Ec; lia]).
Qed.

Lemma note_matchups_of matchups :
  trophies_of (team_scores matchups) (margins matchups) (note_matchups matchups).
Proof.
  unfold note_matchups, team_scores, margins.
  assert (H : forall scores decided tr,
             trophies_of scores decided tr ->
             trophies_of
               (scores ++ flat_map (fun i => side_score (home_score i) (home_team i) ++
                                             side_score (away_score i) (away_team i))
                            matchups)
               (decided ++ flat_map margin_of matchups)
               (fold_left (fun tr i =>
                             note_margin i
                               (note_score (away_score i) (away_team i)
                                  (note_score (home_score i) (home_team i) tr)))
                  matchups tr)).
  { induction matchups as [|i l IH]; intros scores decided tr Htr; simpl.
    - now rewrite !app_nil_r.
    - rewrite !app_assoc. apply IH. rewrite <- (app_assoc scores), (app_assoc scores).
      now apply note_margin_of, note_score_of, note_score_of. }
  apply (H [] [] week_trophies_start).
  unfold trophies_of, week_trophies_start. simpl.
  split; [intros e []|]. split; [now left|]. split; [now left|].
  split; [intros m []|]. split; [intros m []|]. split; [now left|]. left. auto.
Qed.

Lemma margins_nonneg matchups m : In m (margins matchups) -> 0 <= fst m.
Proof.
  unfold margins. intros H. apply in_flat_map in H. destruct H as (i & _ & Hm).
  unfold margin_of in Hm.
  destruct (away_team i); [destruct Hm|]. destruct (home_team i); [destruct Hm|].
  destruct Hm as [<- | []]. simpl. lia.
Qed.



(** X27: the weekly trophies need the most valuable players: when the week
    has fewer than two starters outside the D/ST slot with a positive
    projection, or fewer than two in the D/ST slot, [get_trophies] raises
    [AttributeError], whatever the other trophies are. *)
Theorem get_trophies_needs_two_candidates :
  forall (format_high format_low : string -> Z -> string)
         (format_close format_blowout : string -> string -> Z -> string)
         (str : Z -> string)
         (format_over format_under : string -> Z -> string)
         (format_points format_defence_points : Z -> Z -> string)
         (format_full : Z -> string -> Z -> Z -> Q -> string)
         (format_best : string -> Q -> string)
         (format_worst : string -> Z -> Q -> string)
         (league : League) (week : option Z),
    (List.length (candidates eligible_player (box_scores_of league week)) < 2)%nat \/
    (List.length (candidates eligible_defence (box_scores_of league week)) < 2)%nat ->
    get_trophies format_high format_low format_close format_blowout str format_over
      format_under format_points format_defence_points format_full format_best
      format_worst league week = Fail AttributeError.
Proof.
  intros fh fl fc fb str fo fu fp fd ff fbest fw league week H.
  unfold get_trophies. cbv zeta.
  destruct (get_mvp_lvp_cases fp fd (box_scores_of league week))
    as [E | (mvp & lvp & mvd & lvd & tp & tl & td & tld & _ & _ & _ & _ & _
             & l1 & l3 & E)].
  - now rewrite E.
  - exfalso. pose proof (get_mvp_lvp_returns_candidates fp fd _ _ E). lia.
Qed.

Lemma get_trophies_needs_two_candidates_witness :
  get_trophies example_format_achiever example_format_achiever
    (fun w l _ => w) (fun w l _ => w) example_str
    example_format_achiever example_format_achiever
    example_format_points example_format_points
    example_format_full example_format_best example_format_worst
    example_league None = Fail AttributeError.
Proof.
  apply get_trophies_needs_two_candidates. right. vm_compute. lia.
Defined.

(** ** The waiver report *)

Lemma activity_report_listed lstrip str today faab activity :
  activity_report lstrip str today faab activity = [] <->
  waiver_listed today activity = false.
Proof.
  unfold activity_report, waiver_listed.
  destruct (String.eqb (activity_day activity) today); cbn [andb]; [|tauto].
  destruct (actions activity) as [|a0 [|a1 l]]; [tauto | |].
  - destruct (String.eqb (action_kind a0) "WAIVER ADDED"); split; congruence.
  - destruct (String.eqb (action_kind a0) "WAIVER ADDED"); cbn [orb];
      [split; congruence|].
    destruct (String.eqb (action_kind a1) "WAIVER ADDED"); split; congruence.
Qed.

Lemma waiver_loop lstrip str today faab activities :
  forall report,
    exists extra,
      fold_left (fun report activity =>
                   report ++ activity_report lstrip str today faab activity)
                activities report = report ++ extra /\
      (extra = [] <-> forall a, In a activities -> waiver_listed today a = false).
Proof.
  induction activities as [|a l IH]; intros report; cbn [fold_left].
  - exists []. rewrite app_nil_r. split; [reflexivity|]. split; [intros _ x [] | reflexivity].
  - destruct (IH (report ++ activity_report lstrip str today faab a)) as (extra & -> & Hx).
    exists (activity_report lstrip str today faab a ++ extra).
    split; [now rewrite app_assoc|]. split.
    + intros E. apply app_eq_nil in E. destruct E as [Ea Ee].
      intros x [<- | Hin]; [now apply activity_report_listed in Ea | now apply Hx].
    + intros H.
      rewrite (proj2 (activity_report_listed lstrip str today faab a)
                 (H a (or_introl eq_refl))).
      apply Hx. intros x Hin. apply H. now right.
Qed.

(** X28: [get_waiver_report] returns the empty string exactly when no
    activity of the day is a waiver add; the text 'No waiver transactions' is
    never returned. *)
Theorem get_waiver_report_silent :
  forall (lstrip : string -> string) (str : Z -> string) (today : string)
         (faab : bool) (activities : list Activity),
    (get_waiver_report lstrip str today faab activities = EmptyString <->
     forall a, In a activities -> waiver_listed today a = false) /\
    get_waiver_report lstrip str today faab activities <> "No waiver transactions".
Proof.
  intros lstrip str today faab activities. unfold get_waiver_report.
  destruct (waiver_loop lstrip str today faab activities []) as (extra & -> & Hx).
  cbn [app]. rewrite <- Hx.
  destruct (rev extra) as [|line lines] eqn:E.
  - assert (Hn : extra = []).
    { rewrite <- (rev_involutive extra), E. reflexivity. }
    split; [tauto | discriminate].
  - assert (Hn : extra <> []) by (intros ->; discriminate).
    cbn [join]. split.
    + split; [|tauto]. simpl. discriminate.
    + simpl. discriminate.
Qed.

(** ** The standings *)

Lemma map_result_ok {A B} (f : A -> result B) l :
  (forall x, In x l -> exists y, f x = Ok y) ->
  exists ys,
    map_result f l = Ok ys /\ List.length ys = List.length l /\
    (forall y, In y ys -> exists x, In x l /\ f x = Ok y).
Proof.
  induction l as [|x l IH]; intros H; cbn [map_result].
  - exists []. split; [reflexivity|]. split; [reflexivity | intros y []].
  - destruct (H x (or_introl eq_refl)) as [y Hy].
    destruct IH as (ys & Hys & Hlen & Hin); [intros z Hz; apply H; now right|].
    rewrite Hy, Hys. cbn [and_then]. exists (y :: ys).
    split; [reflexivity|]. split; [simpl; now rewrite Hlen|].
    intros y' [<- | Hy']; [exists x; split; [now left | exact Hy]|].
    destruct (Hin y' Hy') as (x' & Hx' & E). exists x'. split; [now right | exact E].
Qed.

Lemma enumerate_from_length {A} (l : list A) :
  forall pos, List.length (enumerate_from pos l) = List.length l.
Proof. induction l as [|x l IH]; intros pos; simpl; [reflexivity | now rewrite IH]. Qed.

Lemma enumerate_from_snd {A} (l : list A) :
  forall pos p, In p (enumerate_from pos l) -> In (snd p) l.
Proof.
  induction l as [|x l IH]; intros pos p; simpl; [tauto|].
  intros [<- | H]; [now left | right; now apply (IH (pos + 1))].
Qed.

Lemma standings_text_ok week standings_txt :
  exists heading,
    standings_text week standings_txt = Ok (join newline (heading :: standings_txt)).
Proof.
  unfold standings_text.
  destruct (Z.leb_spec week 13), (Z.leb_spec 14 week), (Z.leb_spec week 15),
    (Z.leb_spec 16 week); cbn [andb]; try lia; eexists; reflexivity.
Qed.

Lemma weeks_credited league weeks :
  forall totals : dict Z,
    (forall w, In w weeks ->
       (forall i, In i (box_scores_of league (Some w)) -> is_team (home_team i) = true) /\
       (forall e, In e (week_scores (box_scores_of league (Some w))) ->
                  In (snd e) (dict_keys totals))) ->
    exists totals',
      for_result weeks
        (fun top_half_totals w =>
           top_half_wins (box_scores_of league (Some w)) top_half_totals) totals =
      Ok totals' /\
      dict_keys totals' = dict_keys totals /\
      sum (dict_values totals') = sum (dict_values totals) + wins_handed_out league weeks.
Proof.
  unfold wins_handed_out.
  induction weeks as [|w weeks IH]; intros totals H; cbn [for_result map].
  - exists totals. split; [reflexivity|]. split; [reflexivity|]. unfold sum at 3. simpl. lia.
  - destruct (H w (or_introl eq_refl)) as [Hhome Hkeys].
    rewrite (top_half_wins_run _ _ Hhome).
    pose proof (credit_loop (top_half (box_scores_of league (Some w))) totals) as Hc.
    destruct (for_result (top_half (box_scores_of league (Some w))) _ totals) as [t1|e].
    + destruct Hc as (_ & Hk & _ & Hs). cbn [and_then].
      destruct (IH t1) as (t2 & Hrun & Hk2 & Hs2).
      { intros v Hv. destruct (H v (or_intror Hv)) as [Hh Hn]. split; [exact Hh|].
        rewrite Hk. exact Hn. }
      exists t2. split; [exact Hrun|]. split; [now rewrite Hk2|].
      rewrite Hs2, Hs, top_half_length, sum_cons. lia.
    + destruct Hc as (_ & x & Hx & Hn). exfalso. apply Hn, Hkeys.
      now apply top_half_incl.
Qed.

Lemma zero_totals_sum (league_teams : list Team) :
  sum (dict_values (dict_of_items (map (fun t => (team_name t, 0)) league_teams))) = 0.
Proof.
  unfold dict_of_items.
  assert (H : forall acc : dict Z,
             sum (dict_values acc) = 0 -> (forall kv, In kv acc -> snd kv = 0) ->
             sum (dict_values
                    (fold_left (fun d kv => dict_set d (fst kv) (snd kv))
                       (map (fun t => (team_name t, 0)) league_teams) acc)) = 0).
  { induction league_teams as [|t l IH]; intros acc Hs Hz; cbn [map fold_left fst snd];
      [exact Hs|].
    apply IH.
    - destruct (dict_get acc (team_name t)) as [v|] eqn:E.
      + rewrite (sum_values_set _ _ _ _ E), Hs.
        apply dict_get_In in E. specialize (Hz _ E). simpl in Hz. lia.
      + apply dict_get_none_keys in E. rewrite (dict_set_absent _ _ _ E).
        unfold dict_values. rewrite map_app, sum_app. fold (dict_values acc).
        rewrite Hs. reflexivity.
    - intros kv Hin. apply dict_set_items_in in Hin.
      destruct Hin as [-> | Hin]; [reflexivity | now apply Hz]. }
  apply (H []); [reflexivity | intros kv []].
Qed.




(** ** The statements above at concrete inputs *)

Lemma get_close_scores_empty_iff_witness :
  get_close_scores example_format_score [finished_matchup; bye_matchup] = Ok EmptyString.
Proof.
  apply (proj2 (get_close_scores_empty_iff example_format_score
                  [finished_matchup; bye_matchup])).
  intros i [<- | [<- | []]]; reflexivity.
Defined.

Lemma get_starter_counts_first_matchup_only_witness :
  get_starter_counts [scenario_D; empty_matchup] = get_starter_counts [scenario_D].
Proof. apply (proj1 get_starter_counts_first_matchup_only). Defined.

Lemma get_starter_counts_well_formed_witness :
  exists starter_counts,
    get_starter_counts [scenario_D] = Returned (Some starter_counts) /\
    NoDup (dict_keys starter_counts) /\
    (forall slot n, dict_get starter_counts slot = Some n ->
                    (1 <= n)%nat /\ slot <> "BE" /\ slot <> "IR") /\
    list_sum (dict_values starter_counts) = 10%nat.
Proof. apply (get_starter_counts_well_formed scenario_D []). Defined.

Lemma optimal_lineup_within_counts_witness :
  (List.length (bucket_of (optimal_lineup bench_lineup scenario_A_counts) "RB") <= 1)%nat.
Proof. apply (proj1 (optimal_lineup_within_counts bench_lineup scenario_A_counts "RB")). Defined.

Lemma best_flex_takes_the_highest_witness :
  exists chosen rest,
    fst (best_flex ["RB"; "WR"] 1
           {| pool := []; best := [];
              player_pool := [("RB", [("a", 3)]); ("WR", [("b", 5)])] |}) =
      Returned (chosen, rest) /\
    List.length chosen = 1%nat /\
    incl chosen [("a", 3); ("b", 5)] /\
    forall x v y w,
      In (x, v) chosen -> In (y, w) [("a", 3); ("b", 5)] -> ~ In (y, w) chosen -> w <= v.
Proof.
  apply (best_flex_takes_the_highest ["RB"; "WR"] 1
           {| pool := []; best := [];
              player_pool := [("RB", [("a", 3)]); ("WR", [("b", 5)])] |}).
Defined.

Lemma get_achievers_trophy_extremes_witness :
  exists high low,
    get_achievers_trophy example_format_achiever example_format_achiever
      [running_matchup] = [high; low] /\
    ((forall e, In e (performances [running_matchup]) -> fst e <= 0) ->
     high = no_over_achiever) /\
    ((exists e, In e (performances [running_matchup]) /\ 0 < fst e) ->
     exists best team,
       In (best, team) (performances [running_matchup]) /\
       (forall e, In e (performances [running_matchup]) -> fst e <= best) /\
       high = example_format_achiever team best) /\
    ((forall e, In e (performances [running_matchup]) -> 0 <= fst e) ->
     low = no_under_achiever) /\
    ((exists e, In e (performances [running_matchup]) /\ fst e < 0) ->
     exists worst team,
       In (worst, team) (performances [running_matchup]) /\
       (forall e, In e (performances [running_matchup]) -> worst <= fst e) /\
       low = example_format_achiever team (- worst)).
Proof.
  apply (get_achievers_trophy_extremes example_format_achiever example_format_achiever
           [running_matchup]).
Defined.

Lemma get_waiver_report_silent_witness :
  get_waiver_report (fun s => s) example_str "2024-10-01" false
    [ {| activity_day := "2024-09-30"; actions := [] |} ] = EmptyString.
Proof.
  apply (proj2 (proj1 (get_waiver_report_silent (fun s => s) example_str "2024-10-01"
                         false [ {| activity_day := "2024-09-30"; actions := [] |} ]))).
  intros a [<- | []]. reflexivity.
Defined.

